(** * schooltgbot: the homework board bot of [main.py]

A shallow embedding of the parts of [main.py] that decide what the bot
stores and answers: the subject store [board_data], the mute set
[muted_users], the per-user conversation registry [user_states], the
subject resolver ([build_subject_alias_map], [normalize_word],
[find_subject_in_message]), the message handlers with the order in
which they are registered, the two files the store and the mute set are
saved to, and the reading of a line typed at the console.

Conventions.
- A Python [str] is the list of its code points ([pystr]).  String
  literals of the source are written [py "..."], which decodes the
  UTF-8 bytes of the literal.
- Built-ins whose result rests on the Unicode character database
  ([str.lower], [str.isdigit], the alphanumeric test behind [\w],
  [int(str)]) are the
  fields of the class [PyUnicode]; general theorems hold for every
  instance, examples run on [basic_unicode].
- A handler is a function from the bot state and the update to the new
  state and the list of calls it makes on the transport, in order.
  Transport calls are taken to succeed; the texts the bot sends are kept
  symbolic, one constructor of [reply] per message template of the
  source.  Calls of [log_debug_info] are not part of the model. *)

From Stdlib Require Import ZArith NArith String Ascii List Bool Lia DecimalString Sorted.
From stdpp Require Import gmap list.

Local Open Scope N_scope.

(** ** Python strings *)

Definition pystr := list N.

Module Utf8.

Fixpoint bytes (s : string) : list N :=
  match s with
  | EmptyString => []
  | String a s' => N_of_ascii a :: bytes s'
  end.

Fixpoint decode (bs : list N) : pystr :=
  match bs with
  | [] => []
  | b0 :: r0 =>
    if b0 <? 128 then b0 :: decode r0
    else
      match r0 with
      | [] => []
      | b1 :: r1 =>
        if b0 <? 224 then ((b0 - 192) * 64 + (b1 - 128)) :: decode r1
        else
          match r1 with
          | [] => []
          | b2 :: r2 =>
            if b0 <? 240
            then ((b0 - 224) * 4096 + (b1 - 128) * 64 + (b2 - 128)) :: decode r2
            else
              match r2 with
              | [] => []
              | b3 :: r3 =>
                ((b0 - 240) * 262144 + (b1 - 128) * 4096
                 + (b2 - 128) * 64 + (b3 - 128)) :: decode r3
              end
          end
      end
  end.

End Utf8.

(** [py "text"] is the Python string whose UTF-8 encoding is the literal. *)
Definition py (s : string) : pystr := Utf8.decode (Utf8.bytes s).

Definition pystr_eqb (a b : pystr) : bool := bool_decide (a = b).

(** Truth value of a string: [if s] / [if not s]. *)
Definition truthy (s : pystr) : bool :=
  match s with [] => false | _ => true end.

(** [Py_UNICODE_ISSPACE]: the characters [str.strip], [str.split] and the
    regular expression class [\s] treat as white space. *)
Definition isspace (c : N) : bool :=
  ((9 <=? c) && (c <=? 13)) || ((28 <=? c) && (c <=? 32))
  || (c =? 133) || (c =? 160) || (c =? 5760)
  || ((8192 <=? c) && (c <=? 8202))
  || (c =? 8232) || (c =? 8233) || (c =? 8239) || (c =? 8287) || (c =? 12288).

Fixpoint lstrip (s : pystr) : pystr :=
  match s with
  | c :: s' => if isspace c then lstrip s' else s
  | [] => []
  end.

Definition rstrip (s : pystr) : pystr := rev (lstrip (rev s)).

(** [s.strip()] *)
Definition strip (s : pystr) : pystr := rstrip (lstrip s).

(** [s.replace(c, "")] for a one-character [c]. *)
Definition remove_char (c : N) (s : pystr) : pystr :=
  filter (fun x => x ≠ c) s.

Definition SPACE : N := 32.
Definition DQUOTE : N := 34.
Definition SQUOTE : N := 39.
Definition SLASH : N := 47.
Definition AT : N := 64.

(** [s.startswith(p)] *)
Fixpoint startswith (p s : pystr) : bool :=
  match p, s with
  | [], _ => true
  | a :: p', b :: s' => (a =? b) && startswith p' s'
  | _ :: _, [] => false
  end.

(** [s.endswith(p)] *)
Definition endswith (p s : pystr) : bool := startswith (rev p) (rev s).

(** [s.split()]: the maximal runs of non-space characters. *)
Fixpoint split_ws_go (cur : pystr) (s : pystr) : list pystr :=
  match s with
  | [] => match cur with [] => [] | _ => [rev cur] end
  | c :: s' =>
    if isspace c
    then match cur with
         | [] => split_ws_go [] s'
         | _ => rev cur :: split_ws_go [] s'
         end
    else split_ws_go (c :: cur) s'
  end.

Definition split_ws (s : pystr) : list pystr := split_ws_go [] s.

(** [s.split(c, 1)] for a one-character separator: the text before the
    first [c] and, when there is one, the text after it. *)
Fixpoint split1 (c : N) (s : pystr) : pystr * option pystr :=
  match s with
  | [] => ([], None)
  | x :: s' =>
    if x =? c then ([], Some s')
    else let '(a, b) := split1 c s' in (x :: a, b)
  end.

(** [s.split(c, maxsplit)] for a one-character separator. *)
Fixpoint split_max (c : N) (maxsplit : nat) (s : pystr) : list pystr :=
  match maxsplit with
  | O => [s]
  | S n =>
    match split1 c s with
    | (a, None) => [a]
    | (a, Some b) => a :: split_max c n b
    end
  end.

(** [s[1:-1]] *)
Definition slice_1_m1 (s : pystr) : pystr := removelast (tail s).

(** [s.find(c, from)] for a one-character [c]; [None] stands for [-1]. *)
Fixpoint find_from (c : N) (from : nat) (s : pystr) : option nat :=
  match s with
  | [] => None
  | x :: s' =>
    match from with
    | S n => S <$> find_from c n s'
    | O => if x =? c then Some O else S <$> find_from c O s'
    end
  end.

(** [s[a:b]] for [0 <= a], [0 <= b]. *)
Definition slice (a b : nat) (s : pystr) : pystr := take (b - a)%nat (drop a s).

(** ** Built-ins that rest on the Unicode character database *)

Class PyUnicode := {
  (** [str.lower] *)
  lower : pystr → pystr;
  (** [Py_UNICODE_ISALNUM], the test behind the class [\w] *)
  isalnum : N → bool;
  (** [int(s)]; [None] stands for [ValueError] *)
  py_int : pystr → option Z;
  (** [str.isdigit] *)
  py_isdigit : pystr → bool
}.

(** The instance on which the examples run.  It agrees with CPython on
    texts whose code points are below U+0080 or in the Cyrillic range
    U+0400..U+045F; every other code point is taken to be uncased and
    not alphanumeric. *)
Module Basic.

Definition lower_char (c : N) : N :=
  if (65 <=? c) && (c <=? 90) then c + 32
  else if (1040 <=? c) && (c <=? 1071) then c + 32
  else if (1024 <=? c) && (c <=? 1039) then c + 80
  else c.

Definition isdigit (c : N) : bool := (48 <=? c) && (c <=? 57).

Definition isalnum (c : N) : bool :=
  isdigit c || ((65 <=? c) && (c <=? 90)) || ((97 <=? c) && (c <=? 122))
  || ((1024 <=? c) && (c <=? 1119)).

Fixpoint digits (acc : Z) (after_digit : bool) (s : pystr) : option Z :=
  match s with
  | [] => if after_digit then Some acc else None
  | c :: s' =>
    if isdigit c then digits (10 * acc + Z.of_N (c - 48))%Z true s'
    else if (c =? 95) && after_digit then digits acc false s'
    else None
  end.

Definition int (s : pystr) : option Z :=
  match strip s with
  | 45 :: d => Z.opp <$> digits 0%Z false d
  | 43 :: d => digits 0%Z false d
  | d => digits 0%Z false d
  end.

End Basic.

#[export] Instance basic_unicode : PyUnicode := {|
  lower := map Basic.lower_char;
  isalnum := Basic.isalnum;
  py_int := Basic.int;
  py_isdigit := λ s, truthy s && forallb Basic.isdigit s
|}.


(** ** Results of code that can raise *)

Inductive exn := IndexError | KeyError | AttributeError.

Inductive res (A : Type) :=
| Ok (a : A)
| Raise (e : exn).
Arguments Ok {A} a.
Arguments Raise {A} e.

(** ** Regular expressions: the fragment of [re] the patterns use *)

Module Re.

Inductive regex :=
| Lit (s : pystr)                  (* literal text *)
| Class (p : N → bool)             (* one character of a class *)
| Cat (r1 r2 : regex)
| Alt (r1 r2 : regex)              (* r1|r2, left alternative first *)
| Plus (p : N → bool)              (* X+ for a one-character X, greedy *)
| Opt (r : regex)                  (* X?, greedy *)
| Group (i : nat) (r : regex).     (* capturing group number i *)

(** The groups closed so far, the last closed one first. *)
Definition groups := list (nat * pystr).

Section Exec.
Context {A : Type}.

(** Greedy repetition: the longest run first, then shorter ones. *)
Fixpoint star (p : N → bool) (s : pystr) (k : pystr → option A) : option A :=
  match s with
  | c :: s' =>
    if p c
    then match star p s' k with
         | Some a => Some a
         | None => k s
         end
    else k s
  | [] => k s
  end.

(** Backtracking matcher: [k] is what has to match after [r]. *)
Fixpoint exec (r : regex) (s : pystr) (g : groups)
    (k : pystr → groups → option A) : option A :=
  match r with
  | Lit l => if startswith l s then k (drop (length l) s) g else None
  | Class p =>
    match s with
    | c :: s' => if p c then k s' g else None
    | [] => None
    end
  | Cat r1 r2 => exec r1 s g (λ s' g', exec r2 s' g' k)
  | Alt r1 r2 =>
    match exec r1 s g k with
    | Some a => Some a
    | None => exec r2 s g k
    end
  | Plus p =>
    match s with
    | c :: s' => if p c then star p s' (λ s'', k s'' g) else None
    | [] => None
    end
  | Opt r =>
    match exec r s g k with
    | Some a => Some a
    | None => k s g
    end
  | Group i r =>
    exec r s g (λ s' g', k s' ((i, take (length s - length s') s) :: g'))
  end.

End Exec.

(** [re.search(r, s)]: the match at the leftmost position that has one. *)
Fixpoint search (r : regex) (s : pystr) : option groups :=
  match exec r s [] (λ _ g, Some g) with
  | Some g => Some g
  | None =>
    match s with
    | [] => None
    | _ :: s' => search r s'
    end
  end.

(** [match.group(match.lastindex)] *)
Definition last_group (g : groups) : pystr :=
  match g with
  | (_, b) :: _ => b
  | [] => []
  end.

Definition seq (rs : list regex) : regex := foldr Cat (Lit []) rs.

(** [\s] and [.] (no DOTALL flag: every character but the line feed) *)
Definition space : N → bool := isspace.
Definition dot : N → bool := λ c, negb (c =? 10).
Definition one_of (cs : pystr) : N → bool := λ c, bool_decide (c ∈ cs).

End Re.

(** ** The subject store *)

Record entry := { text : pystr; photo_id : option pystr }.

(** A Python [dict] with string keys, in insertion order. *)
Module Dict.

Section Dict.
Context {V : Type}.

Definition t := list (pystr * V).

Definition keys (d : t) : list pystr := d.*1.

(** [d.get(k)] *)
Fixpoint get (k : pystr) (d : t) : option V :=
  match d with
  | [] => None
  | (k', v) :: d' => if pystr_eqb k' k then Some v else get k d'
  end.

(** [k in d] *)
Definition mem (k : pystr) (d : t) : bool := bool_decide (is_Some (get k d)).

(** [d[k] = v]: a present key keeps its place, a new one goes last. *)
Fixpoint set (k : pystr) (v : V) (d : t) : t :=
  match d with
  | [] => [(k, v)]
  | (k', v') :: d' =>
    if pystr_eqb k' k then (k', v) :: d' else (k', v') :: set k v d'
  end.

(** [del d[k]] *)
Definition del (k : pystr) (d : t) : t :=
  filter (λ kv, kv.1 ≠ k) (d : list (pystr * V)).

End Dict.
Arguments t : clear implicits.

End Dict.

(** ** The subject resolver *)

Section Resolver.
Context {U : PyUnicode}.

(** [\w] on [str] patterns: alphanumeric or underscore. *)
Definition is_word (c : N) : bool := isalnum c || (c =? 95).

(** The characters the class [[^\wа-яё]] does not match. *)
Definition kept_by_normalize (c : N) : bool :=
  is_word c || ((1072 <=? c) && (c <=? 1103)) || (c =? 1105).

(** [re.sub(r'[^\wа-яё]', '', w.lower()).strip()] *)
Definition normalize_word (w : pystr) : pystr :=
  strip (filter (λ c, Is_true (kept_by_normalize c)) (lower w)).

(** The body of the loop of [build_subject_alias_map]. *)
Definition add_aliases (alias_map : gmap pystr pystr) (subj_key : pystr)
    : gmap pystr pystr :=
  if negb (truthy subj_key) then alias_map
  else
    let key := lower subj_key in
    let m1 := <[key := key]> alias_map in
    let short := take 4 (remove_char SPACE key) in
    let m2 := if (2 <=? length short)%nat then <[short := key]> m1 else m1 in
    let nospace := remove_char SPACE key in
    let m3 := if truthy nospace && negb (pystr_eqb nospace key)
              then <[nospace := key]> m2 else m2 in
    if (2 <=? length nospace)%nat then <[take 4 nospace := key]> m3 else m3.

Definition build_subject_alias_map (board_data : Dict.t entry)
    : gmap pystr pystr :=
  fold_left add_aliases (Dict.keys board_data) ∅.

(** The interrogative patterns, in the order of the source. *)
Definition patterns : list Re.regex :=
  let ws := Re.Plus Re.space in
  let tail i := Re.Group i (Re.Plus Re.dot) in
  let dz := [Re.Lit (py "д"); Re.Opt (Re.Class (Re.one_of (py "з")))] in
  [ (* что\s+(задали|по)\s+(.+) *)
    Re.seq [Re.Lit (py "что"); ws;
            Re.Group 1 (Re.Alt (Re.Lit (py "задали")) (Re.Lit (py "по")));
            ws; tail 2%nat];
    (* что\s+по\s+(.+) *)
    Re.seq [Re.Lit (py "что"); ws; Re.Lit (py "по"); ws; tail 1%nat];
    (* что\s+задали\s+по\s+(.+) *)
    Re.seq [Re.Lit (py "что"); ws; Re.Lit (py "задали"); ws;
            Re.Lit (py "по"); ws; tail 1%nat];
    (* какое\s+д[з]?\s+по\s+(.+) *)
    Re.seq ([Re.Lit (py "какое"); ws] ++ dz
            ++ [ws; Re.Lit (py "по"); ws; tail 1%nat]);
    (* д[з]?\s+по\s+(.+) *)
    Re.seq (dz ++ [ws; Re.Lit (py "по"); ws; tail 1%nat]);
    (* что\spo\s(.+) *)
    Re.seq [Re.Lit (py "что"); Re.Class Re.space; Re.Lit (py "po");
            Re.Class Re.space; tail 1%nat] ].

(** The candidate strings of a (stripped) subject block; taking the first
    word of a block without words raises [IndexError]. *)
Definition candidates (subject_block : pystr) : res (list pystr) :=
  match split_ws subject_block with
  | [] => Raise IndexError
  | first_word :: _ =>
    let unquoted := remove_char SQUOTE (remove_char DQUOTE subject_block) in
    Ok [ normalize_word first_word;
         normalize_word subject_block;
         normalize_word unquoted;
         strip unquoted ]
  end.

(** One round of the loop [for cand in candidates]. *)
Definition lookup_candidate (alias_map : gmap pystr pystr) (cand : pystr)
    : option pystr :=
  if negb (truthy cand) then None
  else
    match alias_map !! cand with
    | Some k => Some k
    | None => alias_map !! take 4 (remove_char SPACE cand)
    end.

Fixpoint lookup_candidates (alias_map : gmap pystr pystr) (cands : list pystr)
    : option pystr :=
  match cands with
  | [] => None
  | cand :: rest =>
    match lookup_candidate alias_map cand with
    | Some k => Some k
    | None => lookup_candidates alias_map rest
    end
  end.

(** What one pattern yields on the normalised text: nothing to try
    ([Skip]: no match, or an empty block), or the outcome of its
    candidates. *)
Inductive attempt :=
| Skip
| Tried (block : pystr) (r : res (option pystr)).

Definition try_pattern (alias_map : gmap pystr pystr) (text_norm : pystr)
    (pattern : Re.regex) : attempt :=
  match Re.search pattern text_norm with
  | None => Skip
  | Some g =>
    let subject_block := Re.last_group g in
    if negb (truthy subject_block) then Skip
    else
      let subject_block := strip subject_block in
      Tried subject_block
        match candidates subject_block with
        | Raise e => Raise e
        | Ok cands => Ok (lookup_candidates alias_map cands)
        end
  end.

(** The loop [for pattern in patterns] and the final [return None]. *)
Fixpoint try_patterns (alias_map : gmap pystr pystr) (text_norm : pystr)
    (pats : list Re.regex) : res (option pystr) :=
  match pats with
  | [] => Ok None
  | pattern :: rest =>
    match try_pattern alias_map text_norm pattern with
    | Tried _ (Raise e) => Raise e
    | Tried _ (Ok (Some k)) => Ok (Some k)
    | Tried _ (Ok None) | Skip => try_patterns alias_map text_norm rest
    end
  end.

Definition find_subject_in_message (board_data : Dict.t entry) (text : pystr)
    : res (option pystr) :=
  if negb (truthy text) then Ok None
  else
    let text_norm := strip (lower text) in
    let alias_map := build_subject_alias_map board_data in
    try_patterns alias_map text_norm patterns.

End Resolver.

(** ** Configuration constants *)

Local Open Scope Z_scope.

Definition TELEGRAM_CHAT_ID : list Z :=
  [-1002415770314; -1002425817720; 6066445210; -1002362627260].
Definition ADMIN_ID : list Z := [6066445210].
Definition DEBUG_CHAT_ID : Z := -1002425817720.
Definition FORBIDDEN_STICKER_SET : pystr := py "trjufgz_by_stickrubot".

(** The negation of the test
    [chat_id not in TELEGRAM_CHAT_ID and chat_id != DEBUG_CHAT_ID]. *)
Definition chat_allowed (chat_id : Z) : bool :=
  bool_decide (chat_id ∈ TELEGRAM_CHAT_ID) || bool_decide (chat_id = DEBUG_CHAT_ID).

Definition is_admin (user_id : Z) : bool := bool_decide (user_id ∈ ADMIN_ID).

(** ** Updates delivered by the transport *)

Record User := { id : Z; username : option pystr }.

Inductive content :=
| Text (t : pystr)
| Photo (caption : option pystr) (sizes : list pystr)  (* file ids, largest last *)
| Sticker (set_name : option pystr)
| Other.

Record Message := {
  message_id : Z;
  chat_id : Z;
  chat_private : bool;          (* chat.type == "private" *)
  from_user : User;
  date : Z;                     (* Unix time *)
  body : content
}.

Record CallbackQuery := {
  cq_from_user : User;
  cq_data : pystr;
  cq_message : Message          (* the message that carries the button *)
}.

Inductive update :=
| Msg (m : Message)
| Callback (c : CallbackQuery).

(** [message.text] and [message.caption] *)
Definition msg_text (m : Message) : option pystr :=
  match body m with Text t => Some t | _ => None end.
Definition msg_caption (m : Message) : option pystr :=
  match body m with Photo c _ => c | _ => None end.

(** ** Bot state *)

Inductive phase := waiting_for_subject | waiting_for_homework_details.

#[export] Instance phase_eq_dec : EqDecision phase.
Proof. solve_decision. Defined.

(** An entry of [user_states]: the key "state" is always there, "subject"
    and "bot_prompt_message_id" are set on the way. *)
Record user_state := {
  state : phase;
  subject : option pystr;
  bot_prompt_message_id : option Z
}.

Record bot := {
  board_data : Dict.t entry;
  muted_users : gset Z;
  user_states : gmap Z user_state;
  next_message_id : Z           (* the id the transport gives the next message sent *)
}.

(** ** What the bot sends: one constructor per message template *)

Inductive reply :=
| WelcomeMenu
| PromptSubject
| PromptDetails (subject : pystr)
| DeleteHelp
| ListEmpty
| ListChoose (buttons : list pystr)
| Homework (subject_key : pystr) (text : pystr)
| SubjectNotFound (subject : pystr)
| AddCancelled
| NothingToCancel
| GenericError
| NoRights
| FunctionOnlyInWorkChats
| CommandOnlyInWorkChats
| YouAreMuted
| YouAreMutedDel
| SubjectMustNotBeEmpty
| SubjectMissingRestart
| DetailsMustNotBeEmpty
| Added (subject : pystr) (with_photo : bool)
| SetNeedsCaption
| SetBadFormat
| SetBadQuotes
| SetSubjectEmpty
| SetTextEmpty
| DelBadFormat
| DelSubjectEmpty
| Deleted (key : pystr)
| MuteBadFormat
| BadUserId
| MutedOk (user_id : Z)
| MuteError
| UnmuteBadFormat
| UnmutedOk (user_id : Z)
| UnmuteError
| MsguBadFormat
| MsguBadGroup
| MsguSent (group_id : Z)
| Raw (text : pystr)
| Restarting.

(** The calls on the transport and on the files. *)
Inductive action :=
| send_message (chat : Z) (r : reply) (sent_id : Z)
| reply_to (chat : Z) (to : Z) (r : reply) (sent_id : Z)
| send_photo (chat : Z) (photo : pystr) (cap : reply) (sent_id : Z)
| delete_message (chat : Z) (msg : Z)
| delete_message_with_delay (chat : Z) (msg : Z) (delay : Z)
| answer_callback_query
| save_data (snapshot : Dict.t entry)
| save_muted_users (snapshot : gset Z)
| execl
| uncaught (e : exn).

(** ** The handler monad: state of the bot and the calls made so far *)

Definition M (A : Type) : Type := bot → A * bot * list action.

#[export] Instance M_ret : MRet M := λ A a s, (a, s, []).
#[export] Instance M_bind : MBind M := λ A B f m s,
  let '(a, s1, o1) := m s in
  let '(b, s2, o2) := f a s1 in
  (b, s2, o1 ++ o2).

Definition get_bot : M bot := λ s, (s, s, []).
Definition emit (a : action) : M unit := λ s, (tt, s, [a]).
Definition skip : M unit := mret tt.

Definition set_board_data (d : Dict.t entry) : M unit := λ s,
  (tt, {| board_data := d; muted_users := muted_users s;
          user_states := user_states s; next_message_id := next_message_id s |}, []).
Definition set_muted_users (ms : gset Z) : M unit := λ s,
  (tt, {| board_data := board_data s; muted_users := ms;
          user_states := user_states s; next_message_id := next_message_id s |}, []).
Definition set_user_states (us : gmap Z user_state) : M unit := λ s,
  (tt, {| board_data := board_data s; muted_users := muted_users s;
          user_states := us; next_message_id := next_message_id s |}, []).

(** The transport numbers the message it sends and returns that number. *)
Definition fresh_id : M Z := λ s,
  (next_message_id s,
   {| board_data := board_data s; muted_users := muted_users s;
      user_states := user_states s; next_message_id := next_message_id s + 1 |}, []).

Definition bot_send_message (chat : Z) (r : reply) : M Z :=
  i ← fresh_id; emit (send_message chat r i);; mret i.
Definition bot_reply_to (m : Message) (r : reply) : M Z :=
  i ← fresh_id; emit (reply_to (chat_id m) (message_id m) r i);; mret i.
Definition bot_send_photo (chat : Z) (photo : pystr) (cap : reply) : M Z :=
  i ← fresh_id; emit (send_photo chat photo cap i);; mret i.

(** What a handler leaves behind: the new state and its calls. *)
Definition run (h : M unit) (s : bot) : bot * list action :=
  let '(_, s', o) := h s in (s', o).

Definition update_board_data (f : Dict.t entry → Dict.t entry) : M unit :=
  s ← get_bot; set_board_data (f (board_data s)).
Definition update_muted_users (f : gset Z → gset Z) : M unit :=
  s ← get_bot; set_muted_users (f (muted_users s)).
Definition update_user_states (f : gmap Z user_state → gmap Z user_state) : M unit :=
  s ← get_bot; set_user_states (f (user_states s)).

(** [save_data()] and [save_muted_users()] write the current mapping. *)
Definition do_save_data : M unit := s ← get_bot; emit (save_data (board_data s)).
Definition do_save_muted_users : M unit :=
  s ← get_bot; emit (save_muted_users (muted_users s)).

(** Truth value of an optional string or number ([None], "" and 0 are false). *)
Definition truthy_opt (o : option pystr) : bool :=
  match o with Some s => truthy s | None => false end.
Definition truthy_id (o : option Z) : bool :=
  match o with Some i => negb (i =? 0) | None => false end.

(** ** Dates and numbers in the stored text *)

(** [str(n)] *)
Definition str_of_Z (n : Z) : pystr :=
  py (NilZero.string_of_int (Z.to_int n)).

Definition two_digits (n : Z) : pystr :=
  [Z.to_N (48 + n / 10); Z.to_N (48 + n mod 10)].

(** Month and day of the proleptic Gregorian calendar, from the number of
    days since 1970-01-01. *)
Definition month_day (days : Z) : Z * Z :=
  let z := days + 719468 in
  let era := z / 146097 in
  let doe := z - era * 146097 in
  let yoe := (doe - doe / 1460 + doe / 36524 - doe / 146096) / 365 in
  let doy := doe - (365 * yoe + yoe / 4 - yoe / 100) in
  let mp := (5 * doy + 2) / 153 in
  let d := doy - (153 * mp + 2) / 5 + 1 in
  let m := if mp <? 10 then mp + 3 else mp - 9 in
  (m, d).

Definition months_ru : list pystr :=
  [ py "января"; py "февраля"; py "марта"; py "апреля";
    py "мая"; py "июня"; py "июля"; py "августа";
    py "сентября"; py "октября"; py "ноября"; py "декабря" ].

(** The date of a message at UTC+4, as "<day> <month> в <HH:MM>". *)
Definition formatted_date (message_date_unix : Z) : pystr :=
  let t := message_date_unix + 4 * 3600 in
  let '(month, day) := month_day (t / 86400) in
  let secs := t mod 86400 in
  let month_ru := default [] (months_ru !! Z.to_nat (month - 1)) in
  let time_str := two_digits (secs / 3600) ++ py ":" ++ two_digits (secs mod 3600 / 60) in
  str_of_Z day ++ py " " ++ month_ru ++ py " в " ++ time_str.

Definition user_mention (user : User) : pystr :=
  match username user with
  | Some n => if truthy n then py "@" ++ n else py "User ID: " ++ str_of_Z (id user)
  | None => py "User ID: " ++ str_of_Z (id user)
  end.

(** The text stored for a homework: the text given, then who added it and
    when. *)
Definition full_value_text (message : Message) (user : User) (homework_text : pystr)
    : pystr :=
  homework_text ++ [10; 10]%N ++ py "(Добавлено " ++ formatted_date (date message)
  ++ py " пользователем " ++ user_mention user ++ py ")".

(** [sorted(keys, key=lambda x: x.lower())]: a stable sort by code points. *)
Fixpoint pystr_ltb (a b : pystr) : bool :=
  match a, b with
  | _, [] => false
  | [], _ :: _ => true
  | x :: a', y :: b' => (x <? y)%N || ((x =? y)%N && pystr_ltb a' b')
  end.

Fixpoint sorted_insert (key : pystr → pystr) (x : pystr) (l : list pystr) : list pystr :=
  match l with
  | [] => [x]
  | y :: l' =>
    if pystr_ltb (key y) (key x) then y :: sorted_insert key x l' else x :: l
  end.

Definition sorted_by (key : pystr → pystr) (l : list pystr) : list pystr :=
  foldr (sorted_insert key) [] l.

(** ** Handlers *)

Section Handlers.
Context {U : PyUnicode}.

(** [delete_message_with_delay] with its default delay. *)
Definition delete_later (chat msg : Z) : M unit :=
  emit (delete_message_with_delay chat msg 300).

Definition _save_and_confirm_homework (message : Message) (subject homework_text : pystr)
    (photo_file_id : option pystr) (user : User) : M unit :=
  let key_lower := lower subject in
  update_board_data
    (Dict.set key_lower {| text := full_value_text message user homework_text;
                           photo_id := photo_file_id |});;
  do_save_data;;
  msg ← bot_send_message (chat_id message) (Added subject (truthy_opt photo_file_id));
  emit (delete_message_with_delay (chat_id message) msg 15).

Definition generate_subject_buttons (board : Dict.t entry) : list pystr :=
  if bool_decide (board = []) then [] else sorted_by lower (Dict.keys board).

Definition handle_sticker (message : Message) : M unit :=
  match body message with
  | Sticker (Some set_name) =>
    if pystr_eqb set_name FORBIDDEN_STICKER_SET
    then emit (delete_message (chat_id message) (message_id message))
    else skip
  | _ => skip
  end.

(** Sending a stored homework to one chat: with the photo when there is
    one. *)
Definition send_homework (chat : Z) (subject_key : pystr) (homework : entry) : M Z :=
  if truthy_opt (photo_id homework)
  then bot_send_photo chat (default [] (photo_id homework))
         (Homework subject_key (text homework))
  else bot_send_message chat (Homework subject_key (text homework)).

Definition forget_state (user_id chat : Z) : M unit :=
  s ← get_bot;
  match user_states s !! user_id with
  | Some st =>
    (if truthy_id (bot_prompt_message_id st)
     then emit (delete_message_with_delay chat
                  (default 0 (bot_prompt_message_id st)) 1)
     else skip);;
    update_user_states (delete user_id)
  | None => skip
  end.

Definition handle_callback (call : CallbackQuery) : M unit :=
  let user := cq_from_user call in
  let action := cq_data call in
  let chat := chat_id (cq_message call) in
  let button := message_id (cq_message call) in
  emit answer_callback_query;;
  if pystr_eqb action (py "set_info") then
    forget_state (id user) chat;;
    update_user_states
      (<[id user := {| state := waiting_for_subject; subject := None;
                       bot_prompt_message_id := None |}]>);;
    msg ← bot_send_message chat PromptSubject;
    update_user_states
      (<[id user := {| state := waiting_for_subject; subject := None;
                       bot_prompt_message_id := Some msg |}]>);;
    emit (delete_message_with_delay chat button 1)
  else if pystr_eqb action (py "delete_info") then
    msg ← bot_send_message chat DeleteHelp;
    emit (delete_message_with_delay chat msg 120);;
    emit (delete_message_with_delay chat button 1)
  else if pystr_eqb action (py "list") then
    s ← get_bot;
    msg ← match generate_subject_buttons (board_data s) with
          | [] => bot_send_message chat ListEmpty
          | keyboard => bot_send_message chat (ListChoose keyboard)
          end;
    delete_later chat msg;;
    delete_later chat button
  else if startswith (py "get:") action then
    let subject := drop 4 action in
    s ← get_bot;
    match Dict.get subject (board_data s) with
    | Some homework =>
      if bool_decide (chat = id user) then
        _ ← send_homework (id user) subject homework; skip
      else
        _ ← send_homework (id user) subject homework;
        sent_to_chat ← send_homework chat subject homework;
        emit (delete_message_with_delay chat sent_to_chat 300)
    | None =>
      msg ← bot_send_message chat (SubjectNotFound subject);
      delete_later chat msg
    end;;
    if chat_private (cq_message call) then skip
    else emit (delete_message_with_delay chat button 1)
  else if pystr_eqb action (py "cancel_add_hw") then
    s ← get_bot;
    match user_states s !! id user with
    | Some _ =>
      forget_state (id user) chat;;
      msg ← bot_send_message chat AddCancelled;
      emit (delete_message_with_delay chat msg 10)
    | None =>
      msg ← bot_send_message chat NothingToCancel;
      emit (delete_message_with_delay chat msg 10)
    end;;
    emit (delete_message_with_delay chat button 1)
  else skip.

(** The refusal shared by the two steps of the guided flow: the report,
    the clean-up, and the end of the conversation. *)
Definition refuse_step (message : Message) (r : reply) : M unit :=
  msg ← bot_reply_to message r;
  delete_later (chat_id message) (message_id message);;
  delete_later (chat_id message) msg;;
  update_user_states (delete (id (from_user message))).

(** The refusal of a command: the report and the clean-up. *)
Definition refuse (message : Message) (r : reply) : M unit :=
  msg ← bot_reply_to message r;
  delete_later (chat_id message) (message_id message);;
  delete_later (chat_id message) msg.

Definition delete_old_prompt (chat : Z) (current_state : option user_state) : M unit :=
  match current_state with
  | Some st =>
    if truthy_id (bot_prompt_message_id st)
    then emit (delete_message chat (default 0 (bot_prompt_message_id st)))
    else skip
  | None => skip
  end.

Definition handle_subject_input (message : Message) : M unit :=
  let user := from_user message in
  let chat := chat_id message in
  s ← get_bot;
  let current_state := user_states s !! id user in
  if negb (chat_allowed chat) then refuse_step message FunctionOnlyInWorkChats
  else if bool_decide (id user ∈ muted_users s) then refuse_step message YouAreMuted
  else
    match msg_text message with
    | None => emit (uncaught AttributeError)
    | Some t =>
      let subject := strip t in
      if negb (truthy subject) then
        msg ← bot_reply_to message SubjectMustNotBeEmpty;
        delete_later chat (message_id message);;
        emit (delete_message_with_delay chat msg 15)
      else
        delete_old_prompt chat current_state;;
        match current_state with
        | None => emit (uncaught KeyError)
        | Some st =>
          update_user_states
            (<[id user := {| state := waiting_for_homework_details;
                             subject := Some subject;
                             bot_prompt_message_id := bot_prompt_message_id st |}]>);;
          msg ← bot_send_message chat (PromptDetails subject);
          update_user_states
            (<[id user := {| state := waiting_for_homework_details;
                             subject := Some subject;
                             bot_prompt_message_id := Some msg |}]>);;
          emit (delete_message_with_delay chat (message_id message) 1)
        end
    end.

(** The text and the photo a details message carries. *)
Definition details_of (message : Message) : pystr * option pystr :=
  match body message with
  | Text t => (strip t, None)
  | Photo caption sizes =>
    (if truthy_opt caption then strip (default [] caption) else [], last sizes)
  | _ => ([], None)
  end.

Definition handle_homework_details_input (message : Message) : M unit :=
  let user := from_user message in
  let chat := chat_id message in
  s ← get_bot;
  let current_state := user_states s !! id user in
  if negb (chat_allowed chat) then refuse_step message FunctionOnlyInWorkChats
  else if bool_decide (id user ∈ muted_users s) then refuse_step message YouAreMuted
  else
    let subject := current_state ≫= subject in
    if negb (truthy_opt subject) then refuse_step message SubjectMissingRestart
    else
      let '(homework_text, photo_file_id) := details_of message in
      if negb (truthy homework_text) && negb (truthy_opt photo_file_id) then
        msg ← bot_reply_to message DetailsMustNotBeEmpty;
        delete_later chat (message_id message);;
        emit (delete_message_with_delay chat msg 15)
      else
        let homework_text :=
          if negb (truthy homework_text) && truthy_opt photo_file_id
          then py "(см. фото)" else homework_text in
        delete_old_prompt chat current_state;;
        _save_and_confirm_homework message (default [] subject) homework_text
          photo_file_id user;;
        emit (delete_message_with_delay chat (message_id message) 1);;
        update_user_states (delete (id user)).
End Handlers.

Section Commands.
Context {U : PyUnicode}.

(** The subject and the text of [/set "subject" text] or
    [/set subject text], from the stripped argument line; [None] when a
    quoted subject is not closed. *)
Definition parse_set_args (args_line : pystr) : option (pystr * pystr) :=
  if startswith [DQUOTE] args_line then
    match find_from DQUOTE 1 args_line with
    | None => None
    | Some end_quote_index =>
      Some (strip (slice 1 end_quote_index args_line),
            strip (drop (S end_quote_index) args_line))
    end
  else
    match split1 SPACE args_line with
    | (subject, Some value) => Some (strip subject, strip value)
    | (subject, None) => Some (strip subject, [])
    end.

Definition set_homework (message : Message) : M unit :=
  let user := from_user message in
  let chat := chat_id message in
  s ← get_bot;
  if bool_decide (id user ∈ muted_users s) then refuse message YouAreMuted
  else if negb (chat_allowed chat) then refuse message CommandOnlyInWorkChats
  else
    let command :=
      match body message with
      | Photo caption sizes =>
        if truthy_opt caption && startswith (py "/set ") (lower (default [] caption))
        then Some (strip (default [] caption), last sizes)
        else None
      | Text t => Some (strip t, None)
      | _ => Some ([], None)
      end in
    match command with
    | None => refuse message SetNeedsCaption
    | Some (command_text, photo_file_id) =>
      if negb (startswith (py "/set ") (lower command_text)) then skip
      else
        match split_max SPACE 1 command_text with
        | [_; args] =>
          if negb (truthy (strip args)) then refuse message SetBadFormat
          else
            match parse_set_args (strip args) with
            | None => refuse message SetBadQuotes
            | Some (subject, value) =>
              if negb (truthy subject) then refuse message SetSubjectEmpty
              else if negb (truthy value) && negb (truthy_opt photo_file_id)
              then refuse message SetTextEmpty
              else
                _save_and_confirm_homework message subject value photo_file_id user;;
                delete_later chat (message_id message)
            end
        | _ => refuse message SetBadFormat
        end
    end.

(** The key [/del] asks for, from the stripped argument. *)
Definition parse_del_key (key_to_delete_raw : pystr) : pystr :=
  if startswith [DQUOTE] key_to_delete_raw && endswith [DQUOTE] key_to_delete_raw
  then lower (strip (slice_1_m1 key_to_delete_raw))
  else lower key_to_delete_raw.

Definition delete_board (message : Message) : M unit :=
  let user := from_user message in
  let chat := chat_id message in
  s ← get_bot;
  if bool_decide (id user ∈ muted_users s) then refuse message YouAreMutedDel
  else if negb (chat_allowed chat) then refuse message CommandOnlyInWorkChats
  else
    match msg_text message with
    | None => emit (uncaught AttributeError)
    | Some t =>
      match split_max SPACE 1 t with
      | [_; arg] =>
        if negb (truthy (strip arg)) then refuse message DelBadFormat
        else
          let key_to_delete := parse_del_key (strip arg) in
          if negb (truthy key_to_delete) then refuse message DelSubjectEmpty
          else
            msg ← (if Dict.mem key_to_delete (board_data s) then
                     update_board_data (Dict.del key_to_delete);;
                     do_save_data;;
                     bot_reply_to message (Deleted key_to_delete)
                   else bot_reply_to message (SubjectNotFound key_to_delete));
            delete_later chat (message_id message);;
            emit (delete_message_with_delay chat msg 15)
      | _ => refuse message DelBadFormat
      end
    end.

Definition send_welcome (message : Message) : M unit :=
  emit (delete_message_with_delay (chat_id message) (message_id message) 1);;
  msg ← bot_send_message (chat_id message) WelcomeMenu;
  emit (delete_message_with_delay (chat_id message) msg 180).

(** The shape shared by [/mute] and [/unmute]: the admin gate, the
    numeric argument, the change of the set, the save and the report. *)
Definition mute_command (change : Z → gset Z → gset Z)
    (bad_format failed : reply) (done : Z → reply) (message : Message) : M unit :=
  let chat := chat_id message in
  delete_later chat (message_id message);;
  if negb (is_admin (id (from_user message))) then
    msg ← bot_reply_to message NoRights; delete_later chat msg
  else
    match msg_text message with
    | None => msg ← bot_reply_to message failed; delete_later chat msg
    | Some t =>
      match split_max SPACE 1 t with
      | [_; arg] =>
        match py_int arg with
        | None => msg ← bot_reply_to message BadUserId; delete_later chat msg
        | Some user_id =>
          update_muted_users (change user_id);;
          do_save_muted_users;;
          msg ← bot_reply_to message (done user_id);
          emit (delete_message_with_delay chat msg 20)
        end
      | _ => msg ← bot_reply_to message bad_format; delete_later chat msg
      end
    end.

(** [muted_users.add(user_id_to_mute)] *)
Definition mute_user : Message → M unit :=
  mute_command (λ u ms, ms ∪ {[u]}) MuteBadFormat MuteError MutedOk.

(** [muted_users.discard(user_id_to_unmute)] *)
Definition unmute_user : Message → M unit :=
  mute_command (λ u ms, ms ∖ {[u]}) UnmuteBadFormat UnmuteError UnmutedOk.

Definition restart_bot (message : Message) : M unit :=
  if negb (is_admin (id (from_user message))) then refuse message NoRights
  else
    msg ← bot_reply_to message Restarting;
    delete_later (chat_id message) (message_id message);;
    delete_later (chat_id message) msg;;
    emit execl.

Definition cmd_msgu (message : Message) : M unit :=
  if negb (is_admin (id (from_user message))) then refuse message NoRights
  else
    match msg_text message with
    | None => emit (uncaught AttributeError)
    | Some t =>
      match split_max SPACE 2 t with
      | [_; group_id_str; text_to_send] =>
        let numeric :=
          (startswith (py "-") group_id_str && py_isdigit (drop 1 group_id_str))
          || py_isdigit group_id_str in
        match (if numeric then py_int group_id_str else None) with
        | Some group_id =>
          _ ← bot_send_message group_id (Raw text_to_send);
          refuse message (MsguSent group_id)
        | None => refuse message MsguBadGroup
        end
      | _ => refuse message MsguBadFormat
      end
    end.

(** The answer to a free-text question about a subject. *)
Definition handle_general_queries (message : Message) : M unit :=
  let user_id := id (from_user message) in
  let origin_chat_id := chat_id message in
  match msg_text message with
  | None => skip
  | Some t =>
    let text := strip t in
    if negb (truthy text) then skip
    else if startswith [SLASH] text then skip
    else
      s ← get_bot;
      match find_subject_in_message (board_data s) text with
      | Raise _ => skip
      | Ok None => skip
      | Ok (Some subject_key) =>
        if negb (truthy subject_key) then skip
        else
          match Dict.get subject_key (board_data s) with
          | None => skip
          | Some homework =>
            (if chat_private message || bool_decide (origin_chat_id = user_id) then
               _ ← send_homework user_id subject_key homework; skip
             else
               _ ← send_homework user_id subject_key homework;
               sent ← send_homework origin_chat_id subject_key homework;
               emit (delete_message_with_delay origin_chat_id sent 300));;
            emit (delete_message_with_delay origin_chat_id (message_id message) 1)
          end
      end
  end.

End Commands.

(** ** Dispatch

The decorators of [main.py] register the handlers in the order of the
file.  The bot library offers a message to the message handlers in that
order and runs the first one whose filters all hold; a callback query
goes to the callback handlers in the same way.  A handler without
[content_types] takes text messages only, and the filter [commands]
holds for a text message whose first word, without the slash and
without a [@botname] suffix, is one of the commands. *)

Inductive handler :=
| h_sticker | h_callback | h_msgu | h_subject_input | h_details_input
| h_set | h_del | h_start | h_mute | h_restart | h_unmute | h_general.

#[export] Instance handler_eq_dec : EqDecision handler.
Proof. solve_decision. Defined.

(** [util.extract_command] *)
Definition extract_command (t : pystr) : option pystr :=
  if startswith [SLASH] t
  then match split_ws t with
       | w :: _ => Some (tail (split1 AT w).1)
       | [] => None
       end
  else None.

Definition is_text (m : Message) : bool :=
  match body m with Text _ => true | _ => false end.
Definition is_photo (m : Message) : bool :=
  match body m with Photo _ _ => true | _ => false end.
Definition is_sticker (m : Message) : bool :=
  match body m with Sticker _ => true | _ => false end.

(** The filter [commands=[c]]. *)
Definition is_command (c : string) (m : Message) : bool :=
  match body m with
  | Text t => bool_decide (extract_command t = Some (py c))
  | _ => false
  end.

(** The filter
    [func=lambda message: user_states.get(message.from_user.id, {}).get("state") == p]. *)
Definition in_phase (p : phase) (s : bot) (m : Message) : bool :=
  bool_decide (state <$> user_states s !! id (from_user m) = Some p).

(** The message handlers with their filters, in registration order. *)
Definition message_handlers : list (handler * (bot → Message → bool)) :=
  [ (h_sticker, λ _ m, is_sticker m);
    (h_msgu, λ _ m, is_command "msgu" m && is_text m);
    (h_subject_input, λ s m, in_phase waiting_for_subject s m && is_text m);
    (h_details_input,
       λ s m, in_phase waiting_for_homework_details s m && (is_text m || is_photo m));
    (h_set, λ _ m, is_command "set" m && (is_text m || is_photo m));
    (h_del, λ _ m, is_command "del" m && is_text m);
    (h_start, λ _ m, is_command "start" m && is_text m);
    (h_mute, λ _ m, is_command "mute" m && is_text m);
    (h_restart, λ _ m, is_command "restart" m && is_text m);
    (h_unmute, λ _ m, is_command "unmute" m && is_text m);
    (h_general, λ _ m, is_text m) ].

Fixpoint first_handler (hs : list (handler * (bot → Message → bool)))
    (s : bot) (m : Message) : option handler :=
  match hs with
  | [] => None
  | (h, accepts) :: hs' => if accepts s m then Some h else first_handler hs' s m
  end.

(** The handler an update goes to; [None]: the update is dropped. *)
Definition classify (s : bot) (u : update) : option handler :=
  match u with
  | Callback _ => Some h_callback
  | Msg m => first_handler message_handlers s m
  end.

Section Step.
Context {U : PyUnicode}.

Definition handler_body (h : handler) (m : Message) : M unit :=
  match h with
  | h_sticker => handle_sticker m
  | h_msgu => cmd_msgu m
  | h_subject_input => handle_subject_input m
  | h_details_input => handle_homework_details_input m
  | h_set => set_homework m
  | h_del => delete_board m
  | h_start => send_welcome m
  | h_mute => mute_user m
  | h_restart => restart_bot m
  | h_unmute => unmute_user m
  | h_general => handle_general_queries m
  | h_callback => skip
  end.

(** One update, from its arrival to the end of its handler. *)
Definition step (s : bot) (u : update) : bot * list action :=
  match u, classify s u with
  | Callback c, _ => run (handle_callback c) s
  | Msg m, Some h => run (handler_body h m) s
  | Msg _, None => (s, [])
  end.

(** A sequence of updates, handled one after the other. *)
Definition steps (s : bot) (us : list update) : bot * list action :=
  foldl (λ '(s, out) u, let '(s', o) := step s u in (s', out ++ o)) (s, []) us.

End Step.

(** ** Vocabulary of the statements *)

Section Vocabulary.
Context {U : PyUnicode}.

(** The pattern matches the text and the candidates of its last group
    lead to the key [k]. *)
Definition pattern_resolves (alias_map : gmap pystr pystr) (text_norm : pystr)
    (pattern : Re.regex) (k : pystr) : Prop :=
  ∃ g cands,
    Re.search pattern text_norm = Some g
    ∧ Re.last_group g ≠ []
    ∧ candidates (strip (Re.last_group g)) = Ok cands
    ∧ lookup_candidates alias_map cands = Some k.

(** The pattern does not match the text, or none of the candidates of
    its last group leads to a key. *)
Definition pattern_fails (alias_map : gmap pystr pystr) (text_norm : pystr)
    (pattern : Re.regex) : Prop :=
  Re.search pattern text_norm = None
  ∨ ∃ g, Re.search pattern text_norm = Some g
         ∧ (Re.last_group g = []
            ∨ ∃ cands, candidates (strip (Re.last_group g)) = Ok cands
                       ∧ lookup_candidates alias_map cands = None).

(** The resolver read as "only the first pattern that matches counts":
    whatever the candidates of that pattern give is the answer. *)
Definition first_match_only (board : Dict.t entry) (text : pystr) : Prop :=
  ∀ pre pattern post g cands,
    patterns = pre ++ pattern :: post →
    Forall (λ p, Re.search p (strip (lower text)) = None) pre →
    Re.search pattern (strip (lower text)) = Some g →
    candidates (strip (Re.last_group g)) = Ok cands →
    find_subject_in_message board text
    = Ok (lookup_candidates (build_subject_alias_map board) cands).

(** The invariant of the store keys: lower-case, trimmed, not empty. *)
Definition key_ok (k : pystr) : Prop := lower k = k ∧ strip k = k ∧ k ≠ [].
Definition store_ok (board : Dict.t entry) : Prop :=
  ∀ k, k ∈ Dict.keys board → key_ok k.

(** The pending subjects of the guided flow are trimmed. *)
Definition subjects_trimmed (us : gmap Z user_state) : Prop :=
  ∀ u st subj, us !! u = Some st → subject st = Some subj → strip subj = subj.

(** The invariant of the bot state behind the invariant of the keys. *)
Definition bot_ok (s : bot) : Prop :=
  store_ok (board_data s) ∧ subjects_trimmed (user_states s).

End Vocabulary.

(** The laws of [str.lower] the key invariant rests on. *)
Class LowerLaws (U : PyUnicode) : Prop := {
  lower_idempotent : ∀ s, lower (lower s) = lower s;
  lower_trimmed : ∀ s, strip s = s → strip (lower s) = lower s;
  lower_nonempty : ∀ s, s ≠ [] → lower s ≠ []
}.

(** The state [s] with another mute set. *)
Definition with_muted (ms : gset Z) (s : bot) : bot :=
  {| board_data := board_data s; muted_users := ms;
     user_states := user_states s; next_message_id := next_message_id s |}.

(** The reports with which a write is refused. *)
Definition is_refusal (r : reply) : bool :=
  match r with
  | FunctionOnlyInWorkChats | CommandOnlyInWorkChats | YouAreMuted | YouAreMutedDel => true
  | _ => false
  end.

Definition is_save_data (a : action) : bool :=
  match a with save_data _ => true | _ => false end.

(** The user an update comes from. *)
Definition sender (u : update) : User :=
  match u with
  | Msg m => from_user m
  | Callback c => cq_from_user c
  end.

(** The order of the subject buttons: [b] does not sort before [a]. *)
Definition not_before (key : pystr → pystr) (a b : pystr) : Prop :=
  pystr_ltb (key b) (key a) = false.

(** ** The console of the administrator *)

(** What one line typed at the console leads to. *)
Inductive console_result :=
| ConsoleLog (text_to_log : pystr)   (* sent to the debug chat and echoed *)
| ConsoleMissingQuote
| ConsoleEmptyText
| ConsoleExit
| ConsoleHelp
| ConsoleRestart
| ConsoleUnknown (command : pystr).

(** One round of the loop of [console_command_handler]. *)
Definition console_command (line : pystr) : console_result :=
  let command := strip line in
  if startswith (py "log ") command then
    let text_to_log :=
      if startswith (py "log " ++ [DQUOTE]) command then
        match find_from DQUOTE 5 command with
        | None => None
        | Some end_quote_index => Some (slice 5 end_quote_index command)
        end
      else Some (drop 4 command) in
    match text_to_log with
    | None => ConsoleMissingQuote
    | Some t => if truthy t then ConsoleLog t else ConsoleEmptyText
    end
  else if pystr_eqb command (py "exit") then ConsoleExit
  else if pystr_eqb command (py "help") then ConsoleHelp
  else if pystr_eqb command (py "restart") then ConsoleRestart
  else ConsoleUnknown command.

(** ** The two files

[save_data()] and [save_muted_users()] overwrite their file with the
mapping of that moment, and the start of the program reads the files
back into [board_data] and [muted_users].  What a file holds after
some calls is the last snapshot written to it, or what it held before
when there was none.  (What [json] dumps, it is taken to load back.) *)
Definition written_data (a : action) : option (Dict.t entry) :=
match a with save_data snapshot => Some snapshot | _ => None end.
Definition written_muted_users (a : action) : option (gset Z) :=
match a with save_muted_users snapshot => Some snapshot | _ => None end.

Definition last_written {A} (written : action → option A) (file : A)
    (out : list action) : A :=
  foldl (λ file a, default file (written a)) file out.

Definition DATA_FILE := last_written written_data.
Definition MUTED_USERS_FILE := last_written written_muted_users.

(** ** The resolver *)

Section ResolverFacts.
Context {U : PyUnicode}.
Implicit Types (alias_map : gmap pystr pystr) (pats : list Re.regex).

Lemma truthy_false (s : pystr) : truthy s = false ↔ s = [].
Proof. destruct s; split; intros; done. Qed.

Lemma truthy_true (s : pystr) : truthy s = true ↔ s ≠ [].
Proof. destruct s; split; intros; done. Qed.

(** What the body of the pattern loop returns, in the vocabulary. *)
Lemma try_pattern_resolves alias_map text_norm pattern k :
  (∃ b, try_pattern alias_map text_norm pattern = Tried b (Ok (Some k)))
  ↔ pattern_resolves alias_map text_norm pattern k.
Proof.
  unfold try_pattern, pattern_resolves. split.
  - intros [b Hb]. destruct (Re.search pattern text_norm) as [g|]; [|done].
    destruct (truthy (Re.last_group g)) eqn:Ht; cbn [negb] in Hb; [|done].
    destruct (candidates _) as [cands|] eqn:Hc; [|done].
    exists g, cands. apply truthy_true in Ht. naive_solver.
  - intros (g & cands & -> & Hne & -> & ->).
    apply truthy_true in Hne. rewrite Hne. cbn [negb]. eauto.
Qed.

Lemma try_pattern_fails alias_map text_norm pattern :
  (try_pattern alias_map text_norm pattern = Skip
   ∨ ∃ b, try_pattern alias_map text_norm pattern = Tried b (Ok None))
  ↔ pattern_fails alias_map text_norm pattern.
Proof.
  unfold try_pattern, pattern_fails.
  destruct (Re.search pattern text_norm) as [g|]; [|naive_solver].
  destruct (truthy (Re.last_group g)) eqn:Ht; cbn [negb].
  - apply truthy_true in Ht.
    split.
    + intros Htry. right. exists g. split; [done|]. right.
      destruct (candidates _) as [cands|e]; [|by destruct Htry as [|[? ?]]].
      exists cands. split; [done|].
      destruct (lookup_candidates alias_map cands); [|done].
      by destruct Htry as [|[? ?]].
    + intros [|(g0 & [= <-] & [?|(cands & -> & ->)])]; [done..|]. eauto.
  - apply truthy_false in Ht. split; [|by left].
    intros _. right. exists g. eauto.
Qed.

Lemma pattern_fails_not_resolves alias_map text_norm pattern k :
  pattern_fails alias_map text_norm pattern →
  ¬ pattern_resolves alias_map text_norm pattern k.
Proof.
  intros [Hno|(g & Hg & [Hnil|(cands & Hc & Hl)])] (g' & cands' & Hg' & Hne & Hc' & Hl');
    congruence.
Qed.

(** The loop over the patterns stops at the first one that resolves. *)
Lemma try_patterns_Some alias_map text_norm pats k :
  try_patterns alias_map text_norm pats = Ok (Some k)
  ↔ ∃ pre pattern post,
      pats = pre ++ pattern :: post
      ∧ Forall (pattern_fails alias_map text_norm) pre
      ∧ pattern_resolves alias_map text_norm pattern k.
Proof.
  induction pats as [|p pats IH]; simpl.
  - split; [done|]. intros (pre & ? & ? & Heq & _). by destruct pre.
  - pose proof (try_pattern_resolves alias_map text_norm p k) as Hres.
    pose proof (try_pattern_fails alias_map text_norm p) as Hfail.
    destruct (try_pattern alias_map text_norm p) as [|b [[k'|]|e]] eqn:Htry.
    + rewrite IH. split.
      * intros (pre & q & post & -> & Hpre & Hq).
        exists (p :: pre), q, post. split_and!; [done| |done].
        constructor; [apply Hfail; by left|done].
      * intros (pre & q & post & Heq & Hpre & Hq).
        destruct pre as [|p' pre]; simplify_eq/=.
        -- apply Hres in Hq as [? ?]. done.
        -- apply Forall_cons in Hpre as [_ Hpre]. eauto 10.
    + split.
      * intros [= ->]. exists [], p, pats. split_and!; [done|constructor|].
        apply Hres. eauto.
      * intros (pre & q & post & Heq & Hpre & Hq).
        destruct pre as [|p' pre]; simplify_eq/=.
        -- apply Hres in Hq as [? [= -> ->]]. done.
        -- apply Forall_cons in Hpre as [Hp _].
           apply Hfail in Hp as [?|[? ?]]; done.
    + rewrite IH. split.
      * intros (pre & q & post & -> & Hpre & Hq).
        exists (p :: pre), q, post. split_and!; [done| |done].
        constructor; [apply Hfail; eauto|done].
      * intros (pre & q & post & Heq & Hpre & Hq).
        destruct pre as [|p' pre]; simplify_eq/=.
        -- apply Hres in Hq as [? ?]. done.
        -- apply Forall_cons in Hpre as [_ Hpre]. eauto 10.
    + split; [done|].
      intros (pre & q & post & Heq & Hpre & Hq).
      destruct pre as [|p' pre]; simplify_eq/=.
      * apply Hres in Hq as [? ?]. done.
      * apply Forall_cons in Hpre as [Hp _].
        apply Hfail in Hp as [?|[? ?]]; done.
Qed.

Lemma try_patterns_None alias_map text_norm pats :
  try_patterns alias_map text_norm pats = Ok None
  ↔ Forall (pattern_fails alias_map text_norm) pats.
Proof.
  induction pats as [|p pats IH]; simpl.
  - split; [constructor|done].
  - pose proof (try_pattern_fails alias_map text_norm p) as Hfail.
    rewrite Forall_cons, <- IH, <- Hfail.
    destruct (try_pattern alias_map text_norm p) as [|b [[k'|]|e]];
      naive_solver.
Qed.

(** Every value of the alias map is the lower-cased form of a key. *)
Lemma add_aliases_values (S : pystr → Prop) alias_map subj_key :
  S (lower subj_key) →
  (∀ a k, alias_map !! a = Some k → S k) →
  ∀ a k, add_aliases alias_map subj_key !! a = Some k → S k.
Proof.
  intros Hkey Hm a k. unfold add_aliases. cbv zeta.
  repeat case_match; [by eauto|..];
    repeat (rewrite lookup_insert_Some; intros [[_ <-]|[_ Hl]]; [done|revert Hl]);
    eauto.
Qed.

Lemma alias_map_values (S : pystr → Prop) (ks : list pystr) alias_map :
  (∀ key, key ∈ ks → S (lower key)) →
  (∀ a k, alias_map !! a = Some k → S k) →
  ∀ a k, fold_left add_aliases ks alias_map !! a = Some k → S k.
Proof.
  revert alias_map. induction ks as [|key ks IH]; intros alias_map Hks Hm; simpl.
  - done.
  - apply IH.
    + intros ? ?. apply Hks. by right.
    + apply add_aliases_values; [|done]. apply Hks. by left.
Qed.

Lemma lookup_candidates_value alias_map cands k :
  lookup_candidates alias_map cands = Some k → ∃ a, alias_map !! a = Some k.
Proof.
  induction cands as [|cand cands IH]; simpl; [done|].
  unfold lookup_candidate.
  destruct (truthy cand); cbn [negb]; [|done].
  destruct (alias_map !! cand) eqn:H1; [intros [= <-]; eauto|].
  destruct (alias_map !! take 4 (remove_char SPACE cand)) eqn:H2;
    [intros [= <-]; eauto|done].
Qed.

Lemma find_subject_value board text k :
  find_subject_in_message board text = Ok (Some k) →
  ∃ a, build_subject_alias_map board !! a = Some k.
Proof.
  unfold find_subject_in_message.
  destruct (truthy text); cbn [negb]; [|done].
  intros H. apply try_patterns_Some in H as (_ & p & _ & _ & _ & Hres).
  destruct Hres as (g & cands & _ & _ & _ & Hl).
  by apply lookup_candidates_value in Hl.
Qed.

End ResolverFacts.

(** C1.  With the keys "математика" and "английский" in the store (in
    either order, whatever the entries), the resolver answers
    "математика" to "что задали по математике", "английский" to
    "что по англ" (the candidate "англ" is the alias made of the first
    four characters of the key), and nothing to "что задали по физике".
    (The built-ins are those of [basic_unicode]: the texts are lower-case
    Cyrillic letters and spaces.) *)
Theorem resolver_examples (store : Dict.t entry) :
  Dict.keys store ≡ₚ [py "математика"; py "английский"] →
  find_subject_in_message store (py "что задали по математике")
    = Ok (Some (py "математика"))
  ∧ find_subject_in_message store (py "что по англ") = Ok (Some (py "английский"))
  ∧ take 4 (remove_char SPACE (py "английский")) = py "англ"
  ∧ build_subject_alias_map store !! py "англ" = Some (py "английский")
  ∧ find_subject_in_message store (py "что задали по физике") = Ok None.
Proof.
  intros Hkeys. symmetry in Hkeys. apply Permutation_length_2_inv in Hkeys.
  unfold find_subject_in_message, build_subject_alias_map.
  destruct Hkeys as [-> | ->]; vm_compute; done.
Qed.

Lemma resolver_examples_witness :
  let store := [ (py "математика", {| text := py "стр. 5"; photo_id := None |});
                 (py "английский", {| text := py "unit 3"; photo_id := None |}) ] in
  Dict.keys store ≡ₚ [py "математика"; py "английский"]
  ∧ find_subject_in_message store (py "что по англ") = Ok (Some (py "английский")).
Proof.
  intros store.
  assert (Hkeys : Dict.keys store ≡ₚ [py "математика"; py "английский"])
    by reflexivity.
  split; [exact Hkeys|].
  exact (proj1 (proj2 (resolver_examples store Hkeys))).
Defined.

(** C2, as stated, fails: on "что задали по математике" the first pattern
    that matches is the first of the list, with the block "по математике",
    none of whose candidates resolves; the resolver still answers
    "математика", found by the third pattern. *)
Lemma first_match_only_fails :
  let board := [(py "математика", {| text := py "стр. 5"; photo_id := None |})] in
  let text := py "что задали по математике" in
  let alias_map := build_subject_alias_map board in
  let first_pattern := default (Re.Lit []) (head patterns) in
  let cands := [py "по"; py "поматематике"; py "поматематике"; py "по математике"] in
  Re.last_group <$> Re.search first_pattern (strip (lower text))
    = Some (py "по математике")
  ∧ candidates (py "по математике") = Ok cands
  ∧ lookup_candidates alias_map cands = None
  ∧ find_subject_in_message board text = Ok (Some (py "математика"))
  ∧ ¬ first_match_only board text.
Proof.
  intros board text alias_map first_pattern cands.
  split_and!; [vm_compute; reflexivity..|].
  intros Hclaim.
  assert (Hnone : find_subject_in_message board text = Ok None).
  { apply (Hclaim [] first_pattern (tail patterns)
             (default [] (Re.search first_pattern (strip (lower text)))) cands);
      first [constructor | vm_compute; reflexivity]. }
  vm_compute in Hnone. discriminate Hnone.
Qed.

(** C2, amended.  The resolver tries the patterns in the order of the
    list.  It answers the key [k] exactly when some pattern matches with
    candidates that lead to [k] while every pattern listed before it fails
    (does not match, or none of its candidates resolves); it answers
    nothing exactly when the text is empty or every pattern fails. *)
Theorem resolver_first_resolving_pattern `{PyUnicode} (board : Dict.t entry)
    (text : pystr) :
  let alias_map := build_subject_alias_map board in
  let text_norm := strip (lower text) in
  (∀ k, find_subject_in_message board text = Ok (Some k)
        ↔ text ≠ []
          ∧ ∃ pre pattern post,
              patterns = pre ++ pattern :: post
              ∧ Forall (pattern_fails alias_map text_norm) pre
              ∧ pattern_resolves alias_map text_norm pattern k)
  ∧ (find_subject_in_message board text = Ok None
     ↔ text = [] ∨ Forall (pattern_fails alias_map text_norm) patterns).
Proof.
  intros alias_map text_norm. unfold find_subject_in_message.
  fold alias_map text_norm.
  destruct (truthy text) eqn:Ht; cbn [negb].
  - apply truthy_true in Ht. split.
    + intros k. rewrite try_patterns_Some. naive_solver.
    + rewrite try_patterns_None. naive_solver.
  - apply truthy_false in Ht. split; [|naive_solver].
    intros k. split; [done|]. by intros [? _].
Qed.

(** C9, as stated, fails: a store key that is not lower-case is answered
    in its lower-case form, which is not a key of the store. *)
Lemma resolver_answers_absent_key :
  let board := [(py "Math", {| text := py "p.10"; photo_id := None |})] in
  find_subject_in_message board (py "что по math") = Ok (Some (py "math"))
  ∧ py "math" ∉ Dict.keys board.
Proof.
  split; [vm_compute; reflexivity|].
  intros Hin. apply list_elem_of_In in Hin. vm_compute in Hin.
  destruct Hin as [Heq|[]]. discriminate Heq.
Qed.

(** C9, amended.  When every key of the store is lower-case, every value
    of the alias map built from the store is a key of the store, and a key
    the resolver answers is a key of the store. *)
Theorem resolver_answers_store_keys `{PyUnicode} (board : Dict.t entry) :
  (∀ key, key ∈ Dict.keys board → lower key = key) →
  (∀ a k, build_subject_alias_map board !! a = Some k → k ∈ Dict.keys board)
  ∧ (∀ text k, find_subject_in_message board text = Ok (Some k) →
               k ∈ Dict.keys board).
Proof.
  intros Hlower.
  assert (Hvalues : ∀ a k, build_subject_alias_map board !! a = Some k →
                           k ∈ Dict.keys board).
  { apply alias_map_values; [|done].
    intros key Hkey. by rewrite Hlower. }
  split; [done|].
  intros text k Hfind. apply find_subject_value in Hfind as [a Ha]. eauto.
Qed.

Lemma resolver_answers_store_keys_witness :
  let board := [ (py "математика", {| text := py "стр. 5"; photo_id := None |});
                 (py "английский", {| text := py "unit 3"; photo_id := None |}) ] in
  (∀ key, key ∈ Dict.keys board → lower key = key)
  ∧ py "математика" ∈ Dict.keys board.
Proof.
  intros board.
  assert (Hlower : ∀ key, key ∈ Dict.keys board → lower key = key).
  { intros key Hkey. apply list_elem_of_In in Hkey.
    destruct Hkey as [<-|[<-|[]]]; vm_compute; reflexivity. }
  split; [exact Hlower|].
  apply (proj2 (resolver_answers_store_keys board Hlower)
           (py "что задали по математике")).
  vm_compute. reflexivity.
Defined.


(** A text on which the resolver raises: the last pattern matches with a
    block of one space, which has no first word. *)
Example resolver_raises_on_blank_block (board : Dict.t entry) :
  find_subject_in_message board (py "что po  " ++ [10%N] ++ py "x") = Raise IndexError.
Proof.
  unfold find_subject_in_message.
  generalize (build_subject_alias_map board). intros alias_map.
  vm_compute. reflexivity.
Qed.

(** ** The store as a dictionary *)

Section DictFacts.
Context {V : Type}.
Implicit Types (d : Dict.t V) (k : pystr) (v : V).

Lemma pystr_eqb_eq (a b : pystr) : pystr_eqb a b = true ↔ a = b.
Proof. unfold pystr_eqb. apply bool_decide_eq_true. Qed.

Lemma dict_get_keys d k : is_Some (Dict.get k d) ↔ k ∈ Dict.keys d.
Proof.
  unfold Dict.keys. induction d as [|[k' v'] d IH]; cbn.
  - split; [by intros [? ?]|by intros ?%elem_of_nil].
  - unfold pystr_eqb. case_bool_decide as Hk; rewrite elem_of_cons.
    + split; [by left|eauto].
    + rewrite IH. naive_solver.
Qed.

Lemma dict_mem_keys d k : Dict.mem k d = true ↔ k ∈ Dict.keys d.
Proof. unfold Dict.mem. rewrite bool_decide_eq_true. apply dict_get_keys. Qed.

Lemma dict_keys_set d k v k' :
  k' ∈ Dict.keys (Dict.set k v d) ↔ k' = k ∨ k' ∈ Dict.keys d.
Proof.
  unfold Dict.keys. induction d as [|[k0 v0] d IH]; cbn.
  - rewrite list_elem_of_singleton, elem_of_nil. naive_solver.
  - unfold pystr_eqb. case_bool_decide as Hk; cbn; rewrite !elem_of_cons.
    + naive_solver.
    + rewrite IH. naive_solver.
Qed.

Lemma dict_get_set d k v k' :
  Dict.get k' (Dict.set k v d) = if decide (k' = k) then Some v else Dict.get k' d.
Proof.
  induction d as [|[k0 v0] d IH]; cbn; unfold pystr_eqb in *.
  - repeat (case_bool_decide || case_decide); congruence.
  - repeat (case_bool_decide || case_decide; cbn; unfold pystr_eqb);
      try congruence.
    all: rewrite IH; case_decide; congruence.
Qed.

Lemma dict_keys_del d k k' :
  k' ∈ Dict.keys (Dict.del k d) ↔ k' ≠ k ∧ k' ∈ Dict.keys d.
Proof.
  unfold Dict.keys, Dict.del. rewrite !list_elem_of_fmap. split.
  - intros ([k0 v0] & -> & [Hne Hin]%list_elem_of_filter). split; [done|].
    by exists (k0, v0).
  - intros (Hne & [k0 v0] & -> & Hin). exists (k0, v0). split; [done|].
    by apply list_elem_of_filter.
Qed.

Lemma dict_get_del d k k' :
  k' ≠ k → Dict.get k' (Dict.del k d) = Dict.get k' d.
Proof.
  intros Hne. unfold Dict.del.
  induction d as [|[k0 v0] d IH]; [done|].
  rewrite filter_cons. cbn. unfold pystr_eqb in *.
  case_decide; cbn; unfold pystr_eqb; repeat case_bool_decide; congruence.
Qed.

End DictFacts.

(** ** Proof support *)

(** Evaluating a handler unfolds the monad and leaves the string, map and
    parsing functions folded. *)
Arguments py : simpl never.
Arguments startswith : simpl never.
Arguments endswith : simpl never.
Arguments strip : simpl never.
Arguments split_max : simpl never.
Arguments split1 : simpl never.
Arguments split_ws : simpl never.
Arguments truthy : simpl never.
Arguments truthy_opt : simpl never.
Arguments truthy_id : simpl never.
Arguments Dict.set : simpl never.
Arguments Dict.del : simpl never.
Arguments Dict.get : simpl never.
Arguments Dict.mem : simpl never.
Arguments Dict.keys : simpl never.
Arguments parse_set_args : simpl never.
Arguments parse_del_key : simpl never.
Arguments find_subject_in_message : simpl never.
Arguments full_value_text : simpl never.
Arguments chat_allowed : simpl never.
Arguments is_admin : simpl never.
Arguments details_of : simpl never.
Arguments generate_subject_buttons : simpl never.
Arguments pystr_eqb : simpl never.
Arguments msg_text : simpl never.
Arguments extract_command : simpl never.

Ltac m_unfold :=
  unfold run, refuse, refuse_step, delete_later, delete_old_prompt, forget_state,
    send_homework, _save_and_confirm_homework,
    bot_reply_to, bot_send_message, bot_send_photo,
    update_board_data, update_muted_users, update_user_states,
    do_save_data, do_save_muted_users,
    set_board_data, set_muted_users, set_user_states, fresh_id, get_bot, emit, skip,
    mbind, M_bind, mret, M_ret.

Ltac m_step := m_unfold; cbn.

(** One case split on the next test of the handler under evaluation. *)
Ltac case_step :=
  match goal with
  | |- context [match ?x with _ => _ end] =>
    lazymatch type of x with
    | prod _ _ => tryif is_var x then destruct x else fail
    | _ => destruct x eqn:?
    end
  end.

Ltac m_cases := m_step; repeat (case_step; m_step).

(** Membership of a call in a list of calls that is written out. *)
Ltac in_calls := apply list_elem_of_In; cbn; eauto 12.
Ltac not_in_calls H :=
  apply list_elem_of_In in H; cbn in H; intuition discriminate.

(** ** What the handlers do to the store and to the mute set *)

Section HandlerFacts.
Context {U : PyUnicode}.

(** Deleting from the store and saving go together in [/del]. *)
Lemma delete_board_save_needs_removal (s : bot) (m : Message) (d : Dict.t entry) :
  save_data d ∈ snd (run (delete_board m) s) →
  ∃ key, key ∈ Dict.keys (board_data s)
         ∧ d = Dict.del key (board_data s)
         ∧ board_data (fst (run (delete_board m) s)) = d.
Proof.
  unfold delete_board. m_cases; intros Hin; try (by not_in_calls Hin).
  apply list_elem_of_In in Hin. cbn in Hin.
  destruct Hin as [[= <-]|Hin]; [|intuition discriminate].
  eexists. split; [by apply dict_mem_keys|done].
Qed.

End HandlerFacts.

(** C5.  A well-formed [/del] request for [key] from a user who may write:
    when [key] is in the store, the bot reports the deletion, [key] is
    gone, every other key keeps its entry, and the store is saved; when it
    is not, the bot reports "not found", the store is the same and nothing
    is saved. *)
Theorem delete_removes_exactly_the_key `{PyUnicode} (s : bot) (m : Message)
    (t cmd arg : pystr) :
  id (from_user m) ∉ muted_users s →
  chat_allowed (chat_id m) = true →
  msg_text m = Some t →
  split_max SPACE 1 t = [cmd; arg] →
  strip arg ≠ [] →
  parse_del_key (strip arg) ≠ [] →
  let key := parse_del_key (strip arg) in
  let s' := fst (run (delete_board m) s) in
  let out := snd (run (delete_board m) s) in
  (key ∈ Dict.keys (board_data s) →
     (∃ i, reply_to (chat_id m) (message_id m) (Deleted key) i ∈ out)
     ∧ (key ∉ Dict.keys (board_data s'))
     ∧ (∀ k, k ≠ key → Dict.get k (board_data s') = Dict.get k (board_data s))
     ∧ save_data (board_data s') ∈ out)
  ∧ (key ∉ Dict.keys (board_data s) →
     (∃ i, reply_to (chat_id m) (message_id m) (SubjectNotFound key) i ∈ out)
     ∧ board_data s' = board_data s
     ∧ ∀ d, save_data d ∉ out).
Proof.
  intros Hmute Hchat Htext Hsplit Harg Hkey key s' out.
  subst s' out. unfold delete_board. m_step.
  rewrite bool_decide_eq_false_2 by done. rewrite Hchat. m_step.
  rewrite Htext, Hsplit. m_step.
  apply truthy_true in Harg, Hkey. rewrite Harg. m_step.
  fold key in Hkey |- *. rewrite Hkey. m_step.
  split; intros Hin.
  - apply dict_mem_keys in Hin as Hmem. rewrite Hmem. m_step.
    split_and!.
    + eexists. in_calls.
    + rewrite dict_keys_del. naive_solver.
    + intros k Hk. by apply dict_get_del.
    + in_calls.
  - destruct (Dict.mem key (board_data s)) eqn:Hmem;
      [by apply dict_mem_keys in Hmem|]. m_step.
    split_and!; [eexists; in_calls|done|].
    intros d Hd. not_in_calls Hd.
Qed.

Lemma delete_removes_exactly_the_key_witness :
  let s := {| board_data := [(py "math", {| text := py "p.10"; photo_id := None |})];
              muted_users := ∅; user_states := ∅; next_message_id := 1 |} in
  let m := {| message_id := 5; chat_id := DEBUG_CHAT_ID; chat_private := false;
              from_user := {| id := 7; username := None |}; date := 0;
              body := Text (py "/del math") |} in
  (id (from_user m) ∉ muted_users s)
  ∧ chat_allowed (chat_id m) = true
  ∧ py "math" ∈ Dict.keys (board_data s)
  ∧ (py "math" ∉ Dict.keys (board_data (fst (run (delete_board m) s)))).
Proof.
  intros s m.
  assert (Hmute : id (from_user m) ∉ muted_users s) by apply not_elem_of_empty.
  assert (Hchat : chat_allowed (chat_id m) = true) by reflexivity.
  assert (Hin : py "math" ∈ Dict.keys (board_data s)) by (left; reflexivity).
  split_and!; [done..|].
  refine (proj1 (proj2 (proj1
    (delete_removes_exactly_the_key s m (py "/del math") (py "/del") (py "math")
       Hmute Hchat eq_refl eq_refl _ _) Hin))); vm_compute; discriminate.
Defined.

Section WriteGates.
Context {U : PyUnicode}.

(** Outside the work chats no handler changes the store. *)
Lemma board_unchanged_outside (s : bot) (m : Message) (h : handler) :
  chat_allowed (chat_id m) = false →
  board_data (fst (run (handler_body h m) s)) = board_data s.
Proof.
  intros Hchat.
  destruct h; unfold handler_body, handle_sticker, cmd_msgu, handle_subject_input,
    handle_homework_details_input, set_homework, delete_board, send_welcome,
    mute_user, unmute_user, mute_command, restart_bot, handle_general_queries;
    rewrite ?Hchat; m_cases; reflexivity.
Qed.

Lemma callback_keeps_board (s : bot) (c : CallbackQuery) :
  board_data (fst (run (handle_callback c) s)) = board_data s.
Proof. unfold handle_callback. m_cases; reflexivity. Qed.

End WriteGates.

(** C7.  A message from a chat outside the allow-list (the permitted chats
    and the debug chat), whatever it carries: [/set], [/del] and the two
    steps of the guided flow answer it with a refusal and leave the store
    as it is; so does the handling of the message as a whole. *)
Theorem writes_refused_outside_work_chats `{PyUnicode} (s : bot) (m : Message)
    (h : handler) :
  chat_allowed (chat_id m) = false →
  h ∈ [h_set; h_del; h_subject_input; h_details_input] →
  board_data (fst (run (handler_body h m) s)) = board_data s
  ∧ (∃ r i, is_refusal r = true
            ∧ reply_to (chat_id m) (message_id m) r i ∈ snd (run (handler_body h m) s))
  ∧ board_data (fst (step s (Msg m))) = board_data s.
Proof.
  intros Hchat Hh. split_and!.
  - by apply board_unchanged_outside.
  - apply list_elem_of_In in Hh. cbn in Hh.
    destruct Hh as [<-|[<-|[<-|[<-|[]]]]];
      unfold handler_body, set_homework, delete_board, handle_subject_input,
        handle_homework_details_input;
      rewrite Hchat; m_step; try case_bool_decide; m_step;
      do 2 eexists; (split; [|in_calls]); reflexivity.
  - unfold step. destruct (classify s (Msg m)) as [h'|]; [|done].
    by apply board_unchanged_outside.
Qed.

Lemma writes_refused_outside_work_chats_witness :
  let s := {| board_data := [(py "math", {| text := py "p.10"; photo_id := None |})];
              muted_users := ∅; user_states := ∅; next_message_id := 1 |} in
  let m := {| message_id := 5; chat_id := 42; chat_private := true;
              from_user := {| id := 42; username := None |}; date := 0;
              body := Text (py "/del math") |} in
  chat_allowed (chat_id m) = false
  ∧ h_del ∈ [h_set; h_del; h_subject_input; h_details_input]
  ∧ board_data (fst (step s (Msg m))) = board_data s.
Proof.
  intros s m.
  assert (Hchat : chat_allowed (chat_id m) = false) by reflexivity.
  assert (Hh : h_del ∈ [h_set; h_del; h_subject_input; h_details_input])
    by (right; left).
  split_and!; [done..|].
  exact (proj2 (proj2 (writes_refused_outside_work_chats s m h_del Hchat Hh))).
Defined.

(** C8.  For an administrator's well-formed request about the user [u]:
    [/mute] of a user who is muted leaves the set as it is, with [u] in it,
    and reports success; [/unmute] of a user who is not muted leaves the
    set as it is and reports success; after [/mute] the user is muted, and
    a second [/mute] changes nothing. *)
Theorem mute_unmute_idempotent `{PyUnicode} (s : bot) (m : Message)
    (t cmd arg : pystr) (u : Z) :
  is_admin (id (from_user m)) = true →
  msg_text m = Some t →
  split_max SPACE 1 t = [cmd; arg] →
  py_int arg = Some u →
  let muted := fst (run (mute_user m) s) in
  let unmuted := fst (run (unmute_user m) s) in
  (u ∈ muted_users s →
     muted_users muted = muted_users s
     ∧ u ∈ muted_users muted
     ∧ ∃ i, reply_to (chat_id m) (message_id m) (MutedOk u) i
              ∈ snd (run (mute_user m) s))
  ∧ (u ∉ muted_users s →
     muted_users unmuted = muted_users s
     ∧ ∃ i, reply_to (chat_id m) (message_id m) (UnmutedOk u) i
              ∈ snd (run (unmute_user m) s))
  ∧ u ∈ muted_users muted
  ∧ muted_users (fst (run (mute_user m) muted)) = muted_users muted.
Proof.
  intros Hadmin Htext Hsplit Hint muted unmuted. subst muted unmuted.
  unfold mute_user, unmute_user, mute_command. m_step.
  rewrite Hadmin, Htext, Hsplit, Hint. m_step.
  split_and!.
  - intros Hu. split_and!; [set_solver|set_solver|eexists; in_calls].
  - intros Hu. split_and!; [set_solver|eexists; in_calls].
  - set_solver.
  - set_solver.
Qed.

Lemma mute_unmute_idempotent_witness :
  let s := {| board_data := []; muted_users := {[ 7 ]};
              user_states := ∅; next_message_id := 1 |} in
  let m := {| message_id := 5; chat_id := DEBUG_CHAT_ID; chat_private := false;
              from_user := {| id := 6066445210; username := None |}; date := 0;
              body := Text (py "/mute 7") |} in
  is_admin (id (from_user m)) = true
  ∧ py_int (py "7") = Some 7
  ∧ 7 ∈ muted_users s
  ∧ muted_users (fst (run (mute_user m) s)) = muted_users s.
Proof.
  intros s m.
  assert (Hadmin : is_admin (id (from_user m)) = true) by reflexivity.
  assert (Hint : py_int (py "7") = Some 7) by reflexivity.
  assert (Hu : 7 ∈ muted_users s) by (subst s; cbn; set_solver).
  split_and!; [done..|].
  exact (proj1 (proj1
    (mute_unmute_idempotent s m (py "/mute 7") (py "/mute") (py "7") 7
       Hadmin eq_refl eq_refl Hint) Hu)).
Defined.

(** C10.  The answer to a free-text question does not depend on the mute
    set: in two states that differ in the mute set only, a message goes to
    the same handler, and [handle_general_queries] makes the same calls,
    leaves the mute set as it was and changes the rest of the state in the
    same way. *)
Theorem general_queries_ignore_mute `{PyUnicode} (s : bot) (m : Message)
    (ms1 ms2 : gset Z) :
  classify (with_muted ms1 s) (Msg m) = classify (with_muted ms2 s) (Msg m)
  ∧ snd (run (handle_general_queries m) (with_muted ms1 s))
    = snd (run (handle_general_queries m) (with_muted ms2 s))
  ∧ fst (run (handle_general_queries m) (with_muted ms1 s))
    = with_muted ms1 (fst (run (handle_general_queries m) (with_muted ms2 s))).
Proof.
  split_and!; [reflexivity|..];
    unfold handle_general_queries, with_muted; m_cases; reflexivity.
Qed.

(** A muted user who asks in a work chat is answered like anybody else,
    while the same user's [/set] is refused. *)
Example muted_user_is_answered :
  let s := {| board_data := [(py "math", {| text := py "p.10"; photo_id := None |})];
              muted_users := {[ 7 ]}; user_states := ∅; next_message_id := 1 |} in
  let ask := {| message_id := 5; chat_id := DEBUG_CHAT_ID; chat_private := false;
                from_user := {| id := 7; username := None |}; date := 0;
                body := Text (py "что по math") |} in
  let set := {| message_id := 6; chat_id := DEBUG_CHAT_ID; chat_private := false;
                from_user := {| id := 7; username := None |}; date := 0;
                body := Text (py "/set math p.11") |} in
  snd (step s (Msg ask))
  = [ send_message 7 (Homework (py "math") (py "p.10")) 1;
      send_message DEBUG_CHAT_ID (Homework (py "math") (py "p.10")) 2;
      delete_message_with_delay DEBUG_CHAT_ID 2 300;
      delete_message_with_delay DEBUG_CHAT_ID 5 1 ]
  ∧ snd (step s (Msg set))
    = [ reply_to DEBUG_CHAT_ID 6 YouAreMuted 1;
        delete_message_with_delay DEBUG_CHAT_ID 6 300;
        delete_message_with_delay DEBUG_CHAT_ID 1 300 ].
Proof. split; vm_compute; reflexivity. Qed.


(** ** Dispatch *)

(** C3, as stated, fails: [/del предмет] from a user whose conversation is
    waiting for the subject is not handled as the command; it goes to
    [handle_subject_input] and becomes the pending subject. *)
Lemma command_consumed_as_subject :
  let s := {| board_data := []; muted_users := ∅;
              user_states := {[ 7 := {| state := waiting_for_subject; subject := None;
                                        bot_prompt_message_id := Some 3 |} ]};
              next_message_id := 4 |} in
  let m := {| message_id := 5; chat_id := DEBUG_CHAT_ID; chat_private := false;
              from_user := {| id := 7; username := None |}; date := 0;
              body := Text (py "/del предмет") |} in
  is_command "del" m = true
  ∧ classify s (Msg m) = Some h_subject_input
  ∧ classify s (Msg m) ≠ Some h_del
  ∧ user_states (fst (step s (Msg m))) !! 7
    = Some {| state := waiting_for_homework_details;
              subject := Some (py "/del предмет");
              bot_prompt_message_id := Some 4 |}.
Proof. split_and!; [vm_compute; reflexivity..|discriminate|vm_compute; reflexivity]. Qed.

Section DispatchFacts.

Lemma is_command_text (c : string) (m : Message) :
  is_command c m = true →
  ∃ t, body m = Text t ∧ extract_command t = Some (py c).
Proof.
  unfold is_command. destruct (body m) as [t| | |]; try done.
  intros Hc%bool_decide_eq_true. eauto.
Qed.

Lemma in_phase_state (p : phase) (s : bot) (m : Message) :
  in_phase p s m = true ↔ state <$> user_states s !! id (from_user m) = Some p.
Proof. unfold in_phase. apply bool_decide_eq_true. Qed.

End DispatchFacts.

(** Decides the filters of [classify] once the body of the message, the
    command it carries and the conversation state of its sender are
    known. *)
Ltac decide_filters :=
  unfold classify, first_handler, message_handlers, in_phase, is_command,
    is_text, is_photo, is_sticker in *;
  repeat match goal with
         | H : body _ = _ |- _ => rewrite H in *
         | H : extract_command _ = _ |- _ => rewrite H in *
         | H : _ <$> user_states _ !! _ = _ |- _ => rewrite H in *
         | H : user_states _ !! _ = _ |- _ => rewrite H in *
         end.

(** C3, amended.  Every update goes to one handler or is dropped, by this
    precedence: a callback query goes to the callback handler; among the
    messages, a sticker goes to the sticker filter, the command [/msgu]
    to its handler, then a text of a user whose conversation waits for the
    subject to [handle_subject_input] and a text or photo of a user whose
    conversation waits for the details to [handle_homework_details_input],
    whatever the text is; only for a user without a conversation the
    commands [/set], [/del], [/start], [/mute], [/restart] and [/unmute] go
    to their handlers, any other text goes to the free-text query handler,
    and any other message is dropped. *)
Theorem dispatch_precedence (s : bot) (m : Message) :
  (∀ c, classify s (Callback c) = Some h_callback)
  ∧ (is_sticker m = true → classify s (Msg m) = Some h_sticker)
  ∧ (is_command "msgu" m = true → classify s (Msg m) = Some h_msgu)
  ∧ (is_command "msgu" m = false → is_text m = true →
     in_phase waiting_for_subject s m = true →
     classify s (Msg m) = Some h_subject_input)
  ∧ (is_command "msgu" m = false → is_text m || is_photo m = true →
     in_phase waiting_for_homework_details s m = true →
     classify s (Msg m) = Some h_details_input)
  ∧ (user_states s !! id (from_user m) = None →
     ∀ c h, (c, h) ∈ [ ("set", h_set); ("del", h_del); ("start", h_start);
                       ("mute", h_mute); ("restart", h_restart);
                       ("unmute", h_unmute) ]%string →
            is_command c m = true → classify s (Msg m) = Some h)
  ∧ (user_states s !! id (from_user m) = None → is_text m = true →
     (∀ c, c ∈ ["msgu"; "set"; "del"; "start"; "mute"; "restart"; "unmute"]%string →
           is_command c m = false) →
     classify s (Msg m) = Some h_general)
  ∧ (is_text m = false → is_sticker m = false →
     is_photo m && in_phase waiting_for_homework_details s m = false →
     classify s (Msg m) = None).
Proof.
  split_and!.
  - done.
  - destruct (body m) eqn:Hb; decide_filters; done.
  - intros (t & Hb & Hc)%is_command_text. decide_filters. vm_compute. done.
  - intros Hmsgu Htext Hphase%in_phase_state.
    unfold classify, first_handler, message_handlers.
    rewrite Hmsgu. destruct (body m) eqn:Hb; decide_filters; try done.
  - intros Hmsgu Hkind Hphase%in_phase_state.
    unfold classify, first_handler, message_handlers.
    rewrite Hmsgu. destruct (body m) eqn:Hb; decide_filters; try done.
  - intros Hnone c h Hin (t & Hb & Hc)%is_command_text.
    apply list_elem_of_In in Hin. cbn in Hin.
    destruct Hin as [[= <- <-]|[[= <- <-]|[[= <- <-]|[[= <- <-]|[[= <- <-]|[[= <- <-]|[]]]]]]];
      decide_filters; vm_compute; reflexivity.
  - intros Hnone Htext Hcmd.
    unfold classify, first_handler, message_handlers.
    rewrite (Hcmd "msgu"%string), (Hcmd "set"%string), (Hcmd "del"%string),
      (Hcmd "start"%string), (Hcmd "mute"%string), (Hcmd "restart"%string),
      (Hcmd "unmute"%string) by (apply list_elem_of_In; cbn; tauto).
    clear Hcmd. unfold in_phase. rewrite Hnone.
    unfold is_text, is_sticker, is_photo in *. by destruct (body m).
  - unfold classify, first_handler, message_handlers, is_command, is_text,
      is_sticker, is_photo.
    destruct (body m); intros Htext Hsticker Hphoto; try done; cbn in *.
    + rewrite Hphoto. by rewrite !andb_false_r.
    + by rewrite !andb_false_r.
Qed.

Lemma dispatch_precedence_witness :
  let s := {| board_data := []; muted_users := ∅;
              user_states := {[ 7 := {| state := waiting_for_subject; subject := None;
                                        bot_prompt_message_id := Some 3 |} ]};
              next_message_id := 4 |} in
  let m := {| message_id := 5; chat_id := DEBUG_CHAT_ID; chat_private := false;
              from_user := {| id := 7; username := None |}; date := 0;
              body := Text (py "/set math p.10") |} in
  is_command "msgu" m = false
  ∧ is_text m = true
  ∧ in_phase waiting_for_subject s m = true
  ∧ classify s (Msg m) = Some h_subject_input.
Proof.
  intros s m.
  assert (Hmsgu : is_command "msgu" m = false) by reflexivity.
  assert (Htext : is_text m = true) by reflexivity.
  assert (Hphase : in_phase waiting_for_subject s m = true) by reflexivity.
  split_and!; [done..|].
  exact (proj1 (proj2 (proj2 (proj2 (dispatch_precedence s m)))) Hmsgu Htext Hphase).
Defined.


(** ** Stripping *)

Section StripFacts.

Lemma lstrip_snoc (l : pystr) (c : N) :
  lstrip (l ++ [c])
  = match lstrip l with
    | [] => if isspace c then [] else [c]
    | r => r ++ [c]
    end.
Proof.
  induction l as [|x l IH]; cbn.
  - by destruct (isspace c).
  - by destruct (isspace x).
Qed.

Lemma rstrip_cons (c : N) (s : pystr) :
  rstrip (c :: s)
  = match rstrip s with
    | [] => if isspace c then [] else [c]
    | r => c :: r
    end.
Proof.
  unfold rstrip. cbn [rev]. rewrite lstrip_snoc.
  destruct (lstrip (rev s)) as [|x l]; cbn [rev].
  - by destruct (isspace c).
  - rewrite rev_app_distr. cbn. by destruct (rev l).
Qed.

Lemma rstrip_idempotent (s : pystr) : rstrip (rstrip s) = rstrip s.
Proof.
  induction s as [|c s IH]; [done|].
  rewrite rstrip_cons. destruct (rstrip s) as [|x r] eqn:Hs.
  - destruct (isspace c) eqn:Hc; [done|].
    rewrite rstrip_cons. cbn. by rewrite Hc.
  - rewrite rstrip_cons. by rewrite IH.
Qed.

Lemma lstrip_head (s : pystr) :
  lstrip s = [] ∨ ∃ c r, lstrip s = c :: r ∧ isspace c = false.
Proof.
  induction s as [|c s IH]; cbn; [by left|].
  destruct (isspace c) eqn:Hc; [done|]. right. eauto.
Qed.

Lemma rstrip_keeps_head (c : N) (s : pystr) :
  isspace c = false → ∃ r, rstrip (c :: s) = c :: r.
Proof.
  intros Hc. rewrite rstrip_cons, Hc. destruct (rstrip s); eauto.
Qed.

Lemma strip_idempotent (s : pystr) : strip (strip s) = strip s.
Proof.
  unfold strip. destruct (lstrip_head s) as [->|(c & r & -> & Hc)]; [done|].
  destruct (rstrip_keeps_head c r Hc) as [r' Hr].
  rewrite Hr at 1. cbn [lstrip]. rewrite Hc, <- Hr. apply rstrip_idempotent.
Qed.

(** A text that strips to nothing starts with white space, if it starts
    at all. *)
Lemma strip_nil_head (c : N) (s : pystr) : strip (c :: s) = [] → isspace c = true.
Proof.
  unfold strip. cbn [lstrip]. destruct (isspace c) eqn:Hc; [done|].
  destruct (rstrip_keeps_head c s Hc) as [r ->]. done.
Qed.

Lemma strip_nil_not_command (t : pystr) : strip t = [] → extract_command t = None.
Proof.
  intros Ht. unfold extract_command. destruct t as [|c t]; [done|].
  apply strip_nil_head in Ht.
  assert (Hc : (SLASH =? c)%N = false) by (apply N.eqb_neq; by intros <-).
  unfold startswith. by rewrite Hc.
Qed.

Lemma lstrip_map (f : N → N) (s : pystr) :
  (∀ c, isspace (f c) = isspace c) → lstrip (map f s) = map f (lstrip s).
Proof.
  intros Hf. induction s as [|c s IH]; cbn; [done|].
  rewrite Hf. by destruct (isspace c).
Qed.

Lemma strip_map (f : N → N) (s : pystr) :
  (∀ c, isspace (f c) = isspace c) → strip (map f s) = map f (strip s).
Proof.
  intros Hf. unfold strip, rstrip.
  by rewrite !lstrip_map, <- !map_rev, !lstrip_map, map_rev.
Qed.

End StripFacts.

(** ** The laws of [str.lower] on the instance of the examples *)

Section BasicLaws.
Local Open Scope N_scope.

Ltac split_tests :=
  repeat match goal with
         | |- context [if ?b then _ else _] => destruct b eqn:?
         end;
  repeat match goal with
         | H : _ && _ = true |- _ => apply andb_true_iff in H as [? ?]
         | H : _ && _ = false |- _ => apply andb_false_iff in H as [?|?]
         | H : (_ <=? _) = true |- _ => apply N.leb_le in H
         | H : (_ <=? _) = false |- _ => apply N.leb_gt in H
         end.

Lemma lower_char_idempotent (c : N) :
  Basic.lower_char (Basic.lower_char c) = Basic.lower_char c.
Proof. unfold Basic.lower_char. split_tests; lia. Qed.

Lemma isspace_bound (c : N) :
  isspace c = true → c ≤ 32 ∨ c = 133 ∨ c = 160 ∨ 5760 ≤ c.
Proof.
  unfold isspace.
  rewrite !orb_true_iff, !andb_true_iff, !N.leb_le, !N.eqb_eq. lia.
Qed.

Lemma isspace_lower_char (c : N) : isspace (Basic.lower_char c) = isspace c.
Proof.
  assert (Hno : ∀ x, 32 < x < 5760 → x ≠ 133 → x ≠ 160 → isspace x = false).
  { intros x ? ? ?. destruct (isspace x) eqn:Hx; [|done].
    apply isspace_bound in Hx. lia. }
  unfold Basic.lower_char. split_tests; try done; rewrite !Hno by lia; done.
Qed.

#[export] Instance basic_lower_laws : LowerLaws basic_unicode.
Proof.
  split; cbn.
  - intros s. rewrite map_map. apply map_ext. apply lower_char_idempotent.
  - intros s Hs. rewrite strip_map by apply isspace_lower_char. by rewrite Hs.
  - intros [|c s]; done.
Qed.

End BasicLaws.

(** ** The invariant of the keys *)

Section KeyInvariant.
Context {U : PyUnicode} {L : LowerLaws U}.

Lemma key_ok_lower (subj : pystr) :
  strip subj = subj → subj ≠ [] → key_ok (lower subj).
Proof.
  intros Hs Hne. split_and!.
  - apply lower_idempotent.
  - by apply lower_trimmed.
  - by apply lower_nonempty.
Qed.

Lemma store_ok_set (d : Dict.t entry) (k : pystr) (e : entry) :
  key_ok k → store_ok d → store_ok (Dict.set k e d).
Proof.
  intros Hk Hd k' [->|Hin]%dict_keys_set; [done|by apply Hd].
Qed.

Lemma store_ok_del (d : Dict.t entry) (k : pystr) :
  store_ok d → store_ok (Dict.del k d).
Proof. intros Hd k' [_ Hin]%dict_keys_del. by apply Hd. Qed.

Lemma subjects_trimmed_delete (us : gmap Z user_state) (u : Z) :
  subjects_trimmed us → subjects_trimmed (delete u us).
Proof.
  intros Hus u' st subj [_ Hst]%lookup_delete_Some Hsubj.
  exact (Hus u' st subj Hst Hsubj).
Qed.

Lemma subjects_trimmed_insert (us : gmap Z user_state) (u : Z) (st : user_state) :
  (∀ subj, subject st = Some subj → strip subj = subj) →
  subjects_trimmed us → subjects_trimmed (<[u := st]> us).
Proof.
  intros Hst Hus u' st' subj [[_ <-]|[_ Hl]]%lookup_insert_Some Hsubj.
  - by apply Hst.
  - exact (Hus u' st' subj Hl Hsubj).
Qed.

Lemma parse_set_args_trimmed (args_line subj value : pystr) :
  parse_set_args args_line = Some (subj, value) → strip subj = subj.
Proof.
  unfold parse_set_args. repeat case_match; intros [= <- <-];
    apply strip_idempotent.
Qed.

Lemma truthy_opt_Some (o : option pystr) :
  truthy_opt o = true → ∃ subj, o = Some subj ∧ subj ≠ [].
Proof.
  destruct o as [subj|]; [|done]. intros Ht%truthy_true. eauto.
Qed.

Lemma truthy_checked (p : pystr) : negb (truthy p) = false → p ≠ [].
Proof. intros Hp%negb_false_iff. by apply truthy_true. Qed.

Ltac solve_trimmed :=
  repeat first
    [ assumption
    | apply subjects_trimmed_delete
    | apply subjects_trimmed_insert;
      [cbn; intros ? [= <-]; apply strip_idempotent|] ].

(** [/set] keeps the invariant: the key is the lower-cased form of a
    subject that was stripped and found not empty. *)
Lemma set_homework_keeps (s : bot) (m : Message) :
  bot_ok s → bot_ok (fst (run (set_homework m) s)).
Proof.
  intros [Hstore Hus]. unfold set_homework, bot_ok. m_cases;
    (split; [|done]); try done.
  apply store_ok_set; [|done].
  apply key_ok_lower; eauto using parse_set_args_trimmed, truthy_checked.
Qed.

(** The first step of the guided flow keeps the invariant: the pending
    subject is stored stripped. *)
Lemma subject_input_keeps (s : bot) (m : Message) :
  bot_ok s → bot_ok (fst (run (handle_subject_input m) s)).
Proof.
  intros [Hstore Hus]. unfold handle_subject_input, bot_ok. m_cases;
    (split; [done|]); solve_trimmed.
Qed.

(** The second step keeps it: the key is the lower-cased form of the
    pending subject, which is stripped and checked not to be empty. *)
Lemma details_input_keeps (s : bot) (m : Message) :
  bot_ok s → bot_ok (fst (run (handle_homework_details_input m) s)).
Proof.
  intros [Hstore Hus]. unfold handle_homework_details_input, bot_ok.
  m_step. case_step; m_step; [split; solve_trimmed|].
  case_step; m_step; [split; solve_trimmed|].
  match goal with
  | |- context [truthy_opt ?o] => destruct (truthy_opt o) as [|] eqn:Hsubj
  end; m_step; [|split; solve_trimmed].
  apply truthy_opt_Some in Hsubj as (subj & Hsubj & Hne). rewrite Hsubj.
  assert (strip subj = subj) as Htrim.
  { destruct (user_states s !! id (from_user m)) as [st|] eqn:Hst; [|done].
    exact (Hus _ _ _ Hst Hsubj). }
  destruct (details_of m) as [homework_text photo_file_id].
  m_cases; (split; [|solve_trimmed]); try done;
    (apply store_ok_set; [by apply key_ok_lower|done]).
Qed.

Lemma delete_board_keeps (s : bot) (m : Message) :
  bot_ok s → bot_ok (fst (run (delete_board m) s)).
Proof.
  intros [Hstore Hus]. unfold delete_board, bot_ok. m_cases;
    (split; [|done]); try done.
  by apply store_ok_del.
Qed.

Lemma callback_keeps (s : bot) (c : CallbackQuery) :
  bot_ok s → bot_ok (fst (run (handle_callback c) s)).
Proof.
  intros [Hstore Hus]. unfold handle_callback, bot_ok. m_cases;
    (split; [done|]);
    repeat first [ assumption | apply subjects_trimmed_delete
                 | apply subjects_trimmed_insert; [by cbn|] ].
Qed.

Lemma handler_keeps (s : bot) (h : handler) (m : Message) :
  bot_ok s → bot_ok (fst (run (handler_body h m) s)).
Proof.
  intros Hs. destruct h; cbn [handler_body];
    first [ by apply set_homework_keeps | by apply subject_input_keeps
          | by apply details_input_keeps | by apply delete_board_keeps
          | idtac ];
    destruct Hs as [Hstore Hus];
    unfold bot_ok, handle_sticker, cmd_msgu, send_welcome, mute_user, unmute_user,
      mute_command, restart_bot, handle_general_queries;
    m_cases; by split.
Qed.

Lemma step_keeps (s : bot) (u : update) : bot_ok s → bot_ok (fst (step s u)).
Proof.
  intros Hs. unfold step. destruct u as [m|c].
  - destruct (classify s (Msg m)); [by apply handler_keeps|done].
  - by apply callback_keeps.
Qed.

Lemma steps_snoc (s : bot) (us : list update) (u : update) :
  fst (steps s (us ++ [u])) = fst (step (fst (steps s us)) u).
Proof.
  unfold steps. rewrite foldl_snoc.
  destruct (foldl _ _ us) as [s' out]. cbn. by destruct (step s' u).
Qed.

Lemma steps_keep (s : bot) (us : list update) :
  bot_ok s → bot_ok (fst (steps s us)).
Proof.
  intros Hs. induction us as [|u us IH] using rev_ind; [done|].
  rewrite steps_snoc. by apply step_keeps.
Qed.

End KeyInvariant.

(** C6.  A key of the store is lower-case, trimmed and not empty: this
    holds for the empty store, it is kept by [/set], by the two steps of
    the guided flow and by [/del], by the handling of any update, and so
    it holds in every state the bot reaches.  (The pending subjects of the
    guided flow are kept trimmed on the way; [str.lower] is idempotent and
    keeps a trimmed, non-empty text trimmed and non-empty.) *)
Theorem store_keys_invariant `{PyUnicode} `{!LowerLaws H} :
  store_ok []
  ∧ (∀ s m, bot_ok s → store_ok (board_data (fst (run (set_homework m) s))))
  ∧ (∀ s m, bot_ok s →
            bot_ok (fst (run (handle_subject_input m) s))
            ∧ store_ok (board_data (fst (run (handle_homework_details_input m)
                                           (fst (run (handle_subject_input m) s))))))
  ∧ (∀ s m, bot_ok s → store_ok (board_data (fst (run (delete_board m) s))))
  ∧ (∀ s u, bot_ok s → bot_ok (fst (step s u)))
  ∧ (∀ s us, store_ok (board_data s) → user_states s = ∅ →
             store_ok (board_data (fst (steps s us)))).
Proof.
  split_and!.
  - by intros k ?%elem_of_nil.
  - intros s m Hs. by apply set_homework_keeps.
  - intros s m Hs. split; [by apply subject_input_keeps|].
    by apply details_input_keeps, subject_input_keeps.
  - intros s m Hs. by apply delete_board_keeps.
  - intros s u Hs. by apply step_keeps.
  - intros s us Hstore Hus. apply steps_keep. split; [done|].
    rewrite Hus. by intros u st subj ?%lookup_empty_Some.
Qed.

Lemma store_keys_invariant_witness :
  let s := {| board_data := []; muted_users := ∅; user_states := ∅;
              next_message_id := 1 |} in
  let m := {| message_id := 5; chat_id := DEBUG_CHAT_ID; chat_private := false;
              from_user := {| id := 7; username := None |}; date := 0;
              body := Text (py "/set  Math  p.10") |} in
  LowerLaws basic_unicode
  ∧ Dict.keys (board_data (fst (steps s [Msg m]))) = [py "math"]
  ∧ store_ok (board_data (fst (steps s [Msg m]))).
Proof.
  intros s m. split_and!.
  - exact basic_lower_laws.
  - vm_compute. reflexivity.
  - exact (proj2 (proj2 (proj2 (proj2 (proj2
      (@store_keys_invariant basic_unicode basic_lower_laws)))))
      s [Msg m] (proj1 (@store_keys_invariant basic_unicode basic_lower_laws))
      eq_refl).
Defined.


(** ** The guided flow *)

Section GuidedFlow.
Context {U : PyUnicode}.

Lemma pystr_eqb_refl (a : pystr) : pystr_eqb a a = true.
Proof. by apply pystr_eqb_eq. Qed.

(** A text that is not the command [/msgu] from a user whose conversation
    waits for the subject goes to [handle_subject_input]. *)
Lemma classify_waiting_for_subject (s : bot) (m : Message) (t : pystr) (st : user_state) :
  body m = Text t →
  extract_command t ≠ Some (py "msgu") →
  user_states s !! id (from_user m) = Some st →
  state st = waiting_for_subject →
  classify s (Msg m) = Some h_subject_input.
Proof.
  intros Hb Hc Hst Hphase.
  unfold classify, first_handler, message_handlers, in_phase, is_command,
    is_sticker, is_text.
  rewrite Hb, Hst. cbn. rewrite Hphase.
  rewrite bool_decide_eq_false_2 by done. done.
Qed.

Lemma classify_waiting_for_details (s : bot) (m : Message) (t : pystr) (st : user_state) :
  body m = Text t →
  extract_command t ≠ Some (py "msgu") →
  user_states s !! id (from_user m) = Some st →
  state st = waiting_for_homework_details →
  classify s (Msg m) = Some h_details_input.
Proof.
  intros Hb Hc Hst Hphase.
  unfold classify, first_handler, message_handlers, in_phase, is_command,
    is_sticker, is_text.
  rewrite Hb, Hst. cbn. rewrite Hphase.
  rewrite bool_decide_eq_false_2 by done. done.
Qed.

(** The button "add homework" opens a conversation that waits for the
    subject; nothing is stored. *)
Lemma start_add_flow (s : bot) (c : CallbackQuery) :
  cq_data c = py "set_info" →
  let s' := fst (step s (Callback c)) in
  board_data s' = board_data s
  ∧ muted_users s' = muted_users s
  ∧ (∃ st, user_states s' !! id (cq_from_user c) = Some st
           ∧ state st = waiting_for_subject)
  ∧ List.filter is_save_data (snd (step s (Callback c))) = [].
Proof.
  intros Hdata. unfold step, handle_callback. rewrite Hdata, pystr_eqb_refl.
  m_cases; (split_and!; [done|done| |done]);
    eexists; (split; [apply lookup_insert_eq|done]).
Qed.

(** A subject that is not empty moves the conversation on to the details;
    nothing is stored. *)
Lemma subject_step (s : bot) (m : Message) (t : pystr) (st : user_state) :
  body m = Text t →
  extract_command t ≠ Some (py "msgu") →
  strip t ≠ [] →
  user_states s !! id (from_user m) = Some st →
  state st = waiting_for_subject →
  chat_allowed (chat_id m) = true →
  id (from_user m) ∉ muted_users s →
  let s' := fst (step s (Msg m)) in
  board_data s' = board_data s
  ∧ muted_users s' = muted_users s
  ∧ (∃ st', user_states s' !! id (from_user m) = Some st'
            ∧ state st' = waiting_for_homework_details
            ∧ subject st' = Some (strip t))
  ∧ List.filter is_save_data (snd (step s (Msg m))) = [].
Proof.
  intros Hb Hc Ht Hst Hphase Hchat Hmute. unfold step.
  rewrite (classify_waiting_for_subject s m t st) by done.
  unfold handler_body, handle_subject_input, msg_text. m_step.
  rewrite Hchat, Hb, Hst. m_step.
  rewrite bool_decide_eq_false_2 by done.
  apply truthy_true in Ht. rewrite Ht. m_cases;
    (split_and!; [done|done| |done]);
    eexists; (split; [apply lookup_insert_eq|done]).
Qed.

(** Details that are not empty are stored under the lower-cased pending
    subject, with one save, and end the conversation. *)
Lemma details_step (s : bot) (m : Message) (t subj : pystr) (st : user_state) :
  body m = Text t →
  extract_command t ≠ Some (py "msgu") →
  strip t ≠ [] →
  user_states s !! id (from_user m) = Some st →
  state st = waiting_for_homework_details →
  subject st = Some subj → subj ≠ [] →
  chat_allowed (chat_id m) = true →
  id (from_user m) ∉ muted_users s →
  let s' := fst (step s (Msg m)) in
  board_data s'
  = Dict.set (lower subj)
      {| text := full_value_text m (from_user m) (strip t); photo_id := None |}
      (board_data s)
  ∧ user_states s' !! id (from_user m) = None
  ∧ List.filter is_save_data (snd (step s (Msg m))) = [save_data (board_data s')].
Proof.
  intros Hb Hc Ht Hst Hphase Hsubj Hne Hchat Hmute. unfold step.
  rewrite (classify_waiting_for_details s m t st) by done.
  unfold handler_body, handle_homework_details_input, details_of. m_step.
  rewrite Hchat, Hb, Hst. m_step.
  rewrite bool_decide_eq_false_2 by done.
  rewrite Hsubj. apply truthy_true in Ht, Hne.
  assert (Hto : truthy_opt (Some subj) = true) by done.
  rewrite !Hto. m_step. rewrite !Ht. m_step.
  m_cases; (split_and!; [done|apply lookup_delete_eq|done]).
Qed.

(** Nothing but white space as the subject: the conversation stays where
    it is and nothing is stored. *)
Lemma blank_subject_step (s : bot) (m : Message) (t : pystr) :
  body m = Text t →
  strip t = [] →
  in_phase waiting_for_subject s m = true →
  chat_allowed (chat_id m) = true →
  id (from_user m) ∉ muted_users s →
  classify s (Msg m) = Some h_subject_input
  ∧ user_states (fst (step s (Msg m))) = user_states s
  ∧ board_data (fst (step s (Msg m))) = board_data s
  ∧ ∃ i, reply_to (chat_id m) (message_id m) SubjectMustNotBeEmpty i
           ∈ snd (step s (Msg m)).
Proof.
  intros Hb Ht Hphase%in_phase_state Hchat Hmute.
  destruct (user_states s !! id (from_user m)) as [st|] eqn:Hst; [|done].
  injection Hphase as Hphase.
  assert (Hcls : classify s (Msg m) = Some h_subject_input).
  { apply (classify_waiting_for_subject s m t st); try done.
    by rewrite strip_nil_not_command. }
  split; [done|]. unfold step. rewrite Hcls.
  unfold handler_body, handle_subject_input, msg_text. m_step.
  rewrite Hchat, Hb. m_step. rewrite bool_decide_eq_false_2 by done.
  rewrite !Ht. change (truthy []) with false. m_step.
  split_and!; [done|done|]. eexists. in_calls.
Qed.

Lemma steps_acc (s : bot) (out : list action) (us : list update) :
  foldl (λ '(s, out) u, let '(s', o) := step s u in (s', out ++ o)) (s, out) us
  = (fst (steps s us), out ++ snd (steps s us)).
Proof.
  unfold steps. revert s out. induction us as [|u us IH]; intros s out; cbn.
  - by rewrite app_nil_r.
  - destruct (step s u) as [s1 o1]. rewrite (IH s1 (out ++ o1)), (IH s1 o1).
    cbn. by rewrite app_assoc.
Qed.

Lemma steps_cons (s : bot) (u : update) (us : list update) :
  fst (steps s (u :: us)) = fst (steps (fst (step s u)) us)
  ∧ snd (steps s (u :: us)) = snd (step s u) ++ snd (steps (fst (step s u)) us).
Proof.
  unfold steps at 1 3. cbn [foldl]. destruct (step s u) as [s1 o1].
  by rewrite steps_acc.
Qed.

End GuidedFlow.

(** C4.  In an allow-listed chat, for a user who is not muted: the button
    that starts the add-flow, then the text "Math", then the text "p.10"
    leave the store with one more assignment, the key "math" with an entry
    whose text starts with "p.10" (every other key keeps its entry, the
    store is saved once), and leave the user without conversation state.
    A text that is empty or white space only, sent while the conversation
    waits for the subject, is answered with the validation error and
    changes neither the conversation states nor the store. *)
Theorem guided_flow_commits_one_entry `{PyUnicode} :
  (∀ (s0 : bot) (c : CallbackQuery) (m1 m2 : Message),
     lower (py "Math") = py "math" →
     cq_data c = py "set_info" →
     from_user m1 = cq_from_user c →
     from_user m2 = cq_from_user c →
     body m1 = Text (py "Math") →
     body m2 = Text (py "p.10") →
     chat_allowed (chat_id m1) = true →
     chat_allowed (chat_id m2) = true →
     id (cq_from_user c) ∉ muted_users s0 →
     let user := cq_from_user c in
     let s1 := fst (step s0 (Callback c)) in
     let s2 := fst (step s1 (Msg m1)) in
     let s3 := fst (step s2 (Msg m2)) in
     let e := {| text := full_value_text m2 user (py "p.10"); photo_id := None |} in
     state <$> user_states s1 !! id user = Some waiting_for_subject
     ∧ state <$> user_states s2 !! id user = Some waiting_for_homework_details
     ∧ board_data s2 = board_data s0
     ∧ board_data s3 = Dict.set (py "math") e (board_data s0)
     ∧ Dict.get (py "math") (board_data s3) = Some e
     ∧ (∀ k, k ≠ py "math" → Dict.get k (board_data s3) = Dict.get k (board_data s0))
     ∧ (∃ rest, text e = py "p.10" ++ rest)
     ∧ user_states s3 !! id user = None
     ∧ List.filter is_save_data (snd (steps s0 [Callback c; Msg m1; Msg m2]))
       = [save_data (board_data s3)])
  ∧ (∀ (s : bot) (m : Message) (t : pystr),
       body m = Text t →
       strip t = [] →
       in_phase waiting_for_subject s m = true →
       chat_allowed (chat_id m) = true →
       id (from_user m) ∉ muted_users s →
       classify s (Msg m) = Some h_subject_input
       ∧ user_states (fst (step s (Msg m))) = user_states s
       ∧ board_data (fst (step s (Msg m))) = board_data s
       ∧ ∃ i, reply_to (chat_id m) (message_id m) SubjectMustNotBeEmpty i
                ∈ snd (step s (Msg m))).
Proof.
  split; [|intros s m t; apply blank_subject_step].
  intros s0 c m1 m2 Hlower Hdata Hu1 Hu2 Hb1 Hb2 Hchat1 Hchat2 Hmute user s1 s2 s3 e.
  destruct (start_add_flow s0 c Hdata)
    as (Hboard1 & Hmuted1 & (st1 & Hst1 & Hphase1) & Hsave1).
  fold s1 in Hboard1, Hmuted1, Hst1. rewrite <- Hu1 in Hst1.
  assert (strip (py "Math") = py "Math") as Hstrip1 by (vm_compute; reflexivity).
  assert (strip (py "p.10") = py "p.10") as Hstrip2 by (vm_compute; reflexivity).
  destruct (subject_step s1 m1 (py "Math") st1)
    as (Hboard2 & Hmuted2 & (st2 & Hst2 & Hphase2 & Hsubj2) & Hsave2);
    [done|by vm_compute|by rewrite Hstrip1|done|done|done
    |by rewrite Hmuted1, Hu1|].
  fold s2 in Hboard2, Hmuted2, Hst2. rewrite Hu1, <- Hu2 in Hst2.
  rewrite Hstrip1 in Hsubj2.
  destruct (details_step s2 m2 (py "p.10") (py "Math") st2)
    as (Hboard3 & Hst3 & Hsave3);
    [done|by vm_compute|by rewrite Hstrip2|done|done|done|done|done
    |by rewrite Hmuted2, Hmuted1, Hu2|].
  fold s3 in Hboard3, Hst3. rewrite Hstrip2, Hlower, Hu2, Hboard2, Hboard1 in Hboard3.
  fold user in Hboard3. fold e in Hboard3.
  split_and!.
  - subst user. by rewrite <- Hu1, Hst1, <- Hphase1.
  - subst user. by rewrite <- Hu2, Hst2, <- Hphase2.
  - by rewrite Hboard2.
  - done.
  - rewrite Hboard3, dict_get_set. by rewrite decide_True.
  - intros k Hk. rewrite Hboard3, dict_get_set. by rewrite decide_False.
  - unfold e, full_value_text. cbn. eauto.
  - subst user. by rewrite <- Hu2.
  - subst s3 s2 s1. rewrite !(proj2 (steps_cons _ _ _)).
    rewrite !List.filter_app, Hsave1, Hsave2, Hsave3. done.
Qed.

Lemma guided_flow_commits_one_entry_witness :
  let user := {| id := 7; username := Some (py "bob") |} in
  let s0 := {| board_data := []; muted_users := ∅; user_states := ∅;
               next_message_id := 100 |} in
  let msg (t : pystr) := {| message_id := 6; chat_id := DEBUG_CHAT_ID; chat_private := false;
                  from_user := user; date := 1730649600; body := Text t |} in
  let c := {| cq_from_user := user; cq_data := py "set_info";
              cq_message := msg (py "menu") |} in
  lower (py "Math") = py "math"
  ∧ chat_allowed DEBUG_CHAT_ID = true
  ∧ (7 ∉ muted_users s0)
  ∧ Dict.keys (board_data (fst (steps s0 [Callback c; Msg (msg (py "Math")); Msg (msg (py "p.10"))])))
    = [py "math"]
  ∧ Dict.get (py "math")
      (board_data (fst (step (fst (step (fst (step s0 (Callback c))) (Msg (msg (py "Math")))))
                         (Msg (msg (py "p.10"))))))
    = Some {| text := py "p.10" ++ [10; 10]%N
                      ++ py "(Добавлено 3 ноября в 20:00 пользователем @bob)";
              photo_id := None |}.
Proof.
  intros user s0 msg c.
  assert (Hlower : lower (py "Math") = py "math") by reflexivity.
  assert (Hchat : chat_allowed DEBUG_CHAT_ID = true) by reflexivity.
  assert (Hmute : 7 ∉ muted_users s0) by apply not_elem_of_empty.
  split_and!; [done|done|done|vm_compute; reflexivity|].
  exact (proj1 (proj2 (proj2 (proj2 (proj2
    (proj1 guided_flow_commits_one_entry s0 c (msg (py "Math")) (msg (py "p.10"))
       Hlower eq_refl eq_refl eq_refl eq_refl eq_refl Hchat Hchat Hmute)))))).
Defined.


(** ** Further properties of the handlers *)

Ltac unfold_handlers :=
  unfold handler_body, handle_sticker, cmd_msgu, handle_subject_input,
    handle_homework_details_input, set_homework, delete_board, send_welcome,
    mute_user, unmute_user, mute_command, restart_bot, handle_general_queries,
    handle_callback.

(** All the paths of a handler. *)
Ltac h_cases m :=
  unfold_handlers;
  destruct (details_of m) as [homework_text photo_file_id] eqn:Hdetails;
  m_cases.

(** A call is, or is not, among calls that are written out. *)
Ltac calls_of H :=
  apply list_elem_of_In in H; cbn in H; intuition congruence.

Section StepFacts.
Context {U : PyUnicode}.

Lemma dict_keys_set_list {V} (d : Dict.t V) (k : pystr) (v : V) :
  Dict.keys (Dict.set k v d)
  = if decide (k ∈ Dict.keys d) then Dict.keys d else Dict.keys d ++ [k].
Proof.
  unfold Dict.keys. induction d as [|[k0 v0] d IH]; [done|].
  unfold Dict.set; fold (@Dict.set V). unfold pystr_eqb. cbn [fmap list_fmap fst].
  case_bool_decide as Hk.
  - subst k0. rewrite decide_True by (by left). done.
  - cbn [fmap list_fmap fst]. rewrite IH.
    destruct (decide (k ∈ d.*1)) as [Hin|Hin].
    + rewrite decide_True by (by right). done.
    + rewrite decide_False; [done|].
      intros [?|?]%elem_of_cons; congruence.
Qed.

Lemma dict_keys_del_list {V} (d : Dict.t V) (k : pystr) :
  Dict.keys (Dict.del k d) = filter (λ k', k' ≠ k) (Dict.keys d).
Proof.
  unfold Dict.keys, Dict.del. induction d as [|[k0 v0] d IH]; [done|].
  rewrite filter_cons. cbn [fmap list_fmap fst]. rewrite filter_cons. cbn [fst].
  case_decide; cbn [fmap list_fmap fst]; by rewrite IH.
Qed.

(** What a handler can do to the store: nothing, one deletion, or one
    assignment; a change comes with a save of the new store, and only
    from [/set], [/del] and the details step. *)
Lemma handler_board_effect (s : bot) (h : handler) (m : Message) :
  let s' := fst (run (handler_body h m) s) in
  let out := snd (run (handler_body h m) s) in
  (∀ d, save_data d ∈ out → d = board_data s')
  ∧ (board_data s' = board_data s ∧ (∀ d, save_data d ∉ out)
     ∨ save_data (board_data s') ∈ out
       ∧ h ∈ [h_set; h_del; h_details_input]
       ∧ ((∃ k, k ∈ Dict.keys (board_data s)
                ∧ board_data s' = Dict.del k (board_data s))
          ∨ ∃ k e, board_data s' = Dict.set k e (board_data s))).
Proof.
  destruct h; h_cases m;
    (split; [intros d Hd; calls_of Hd|]);
    first [ left; split; [reflexivity|intros d Hd; calls_of Hd]
          | right; split_and!;
            [ in_calls
            | apply list_elem_of_In; cbn; tauto
            | first [ left; eexists; split; [|reflexivity];
                      by apply dict_mem_keys
                    | right; by eauto ] ] ].
Qed.

Lemma callback_board_effect (s : bot) (c : CallbackQuery) :
  board_data (fst (run (handle_callback c) s)) = board_data s
  ∧ ∀ d, save_data d ∉ snd (run (handle_callback c) s).
Proof.
  unfold_handlers. m_cases; (split; [reflexivity|intros d Hd; calls_of Hd]).
Qed.

(** The store after one update, in terms of the store before. *)
Lemma step_board_effect (s : bot) (u : update) :
  let s' := fst (step s u) in
  let out := snd (step s u) in
  (∀ d, save_data d ∈ out → d = board_data s')
  ∧ (board_data s' = board_data s ∧ (∀ d, save_data d ∉ out)
     ∨ save_data (board_data s') ∈ out
       ∧ classify s u ∈ [Some h_set; Some h_del; Some h_details_input]
       ∧ ((∃ k, k ∈ Dict.keys (board_data s)
                ∧ board_data s' = Dict.del k (board_data s))
          ∨ ∃ k e, board_data s' = Dict.set k e (board_data s))).
Proof.
  unfold step. destruct u as [m|c].
  - destruct (classify s (Msg m)) as [h|] eqn:Hh.
    + destruct (handler_board_effect s h m) as [Hsave [Hsame|(Hin & Hh' & Heff)]].
      * split; [done|by left].
      * split; [done|]. right. split_and!; [done| |done].
        apply list_elem_of_In in Hh'. cbn in Hh'.
        apply list_elem_of_In. cbn. intuition congruence.
    + cbn. split; [intros d Hd; calls_of Hd|].
      left. split; [done|intros d Hd; calls_of Hd].
  - destruct (callback_board_effect s c) as [Hsame Hnone].
    split; [intros d Hd; by apply Hnone in Hd|by left].
Qed.

Lemma muted_handler_keeps_board (s : bot) (h : handler) (m : Message) :
  id (from_user m) ∈ muted_users s →
  board_data (fst (run (handler_body h m) s)) = board_data s.
Proof.
  intros Hmuted. apply (bool_decide_eq_true_2 _) in Hmuted.
  destruct h; h_cases m; first [reflexivity|discriminate].
Qed.

Lemma handler_admin_effect (s : bot) (h : handler) (m : Message) :
  is_admin (id (from_user m)) = false →
  let s' := fst (run (handler_body h m) s) in
  let out := snd (run (handler_body h m) s) in
  muted_users s' = muted_users s
  ∧ (execl ∉ out)
  ∧ (∀ ms, save_muted_users ms ∉ out)
  ∧ (∀ chat t i, send_message chat (Raw t) i ∉ out).
Proof.
  intros Hadmin.
  destruct h; unfold_handlers; rewrite ?Hadmin;
    destruct (details_of m) as [homework_text photo_file_id] eqn:Hdetails;
    m_cases;
    (split_and!; [reflexivity|intros Hin; calls_of Hin|intros ms Hin; calls_of Hin
                 |intros chat t' i Hin; calls_of Hin]).
Qed.

Lemma callback_admin_effect (s : bot) (c : CallbackQuery) :
  let s' := fst (run (handle_callback c) s) in
  let out := snd (run (handle_callback c) s) in
  muted_users s' = muted_users s
  ∧ (execl ∉ out)
  ∧ (∀ ms, save_muted_users ms ∉ out)
  ∧ (∀ chat t i, send_message chat (Raw t) i ∉ out).
Proof.
  unfold_handlers. m_cases;
    (split_and!; [reflexivity|intros Hin; calls_of Hin|intros ms Hin; calls_of Hin
                 |intros chat t' i Hin; calls_of Hin]).
Qed.

Lemma handler_other_users (s : bot) (h : handler) (m : Message) (v : Z) :
  v ≠ id (from_user m) →
  user_states (fst (run (handler_body h m) s)) !! v = user_states s !! v.
Proof.
  intros Hv.
  destruct h; unfold_handlers;
    destruct (details_of m) as [homework_text photo_file_id] eqn:Hdetails;
    m_cases; rewrite ?lookup_insert_ne, ?lookup_delete_ne by done; reflexivity.
Qed.

Lemma callback_other_users (s : bot) (c : CallbackQuery) (v : Z) :
  v ≠ id (cq_from_user c) →
  user_states (fst (run (handle_callback c) s)) !! v = user_states s !! v.
Proof.
  intros Hv. unfold_handlers.
  m_cases; rewrite ?lookup_insert_ne, ?lookup_delete_ne by done; reflexivity.
Qed.

End StepFacts.

(** X1.  Whatever the update: a save of the store writes the store as the
    handler leaves it; a store that changed has been saved, and the
    update was handled by [/set], by [/del] or by the details step of the
    guided flow; without a save the store is as before. *)
Theorem store_changes_are_saved `{PyUnicode} (s : bot) (u : update) :
  let s' := fst (step s u) in
  let out := snd (step s u) in
  (∀ d, save_data d ∈ out → d = board_data s')
  ∧ (board_data s' ≠ board_data s →
     save_data (board_data s') ∈ out
     ∧ classify s u ∈ [Some h_set; Some h_del; Some h_details_input])
  ∧ ((∀ d, save_data d ∉ out) → board_data s' = board_data s).
Proof.
  destruct (step_board_effect s u) as [Hsave [[Hsame Hnone]|(Hin & Hh & _)]];
    cbn zeta; split_and!; try done.
  intros Hnone. by apply Hnone in Hin.
Qed.

Lemma store_changes_are_saved_witness :
  let s := {| board_data := []; muted_users := ∅; user_states := ∅;
              next_message_id := 1 |} in
  let m := {| message_id := 5; chat_id := DEBUG_CHAT_ID; chat_private := false;
              from_user := {| id := 7; username := None |}; date := 0;
              body := Text (py "/set math p.10") |} in
  board_data (fst (step s (Msg m))) ≠ board_data s
  ∧ classify s (Msg m) ∈ [Some h_set; Some h_del; Some h_details_input].
Proof.
  intros s m.
  assert (Hne : board_data (fst (step s (Msg m))) ≠ board_data s)
    by (vm_compute; discriminate).
  split; [exact Hne|].
  exact (proj2 (proj1 (proj2 (store_changes_are_saved s (Msg m))) Hne)).
Defined.

(** X2.  The keys of the store stay pairwise distinct: an update adds at
    most one key, after the keys there are, or removes one. *)
Theorem store_keys_stay_distinct `{PyUnicode} (s : bot) (u : update) :
  NoDup (Dict.keys (board_data s)) →
  let keys' := Dict.keys (board_data (fst (step s u))) in
  NoDup keys'
  ∧ (keys' = Dict.keys (board_data s)
     ∨ (∃ k, (k ∉ Dict.keys (board_data s))
               ∧ keys' = Dict.keys (board_data s) ++ [k])
     ∨ ∃ k, k ∈ Dict.keys (board_data s)
            ∧ keys' = filter (λ k', k' ≠ k) (Dict.keys (board_data s))).
Proof.
  intros Hnodup keys'. subst keys'.
  destruct (step_board_effect s u)
    as [_ [[-> _]|(_ & _ & [(k & Hk & ->)|(k & e & ->)])]].
  - split; [done|by left].
  - rewrite dict_keys_del_list. split; [by apply NoDup_filter|eauto].
  - rewrite dict_keys_set_list. case_decide as Hk.
    + split; [done|by left].
    + split; [|eauto]. apply NoDup_app. split_and!; [done| |apply NoDup_singleton].
      intros k' Hk' ->%list_elem_of_singleton. done.
Qed.

Lemma store_keys_stay_distinct_witness :
  let s := {| board_data := [(py "math", {| text := py "p.10"; photo_id := None |})];
              muted_users := ∅; user_states := ∅; next_message_id := 1 |} in
  let m := {| message_id := 5; chat_id := DEBUG_CHAT_ID; chat_private := false;
              from_user := {| id := 7; username := None |}; date := 0;
              body := Text (py "/set physics p.11") |} in
  NoDup (Dict.keys (board_data s))
  ∧ NoDup (Dict.keys (board_data (fst (step s (Msg m))))).
Proof.
  intros s m.
  assert (Hnodup : NoDup (Dict.keys (board_data s))) by apply NoDup_singleton.
  split; [exact Hnodup|].
  exact (proj1 (store_keys_stay_distinct s (Msg m) Hnodup)).
Defined.

(** X3.  No update from a muted user changes the store. *)
Theorem muted_user_cannot_write `{PyUnicode} (s : bot) (u : update) :
  id (sender u) ∈ muted_users s →
  board_data (fst (step s u)) = board_data s.
Proof.
  intros Hmuted. unfold step. destruct u as [m|c].
  - destruct (classify s (Msg m)); [|done]. by apply muted_handler_keeps_board.
  - apply callback_board_effect.
Qed.

Lemma muted_user_cannot_write_witness :
  let s := {| board_data := [(py "math", {| text := py "p.10"; photo_id := None |})];
              muted_users := {[ 7 ]}; user_states := ∅; next_message_id := 1 |} in
  let m := {| message_id := 5; chat_id := DEBUG_CHAT_ID; chat_private := false;
              from_user := {| id := 7; username := None |}; date := 0;
              body := Text (py "/del math") |} in
  id (sender (Msg m)) ∈ muted_users s
  ∧ board_data (fst (step s (Msg m))) = board_data s.
Proof.
  intros s m.
  assert (Hmuted : id (sender (Msg m)) ∈ muted_users s)
    by (subst s m; cbn; set_solver).
  split; [exact Hmuted|].
  exact (muted_user_cannot_write s (Msg m) Hmuted).
Defined.

(** X4.  An update from a user who is not an administrator leaves the
    mute set as it is and saves no mute set, does not restart the bot and
    sends no message through [/msgu]. *)
Theorem only_admins_administrate `{PyUnicode} (s : bot) (u : update) :
  is_admin (id (sender u)) = false →
  let s' := fst (step s u) in
  let out := snd (step s u) in
  muted_users s' = muted_users s
  ∧ (execl ∉ out)
  ∧ (∀ ms, save_muted_users ms ∉ out)
  ∧ (∀ chat t i, send_message chat (Raw t) i ∉ out).
Proof.
  intros Hadmin. unfold step. destruct u as [m|c].
  - destruct (classify s (Msg m)) as [h|].
    + by apply handler_admin_effect.
    + cbn. split_and!; [done|intros Hin; calls_of Hin|intros ms Hin; calls_of Hin
                       |intros chat t i Hin; calls_of Hin].
  - apply callback_admin_effect.
Qed.

Lemma only_admins_administrate_witness :
  let s := {| board_data := []; muted_users := ∅; user_states := ∅;
              next_message_id := 1 |} in
  let m := {| message_id := 5; chat_id := DEBUG_CHAT_ID; chat_private := false;
              from_user := {| id := 7; username := None |}; date := 0;
              body := Text (py "/mute 8") |} in
  is_admin (id (sender (Msg m))) = false
  ∧ muted_users (fst (step s (Msg m))) = muted_users s.
Proof.
  intros s m.
  assert (Hadmin : is_admin (id (sender (Msg m))) = false) by reflexivity.
  split; [exact Hadmin|].
  exact (proj1 (only_admins_administrate s (Msg m) Hadmin)).
Defined.

(** X5.  An update touches the conversation state of its sender only:
    the state of every other user is as before. *)
Theorem conversations_are_per_user `{PyUnicode} (s : bot) (u : update) (v : Z) :
  v ≠ id (sender u) →
  user_states (fst (step s u)) !! v = user_states s !! v.
Proof.
  intros Hv. unfold step. destruct u as [m|c].
  - destruct (classify s (Msg m)); [|done]. by apply handler_other_users.
  - by apply callback_other_users.
Qed.

Lemma conversations_are_per_user_witness :
  let st := {| state := waiting_for_subject; subject := None;
               bot_prompt_message_id := Some 3 |} in
  let s := {| board_data := []; muted_users := ∅; user_states := {[ 8 := st ]};
              next_message_id := 4 |} in
  let c := {| cq_from_user := {| id := 7; username := None |};
              cq_data := py "set_info";
              cq_message := {| message_id := 5; chat_id := DEBUG_CHAT_ID;
                               chat_private := false;
                               from_user := {| id := 1; username := None |};
                               date := 0; body := Other |} |} in
  8 ≠ id (sender (Callback c))
  ∧ user_states (fst (step s (Callback c))) !! 8 = Some st.
Proof.
  intros st s c.
  assert (Hv : 8 ≠ id (sender (Callback c))) by discriminate.
  split; [exact Hv|].
  rewrite (conversations_are_per_user s (Callback c) 8 Hv). reflexivity.
Defined.


(** X6.  [/set] on any message: either nothing is stored and nothing is
    saved, or one entry is assigned under the lower-cased subject, which
    is trimmed and not empty, with a text or a photo; then the store is
    saved before the confirmation is sent, and reading the key gives the
    entry. *)
Theorem set_homework_stores_entry `{PyUnicode} (s : bot) (m : Message) :
  let s' := fst (run (set_homework m) s) in
  let out := snd (run (set_homework m) s) in
  (board_data s' = board_data s ∧ ∀ d, save_data d ∉ out)
  ∨ ∃ subject value photo,
      let e := {| text := full_value_text m (from_user m) value; photo_id := photo |} in
      subject ≠ [] ∧ strip subject = subject
      ∧ (value ≠ [] ∨ truthy_opt photo = true)
      ∧ board_data s' = Dict.set (lower subject) e (board_data s)
      ∧ Dict.get (lower subject) (board_data s') = Some e
      ∧ out = [ save_data (board_data s');
                send_message (chat_id m) (Added subject (truthy_opt photo))
                  (next_message_id s);
                delete_message_with_delay (chat_id m) (next_message_id s) 15;
                delete_message_with_delay (chat_id m) (message_id m) 300 ].
Proof.
  unfold set_homework. m_cases;
    first [ left; split; [reflexivity|intros d Hd; calls_of Hd]
          | right ].
  match goal with
  | Hp : parse_set_args _ = Some (?subject, ?value) |- context [Build_entry _ ?photo] =>
    exists subject, value, photo; cbn zeta;
    apply parse_set_args_trimmed in Hp
  end.
  split_and!; try done.
  - by apply truthy_checked.
  - match goal with
    | Hv : negb (truthy ?value) && negb (truthy_opt ?photo) = false |- _ =>
      apply andb_false_iff in Hv as [Hv|Hv]
    end.
    + left. by apply truthy_checked.
    + right. by apply negb_false_iff.
  - rewrite dict_get_set. by rewrite decide_True.
Qed.

Section ParseFacts.

Lemma find_from_here (c : N) (l r : pystr) :
  c ∉ l → find_from c 0 (l ++ c :: r) = Some (length l).
Proof.
  intros Hc. induction l as [|x l IH]; cbn.
  - by rewrite N.eqb_refl.
  - apply not_elem_of_cons in Hc as [Hx Hl].
    rewrite (proj2 (N.eqb_neq x c)) by done. by rewrite IH.
Qed.

Lemma find_from_none (c : N) (n : nat) (l : pystr) :
  c ∉ l → find_from c n l = None.
Proof.
  revert n. induction l as [|x l IH]; intros n Hc; [done|].
  apply not_elem_of_cons in Hc as [Hx Hl]. cbn.
  destruct n; [rewrite (proj2 (N.eqb_neq x c)) by done|]; by rewrite IH.
Qed.

Lemma split1_cons (c x : N) (s : pystr) :
  split1 c (x :: s)
  = if (x =? c)%N then ([], Some s)
    else let '(a, b) := split1 c s in (x :: a, b).
Proof. reflexivity. Qed.

Lemma split1_here (c : N) (l r : pystr) :
  c ∉ l → split1 c (l ++ c :: r) = (l, Some r).
Proof.
  intros Hc. induction l as [|x l IH]; cbn [app]; rewrite split1_cons.
  - by rewrite N.eqb_refl.
  - apply not_elem_of_cons in Hc as [Hx Hl].
    rewrite (proj2 (N.eqb_neq x c)) by done. by rewrite IH.
Qed.

Lemma split1_none (c : N) (l : pystr) : c ∉ l → split1 c l = (l, None).
Proof.
  intros Hc. induction l as [|x l IH]; [done|]. rewrite split1_cons.
  apply not_elem_of_cons in Hc as [Hx Hl].
  rewrite (proj2 (N.eqb_neq x c)) by done. by rewrite IH.
Qed.

End ParseFacts.

(** X7.  The arguments of [/set]: a subject in double quotes is the text
    between the first two quotes, the homework is what follows the closing
    quote; a quote that is not closed is an error; otherwise the subject
    is the first word and the homework the rest, which is empty when
    there is one word only.  Subject and homework are stripped. *)
Theorem parse_set_args_forms (subject rest : pystr) :
  (DQUOTE ∉ subject →
   parse_set_args ([DQUOTE] ++ subject ++ [DQUOTE] ++ rest)
   = Some (strip subject, strip rest))
  ∧ (DQUOTE ∉ subject → parse_set_args ([DQUOTE] ++ subject) = None)
  ∧ (SPACE ∉ subject → startswith [DQUOTE] subject = false →
     parse_set_args (subject ++ [SPACE] ++ rest) = Some (strip subject, strip rest)
     ∧ parse_set_args subject = Some (strip subject, [])).
Proof.
  unfold parse_set_args. split_and!.
  - intros Hq. cbn [app]. unfold startswith. rewrite N.eqb_refl. cbn [andb].
    cbn [find_from]. rewrite find_from_here by done. cbn [fmap option_fmap option_map].
    unfold slice. cbn [drop]. rewrite Nat.sub_succ, Nat.sub_0_r.
    rewrite drop_0, take_app_length, drop_app_ge by lia.
    replace (S (length subject) - length subject)%nat with 1%nat by lia. done.
  - intros Hq. cbn [app]. unfold startswith. rewrite N.eqb_refl. cbn [andb].
    cbn [find_from]. rewrite find_from_none by done. done.
  - intros Hs Hq. split.
    + assert (startswith [DQUOTE] (subject ++ [SPACE] ++ rest) = false) as ->.
      { destruct subject as [|x subject]; [done|]. exact Hq. }
      cbn [app]. by rewrite split1_here.
    + rewrite Hq. by rewrite split1_none.
Qed.

Lemma parse_set_args_forms_witness :
  (DQUOTE ∉ py "изобразительное искусство")
  ∧ parse_set_args ([DQUOTE] ++ py "изобразительное искусство" ++ [DQUOTE]
                    ++ py " рисунок")
    = Some (py "изобразительное искусство", py "рисунок")
  ∧ (SPACE ∉ py "математика")
  ∧ parse_set_args (py "математика") = Some (py "математика", []).
Proof.
  assert (Hq : DQUOTE ∉ py "изобразительное искусство").
  { intros Hin. apply list_elem_of_In in Hin. vm_compute in Hin.
    intuition discriminate. }
  assert (Hs : SPACE ∉ py "математика").
  { intros Hin. apply list_elem_of_In in Hin. vm_compute in Hin.
    intuition discriminate. }
  split_and!; [exact Hq| |exact Hs|].
  - exact (proj1 (parse_set_args_forms (py "изобразительное искусство")
                    (py " рисунок")) Hq).
  - exact (proj2 (proj2 (proj2 (parse_set_args_forms (py "математика") []))
                    Hs eq_refl)).
Defined.


(** X8.  The details step, for a user who may write and whose
    conversation holds a subject: a photo without caption (or with a
    caption of white space only) is stored with the placeholder text and
    ends the conversation; a text of white space only, or a photo message
    without caption and without photo sizes, is answered with the
    validation error and changes neither the store nor the conversation. *)
Theorem details_without_text `{PyUnicode} (s : bot) (m : Message) (st : user_state)
    (subj : pystr) (caption : option pystr) (sizes : list pystr) :
  chat_allowed (chat_id m) = true →
  id (from_user m) ∉ muted_users s →
  user_states s !! id (from_user m) = Some st →
  subject st = Some subj → subj ≠ [] →
  truthy_opt caption = false ∨ strip (default [] caption) = [] →
  let s' := fst (run (handle_homework_details_input m) s) in
  let out := snd (run (handle_homework_details_input m) s) in
  (∀ file_id, body m = Photo caption sizes → last sizes = Some file_id →
     file_id ≠ [] →
     board_data s'
     = Dict.set (lower subj)
         {| text := full_value_text m (from_user m) (py "(см. фото)");
            photo_id := Some file_id |} (board_data s)
     ∧ user_states s' = delete (id (from_user m)) (user_states s)
     ∧ send_message (chat_id m) (Added subj true) (next_message_id s) ∈ out)
  ∧ (body m = Photo caption [] ∨ (∃ t, body m = Text t ∧ strip t = []) →
     board_data s' = board_data s
     ∧ user_states s' = user_states s
     ∧ reply_to (chat_id m) (message_id m) DetailsMustNotBeEmpty (next_message_id s)
         ∈ out).
Proof.
  intros Hchat Hmute Hst Hsubj Hne Hcap s' out. subst s' out.
  assert (Hto : truthy_opt (Some subj) = true) by by apply truthy_true.
  assert (Hcaption : (if truthy_opt caption then strip (default [] caption) else [])
                     = ([] : pystr)).
  { destruct Hcap as [->| ->]; [done|by destruct (truthy_opt caption)]. }
  unfold handle_homework_details_input, details_of. m_step.
  rewrite Hchat, Hst. m_step. rewrite bool_decide_eq_false_2 by done.
  rewrite Hsubj, !Hto. m_step. split.
  - intros file_id Hb Hlast Hfile. rewrite Hb, Hcaption, Hlast.
    assert (Hf : truthy_opt (Some file_id) = true) by by apply truthy_true.
    change (truthy []) with false. rewrite !Hf. m_cases;
      (split_and!; [done|done|in_calls]).
  - intros [Hb|(t & Hb & Ht)]; rewrite Hb; rewrite ?Hcaption, ?Ht;
      change (truthy []) with false; m_step;
      change (truthy_opt None) with false; m_step;
      (split_and!; [done|done|in_calls]).
Qed.

Lemma details_without_text_witness :
  let st := {| state := waiting_for_homework_details; subject := Some (py "Math");
               bot_prompt_message_id := Some 3 |} in
  let s := {| board_data := []; muted_users := ∅; user_states := {[ 7 := st ]};
              next_message_id := 4 |} in
  let m := {| message_id := 5; chat_id := DEBUG_CHAT_ID; chat_private := false;
              from_user := {| id := 7; username := None |}; date := 0;
              body := Photo None [py "small"; py "large"] |} in
  chat_allowed (chat_id m) = true
  ∧ (id (from_user m) ∉ muted_users s)
  ∧ Dict.get (py "math") (board_data (fst (run (handle_homework_details_input m) s)))
    = Some {| text := full_value_text m (from_user m) (py "(см. фото)");
              photo_id := Some (py "large") |}.
Proof.
  intros st s m.
  assert (Hchat : chat_allowed (chat_id m) = true) by reflexivity.
  assert (Hmute : id (from_user m) ∉ muted_users s) by apply not_elem_of_empty.
  split_and!; [exact Hchat|exact Hmute|].
  assert (Hne : py "Math" ≠ []) by discriminate.
  assert (Hlarge : py "large" ≠ []) by discriminate.
  rewrite (proj1 (proj1 (details_without_text s m st (py "Math") None
                           [py "small"; py "large"] Hchat Hmute eq_refl eq_refl Hne
                           (or_introl eq_refl))
                    (py "large") eq_refl eq_refl Hlarge)).
  reflexivity.
Defined.

(** X9.  The button "cancel" ends the conversation of the user who
    presses it and reports the cancellation; without a conversation it
    reports that there is nothing to cancel.  In both cases the store and
    the mute set are as before. *)
Theorem cancel_ends_conversation `{PyUnicode} (s : bot) (c : CallbackQuery) :
  cq_data c = py "cancel_add_hw" →
  let user_id := id (cq_from_user c) in
  let chat := chat_id (cq_message c) in
  let s' := fst (run (handle_callback c) s) in
  let out := snd (run (handle_callback c) s) in
  user_states s' = delete user_id (user_states s)
  ∧ board_data s' = board_data s
  ∧ muted_users s' = muted_users s
  ∧ (is_Some (user_states s !! user_id) →
     send_message chat AddCancelled (next_message_id s) ∈ out)
  ∧ (user_states s !! user_id = None →
     user_states s' = user_states s
     ∧ send_message chat NothingToCancel (next_message_id s) ∈ out).
Proof.
  intros Hdata user_id chat s' out. subst user_id chat s' out.
  unfold handle_callback. rewrite Hdata.
  change (pystr_eqb (py "cancel_add_hw") (py "set_info")) with false.
  change (pystr_eqb (py "cancel_add_hw") (py "delete_info")) with false.
  change (pystr_eqb (py "cancel_add_hw") (py "list")) with false.
  change (startswith (py "get:") (py "cancel_add_hw")) with false.
  rewrite pystr_eqb_refl. m_step.
  destruct (user_states s !! id (cq_from_user c)) as [st|] eqn:Hst; m_step;
    rewrite ?Hst; m_step.
  - destruct (truthy_id (bot_prompt_message_id st)); m_step;
      (split_and!; [done|done|done|intros _; in_calls|done]).
  - split_and!; [by rewrite delete_id|done|done|by intros [? ?]|].
    intros _. split; [done|in_calls].
Qed.

Lemma cancel_ends_conversation_witness :
  let st := {| state := waiting_for_homework_details; subject := Some (py "Math");
               bot_prompt_message_id := Some 3 |} in
  let s := {| board_data := []; muted_users := ∅; user_states := {[ 7 := st ]};
              next_message_id := 4 |} in
  let c := {| cq_from_user := {| id := 7; username := None |};
              cq_data := py "cancel_add_hw";
              cq_message := {| message_id := 3; chat_id := DEBUG_CHAT_ID;
                               chat_private := false;
                               from_user := {| id := 1; username := None |};
                               date := 0; body := Other |} |} in
  cq_data c = py "cancel_add_hw"
  ∧ user_states (fst (run (handle_callback c) s)) !! 7 = None.
Proof.
  intros st s c. split; [reflexivity|].
  rewrite (proj1 (cancel_ends_conversation s c eq_refl)).
  apply lookup_delete_eq.
Defined.

(** X10.  A step of the guided flow from a chat outside the allow-list or
    from a muted user ends the conversation of that user: the state is
    removed, the refusal is sent, and the store is as before. *)
Theorem refused_step_ends_conversation `{PyUnicode} (s : bot) (m : Message)
    (h : handler) :
  chat_allowed (chat_id m) = false ∨ id (from_user m) ∈ muted_users s →
  h ∈ [h_subject_input; h_details_input] →
  let s' := fst (run (handler_body h m) s) in
  let out := snd (run (handler_body h m) s) in
  user_states s' = delete (id (from_user m)) (user_states s)
  ∧ board_data s' = board_data s
  ∧ ∃ r, is_refusal r = true
         ∧ reply_to (chat_id m) (message_id m) r (next_message_id s) ∈ out.
Proof.
  intros Hgate Hh s' out. subst s' out.
  apply list_elem_of_In in Hh. cbn in Hh.
  destruct Hh as [<-|[<-|[]]];
    unfold handler_body, handle_subject_input, handle_homework_details_input;
    m_step;
    (destruct (chat_allowed (chat_id m)) eqn:Hchat; m_step;
     [ destruct Hgate as [?|Hmuted]; [done|];
       rewrite bool_decide_eq_true_2 by done; m_step
     | ]);
    (split_and!; [done|done|eexists; split; [|in_calls]; done]).
Qed.

Lemma refused_step_ends_conversation_witness :
  let st := {| state := waiting_for_subject; subject := None;
               bot_prompt_message_id := Some 3 |} in
  let s := {| board_data := []; muted_users := {[ 7 ]}; user_states := {[ 7 := st ]};
              next_message_id := 4 |} in
  let m := {| message_id := 5; chat_id := DEBUG_CHAT_ID; chat_private := false;
              from_user := {| id := 7; username := None |}; date := 0;
              body := Text (py "Math") |} in
  (chat_allowed (chat_id m) = false ∨ id (from_user m) ∈ muted_users s)
  ∧ h_subject_input ∈ [h_subject_input; h_details_input]
  ∧ user_states (fst (run (handler_body h_subject_input m) s)) !! 7 = None.
Proof.
  intros st s m.
  assert (Hgate : chat_allowed (chat_id m) = false ∨ id (from_user m) ∈ muted_users s)
    by (right; subst s m; cbn; set_solver).
  assert (Hh : h_subject_input ∈ [h_subject_input; h_details_input]) by left.
  split_and!; [exact Hgate|exact Hh|].
  rewrite (proj1 (refused_step_ends_conversation s m h_subject_input Hgate Hh)).
  apply lookup_delete_eq.
Defined.


(** ** Further properties of the resolver and of the answers *)

Lemma lookup_insert_keeps (m : gmap pystr pystr) (a x v : pystr) :
  m !! x = Some v → <[a := v]> m !! x = Some v.
Proof.
  intros Hx. rewrite lookup_insert. by case_decide.
Qed.

(** X11.  The aliases of the key that comes last in the store always lead
    to it: its lower-case form, that form without spaces, and the first
    four characters of the latter when it has two or more.  So when two
    subjects share such an alias, the one stored last wins. *)
Theorem last_key_aliases `{PyUnicode} (board : Dict.t entry) (k : pystr)
    (e : entry) :
  k ≠ [] →
  let key := lower k in
  let nospace := remove_char SPACE key in
  let alias_map := build_subject_alias_map (board ++ [(k, e)]) in
  alias_map !! key = Some key
  ∧ (nospace ≠ [] → alias_map !! nospace = Some key)
  ∧ ((2 ≤ length nospace)%nat → alias_map !! take 4 nospace = Some key).
Proof.
  intros Hk key nospace alias_map. subst alias_map.
  unfold build_subject_alias_map, Dict.keys.
  rewrite fmap_app, fold_left_app. cbn [fmap list_fmap fst fold_left].
  generalize (fold_left add_aliases board.*1 ∅). intros m0.
  unfold add_aliases. apply truthy_true in Hk. rewrite Hk. cbn [negb].
  fold key. fold nospace. unfold pystr_eqb.
  assert (Hlen : length (take 4 nospace) = (length nospace `min` 4)%nat)
    by (rewrite length_take; lia).
  split_and!.
  - repeat case_match;
      repeat first [apply lookup_insert_eq | apply lookup_insert_keeps].
  - intros Hns%truthy_true. rewrite Hns. cbn [andb].
    case_bool_decide as Heq; cbn [negb].
    + rewrite Heq. repeat case_match;
        repeat first [apply lookup_insert_eq | apply lookup_insert_keeps].
    + repeat case_match;
        repeat first [apply lookup_insert_eq | apply lookup_insert_keeps].
  - intros Hlong.
    rewrite (proj2 (Nat.leb_le 2 (length nospace))) by done.
    apply lookup_insert_eq.
Qed.

Lemma last_key_aliases_witness :
  let e := {| text := py "p.10"; photo_id := None |} in
  py "математика" ≠ []
  ∧ build_subject_alias_map [(py "материаловедение", e); (py "математика", e)]
      !! py "мате"
    = Some (py "математика").
Proof.
  intros e.
  assert (Hk : py "математика" ≠ []) by discriminate.
  split; [exact Hk|].
  refine (proj2 (proj2 (last_key_aliases [(py "материаловедение", e)]
                          (py "математика") e Hk)) _).
  vm_compute. lia.
Defined.

Lemma truthy_opt_default (o : option pystr) :
  truthy_opt o = true → o = Some (default [] o).
Proof. by destruct o. Qed.

(** X12.  The free-text query handler only reads: store, mute set and
    conversation states are as before, and no exception leaves it.  A
    homework it sends is an entry of the store, under the key it names and
    with the stored text and photo.  A text that is blank or starts with a
    slash is not answered at all. *)
Theorem general_queries_read_only `{PyUnicode} (s : bot) (m : Message) :
  let s' := fst (run (handle_general_queries m) s) in
  let out := snd (run (handle_general_queries m) s) in
  board_data s' = board_data s
  ∧ muted_users s' = muted_users s
  ∧ user_states s' = user_states s
  ∧ (∀ e, uncaught e ∉ out)
  ∧ (∀ chat k t i, send_message chat (Homework k t) i ∈ out →
       ∃ e, Dict.get k (board_data s) = Some e ∧ text e = t
            ∧ truthy_opt (photo_id e) = false)
  ∧ (∀ chat f k t i, send_photo chat f (Homework k t) i ∈ out →
       ∃ e, Dict.get k (board_data s) = Some e ∧ text e = t
            ∧ photo_id e = Some f)
  ∧ (∀ t, body m = Text t →
          strip t = [] ∨ startswith [SLASH] (strip t) = true → out = []).
Proof.
  unfold handle_general_queries. m_cases;
    (split_and!;
     [ reflexivity | reflexivity | reflexivity
     | intros e' Hin; calls_of Hin
     | intros chat k t' i Hin; apply list_elem_of_In in Hin; cbn in Hin;
       repeat (destruct Hin as [Hin|Hin]; [try discriminate Hin|]);
       try contradiction; try (injection Hin as <- <- <- <-); eauto
     | intros chat f k t' i Hin; apply list_elem_of_In in Hin; cbn in Hin;
       repeat (destruct Hin as [Hin|Hin]; [try discriminate Hin|]);
       try contradiction; try (injection Hin as <- <- <- <- <-);
       eauto using truthy_opt_default
     | intros t' Hb [Ht|Ht]; unfold msg_text in *; rewrite Hb in *;
       simplify_eq; try reflexivity;
       first [ congruence
             | match goal with
               | Hn : negb (truthy _) = false |- _ => by apply truthy_checked in Hn
               end ] ]).
Qed.

(** X13.  The button of a subject that is in the store, without a photo:
    pressed in the chat of the user himself, the homework is sent once, to
    the user; pressed elsewhere, it is sent to the user and to the chat,
    and the copy in the chat is scheduled for deletion after 300 seconds.
    The message with the buttons is removed unless the chat is private.
    The button of a subject that is not in the store is answered with "not
    found".  Nothing in the state changes but the message counter. *)
Theorem subject_button_answer `{PyUnicode} (s : bot) (c : CallbackQuery) (k : pystr) :
  cq_data c = py "get:" ++ k →
  let user_id := id (cq_from_user c) in
  let chat := chat_id (cq_message c) in
  let n := next_message_id s in
  let s' := fst (run (handle_callback c) s) in
  let out := snd (run (handle_callback c) s) in
  let cleanup :=
    if chat_private (cq_message c) then []
    else [delete_message_with_delay chat (message_id (cq_message c)) 1] in
  board_data s' = board_data s
  ∧ muted_users s' = muted_users s
  ∧ user_states s' = user_states s
  ∧ (∀ e, Dict.get k (board_data s) = Some e → truthy_opt (photo_id e) = false →
       out = answer_callback_query
             :: (if bool_decide (chat = user_id)
                 then [send_message user_id (Homework k (text e)) n]
                 else [ send_message user_id (Homework k (text e)) n;
                        send_message chat (Homework k (text e)) (n + 1);
                        delete_message_with_delay chat (n + 1) 300 ])
             ++ cleanup)
  ∧ (Dict.get k (board_data s) = None →
       out = [ answer_callback_query;
               send_message chat (SubjectNotFound k) n;
               delete_message_with_delay chat n 300 ] ++ cleanup).
Proof.
  intros Hdata user_id chat n s' out cleanup. subst user_id chat n s' out cleanup.
  assert (Hne : ∀ w, head w ≠ Some 103%N → pystr_eqb (py "get:" ++ k) w = false).
  { intros w Hw. apply bool_decide_eq_false_2. intros <-. by apply Hw. }
  unfold handle_callback. rewrite Hdata.
  rewrite !Hne by (vm_compute; discriminate).
  change (startswith (py "get:") (py "get:" ++ k)) with true.
  change (drop 4 (py "get:" ++ k)) with k.
  m_cases; (split_and!; [reflexivity|reflexivity|reflexivity| |]);
    first [ solve [intros e' [= <-] Hphoto; first [reflexivity|congruence]]
          | solve [intros _; reflexivity]
          | solve [intros [=]]
          | solve [intros e' [=]] ].
Qed.

Lemma subject_button_answer_witness :
  let s := {| board_data := [(py "math", {| text := py "p.10"; photo_id := None |})];
              muted_users := ∅; user_states := ∅; next_message_id := 10 |} in
  let c := {| cq_from_user := {| id := 7; username := None |};
              cq_data := py "get:math";
              cq_message := {| message_id := 3; chat_id := DEBUG_CHAT_ID;
                               chat_private := false;
                               from_user := {| id := 1; username := None |};
                               date := 0; body := Other |} |} in
  cq_data c = py "get:" ++ py "math"
  ∧ snd (run (handle_callback c) s)
    = [ answer_callback_query;
        send_message 7 (Homework (py "math") (py "p.10")) 10;
        send_message DEBUG_CHAT_ID (Homework (py "math") (py "p.10")) 11;
        delete_message_with_delay DEBUG_CHAT_ID 11 300;
        delete_message_with_delay DEBUG_CHAT_ID 3 1 ].
Proof.
  intros s c.
  assert (Hdata : cq_data c = py "get:" ++ py "math") by reflexivity.
  split; [exact Hdata|].
  exact (proj1 (proj2 (proj2 (proj2 (subject_button_answer s c (py "math") Hdata))))
           {| text := py "p.10"; photo_id := None |} eq_refl eq_refl).
Defined.

Section SortFacts.

Lemma pystr_ltb_asym (a b : pystr) : pystr_ltb a b = true → pystr_ltb b a = false.
Proof.
  revert b. induction a as [|x a IH]; intros [|y b]; cbn; try done.
  intros [Hlt|[Heq Hab]%andb_true_iff]%orb_true_iff.
  - apply N.ltb_lt in Hlt. apply orb_false_iff. split.
    + apply N.ltb_ge. lia.
    + apply andb_false_iff. left. apply N.eqb_neq. lia.
  - apply N.eqb_eq in Heq as ->. rewrite N.ltb_irrefl, N.eqb_refl. cbn.
    by apply IH.
Qed.

Lemma sorted_insert_perm (key : pystr → pystr) (x : pystr) (l : list pystr) :
  sorted_insert key x l ≡ₚ x :: l.
Proof.
  induction l as [|y l IH]; cbn; [done|].
  destruct (pystr_ltb (key y) (key x)); [|done].
  rewrite IH. apply perm_swap.
Qed.

Lemma sorted_insert_hd (key : pystr → pystr) (a x : pystr) (l : list pystr) :
  not_before key a x → HdRel (not_before key) a l →
  HdRel (not_before key) a (sorted_insert key x l).
Proof.
  intros Hax Hal. destruct l as [|y l]; cbn; [by constructor|].
  destruct (pystr_ltb (key y) (key x)); constructor; [|done].
  by inversion Hal.
Qed.

Lemma sorted_insert_sorted (key : pystr → pystr) (x : pystr) (l : list pystr) :
  Sorted (not_before key) l → Sorted (not_before key) (sorted_insert key x l).
Proof.
  induction 1 as [|y l Hl IH Hhd]; cbn; [by repeat constructor|].
  destruct (pystr_ltb (key y) (key x)) eqn:Hyx.
  - constructor; [done|]. apply sorted_insert_hd; [|done].
    by apply pystr_ltb_asym.
  - constructor; [by constructor|]. by constructor.
Qed.

End SortFacts.

(** X14.  The subject buttons are the keys of the store, each once as
    often as it is a key, in an order in which no button sorts before its
    predecessor when the lower-case forms are compared by code points. *)
Theorem subject_buttons_sorted `{PyUnicode} (board : Dict.t entry) :
  generate_subject_buttons board ≡ₚ Dict.keys board
  ∧ Sorted (not_before lower) (generate_subject_buttons board).
Proof.
  unfold generate_subject_buttons. case_bool_decide as Hb; [by subst|].
  unfold sorted_by. generalize (Dict.keys board). intros l. split.
  - induction l as [|x l IH]; cbn; [done|].
    by rewrite sorted_insert_perm, IH.
  - induction l as [|x l IH]; cbn; [constructor|].
    by apply sorted_insert_sorted.
Qed.


(** ** How the operations compose *)

Section ComposeFacts.
Context {U : PyUnicode}.

Lemma muted_step_keeps_board (s : bot) (u : update) :
  id (sender u) ∈ muted_users s → board_data (fst (step s u)) = board_data s.
Proof.
  intros Hmuted. unfold step. destruct u as [m|c].
  - destruct (classify s (Msg m)); [|done]. by apply muted_handler_keeps_board.
  - apply callback_board_effect.
Qed.

Lemma dict_del_set {V} (d : Dict.t V) (k : pystr) (v : V) :
  Dict.del k (Dict.set k v d) = Dict.del k d.
Proof.
  unfold Dict.del. induction d as [|[k0 v0] d IH].
  - unfold Dict.set. rewrite filter_cons. cbn [fst].
    by rewrite decide_False by (by intros []).
  - unfold Dict.set; fold (@Dict.set V). unfold pystr_eqb.
    case_bool_decide as Hk.
    + subst k0. rewrite !filter_cons. cbn [fst].
      by rewrite !decide_False by (by intros []).
    + rewrite !filter_cons. cbn [fst]. rewrite IH. done.
Qed.

Lemma dict_del_absent {V} (d : Dict.t V) (k : pystr) :
  k ∉ Dict.keys d → Dict.del k d = d.
Proof.
  unfold Dict.del, Dict.keys. induction d as [|[k0 v0] d IH]; [done|].
  cbn [fmap list_fmap fst]. intros [Hne Hd]%not_elem_of_cons.
  rewrite filter_cons. cbn [fst]. rewrite decide_True by done. by rewrite IH.
Qed.

End ComposeFacts.

(** X15.  After an administrator's [/mute u]: [u] is in the mute set,
    which has been saved; no update from [u] changes the store; store and
    conversations are untouched by the command.  A following [/unmute u]
    takes [u] out again, and brings back the set there was when [u] was
    not muted before. *)
Theorem mute_takes_effect `{PyUnicode} (s : bot) (m : Message) (t cmd arg : pystr)
    (u : Z) :
  is_admin (id (from_user m)) = true →
  msg_text m = Some t →
  split_max SPACE 1 t = [cmd; arg] →
  py_int arg = Some u →
  let muted := fst (run (mute_user m) s) in
  let unmuted := fst (run (unmute_user m) muted) in
  u ∈ muted_users muted
  ∧ save_muted_users (muted_users muted) ∈ snd (run (mute_user m) s)
  ∧ board_data muted = board_data s
  ∧ user_states muted = user_states s
  ∧ (∀ upd, id (sender upd) = u →
            board_data (fst (step muted upd)) = board_data muted)
  ∧ (u ∉ muted_users unmuted)
  ∧ (u ∉ muted_users s → muted_users unmuted = muted_users s).
Proof.
  intros Hadmin Htext Hsplit Hint muted unmuted.
  assert (Hmuted : u ∈ muted_users muted).
  { subst muted. unfold mute_user, mute_command. m_step.
    rewrite Hadmin, Htext, Hsplit, Hint. m_step. set_solver. }
  split_and!; [done|..].
  - subst muted. unfold mute_user, mute_command. m_step.
    rewrite Hadmin, Htext, Hsplit, Hint. m_step. in_calls.
  - subst muted. unfold mute_user, mute_command. m_step.
    by rewrite Hadmin, Htext, Hsplit, Hint.
  - subst muted. unfold mute_user, mute_command. m_step.
    by rewrite Hadmin, Htext, Hsplit, Hint.
  - intros upd Hupd. apply muted_step_keeps_board. by rewrite Hupd.
  - subst unmuted muted. unfold mute_user, unmute_user, mute_command. m_step.
    rewrite Hadmin, Htext, Hsplit, Hint. m_step. set_solver.
  - intros Hu. subst unmuted muted. unfold mute_user, unmute_user, mute_command.
    m_step. rewrite Hadmin, Htext, Hsplit, Hint. m_step. set_solver.
Qed.

Lemma mute_takes_effect_witness :
  let s := {| board_data := [(py "math", {| text := py "p.10"; photo_id := None |})];
              muted_users := ∅; user_states := ∅; next_message_id := 1 |} in
  let m := {| message_id := 5; chat_id := DEBUG_CHAT_ID; chat_private := false;
              from_user := {| id := 6066445210; username := None |}; date := 0;
              body := Text (py "/mute 7") |} in
  let del := {| message_id := 6; chat_id := DEBUG_CHAT_ID; chat_private := false;
                from_user := {| id := 7; username := None |}; date := 0;
                body := Text (py "/del math") |} in
  is_admin (id (from_user m)) = true
  ∧ py_int (py "7") = Some 7
  ∧ board_data (fst (step (fst (run (mute_user m) s)) (Msg del)))
    = board_data (fst (run (mute_user m) s)).
Proof.
  intros s m del.
  assert (Hadmin : is_admin (id (from_user m)) = true) by reflexivity.
  assert (Hint : py_int (py "7") = Some 7) by reflexivity.
  split_and!; [exact Hadmin|exact Hint|].
  exact (proj1 (proj2 (proj2 (proj2 (proj2
    (mute_takes_effect s m (py "/mute 7") (py "/mute") (py "7") 7
       Hadmin eq_refl eq_refl Hint))))) (Msg del) eq_refl).
Defined.

(** X16.  [/set] of a subject followed by [/del] of the same key, both
    well formed and from a user who may write: the store is what [/del]
    alone would have left, so the subject is gone, every other key keeps
    its entry, and a store that did not have the subject is back as it
    was. *)
Theorem set_then_del `{PyUnicode} (s : bot) (m1 m2 : Message)
    (t1 cmd1 args subj value t2 cmd2 arg : pystr) :
  id (from_user m1) ∉ muted_users s → chat_allowed (chat_id m1) = true →
  id (from_user m2) ∉ muted_users s → chat_allowed (chat_id m2) = true →
  body m1 = Text t1 →
  startswith (py "/set ") (lower (strip t1)) = true →
  split_max SPACE 1 (strip t1) = [cmd1; args] →
  strip args ≠ [] →
  parse_set_args (strip args) = Some (subj, value) →
  subj ≠ [] → value ≠ [] →
  msg_text m2 = Some t2 →
  split_max SPACE 1 t2 = [cmd2; arg] →
  strip arg ≠ [] →
  parse_del_key (strip arg) = lower subj →
  lower subj ≠ [] →
  let s1 := fst (run (set_homework m1) s) in
  let s2 := fst (run (delete_board m2) s1) in
  Dict.get (lower subj) (board_data s1)
  = Some {| text := full_value_text m1 (from_user m1) value; photo_id := None |}
  ∧ board_data s2 = Dict.del (lower subj) (board_data s)
  ∧ Dict.get (lower subj) (board_data s2) = None
  ∧ (lower subj ∉ Dict.keys (board_data s) → board_data s2 = board_data s).
Proof.
  intros Hmute1 Hchat1 Hmute2 Hchat2 Hb1 Hset Hsplit1 Hargs Hparse Hsubj Hvalue
    Htext2 Hsplit2 Harg Hkey Hlower s1 s2.
  assert (Hboard1 : board_data s1
    = Dict.set (lower subj)
        {| text := full_value_text m1 (from_user m1) value; photo_id := None |}
        (board_data s)
    ∧ muted_users s1 = muted_users s).
  { subst s1. unfold set_homework. m_step.
    rewrite bool_decide_eq_false_2, Hchat1, Hb1 by done. m_step.
    rewrite Hset, Hsplit1. m_step.
    apply truthy_true in Hargs, Hsubj, Hvalue.
    rewrite Hargs, Hparse. m_step. rewrite Hsubj, Hvalue. m_step. done. }
  destruct Hboard1 as [Hboard1 Hmuted1].
  assert (Hboard2 : board_data s2 = Dict.del (lower subj) (board_data s)).
  { subst s2. unfold delete_board. m_step. rewrite Hmuted1.
    rewrite bool_decide_eq_false_2, Hchat2, Htext2, Hsplit2 by done. m_step.
    apply truthy_true in Harg, Hlower. rewrite Harg, Hkey, Hlower. m_step.
    assert (Hmem : Dict.mem (lower subj) (board_data s1) = true).
    { apply dict_mem_keys. rewrite Hboard1. apply dict_keys_set. by left. }
    rewrite Hmem. m_step. rewrite Hboard1. apply dict_del_set. }
  split_and!.
  - rewrite Hboard1, dict_get_set. by rewrite decide_True.
  - done.
  - rewrite Hboard2. destruct (Dict.get _ _) eqn:Hget; [|done].
    assert (Hin : lower subj ∈ Dict.keys (Dict.del (lower subj) (board_data s)))
      by (apply dict_get_keys; eauto).
    apply dict_keys_del in Hin as [? _]. done.
  - intros Habsent. rewrite Hboard2. by apply dict_del_absent.
Qed.

Lemma set_then_del_witness :
  let s := {| board_data := [(py "physics", {| text := py "p.3"; photo_id := None |})];
              muted_users := ∅; user_states := ∅; next_message_id := 1 |} in
  let msg (i : Z) (t : pystr) :=
    {| message_id := i; chat_id := DEBUG_CHAT_ID; chat_private := false;
       from_user := {| id := 7; username := None |}; date := 0; body := Text t |} in
  let m1 := msg 5 (py "/set Math p.10") in
  let m2 := msg 6 (py "/del MATH") in
  (id (from_user m1) ∉ muted_users s)
  ∧ chat_allowed (chat_id m1) = true
  ∧ board_data (fst (run (delete_board m2) (fst (run (set_homework m1) s))))
    = board_data s.
Proof.
  intros s msg m1 m2.
  assert (Hmute : id (from_user m1) ∉ muted_users s) by apply not_elem_of_empty.
  assert (Hchat : chat_allowed (chat_id m1) = true) by reflexivity.
  split_and!; [exact Hmute|exact Hchat|].
  refine (proj2 (proj2 (proj2
    (set_then_del s m1 m2 (py "/set Math p.10") (py "/set") (py "Math p.10")
       (py "Math") (py "p.10") (py "/del MATH") (py "/del") (py "MATH")
       Hmute Hchat Hmute Hchat eq_refl eq_refl eq_refl _ eq_refl _ _
       eq_refl eq_refl _ eq_refl _))) _);
    first [ discriminate
          | vm_compute; intros Hin; apply list_elem_of_In in Hin;
            cbn in Hin; intuition discriminate ].
Defined.


(** X17.  The button "add homework", whatever the conversation of the
    user was: the user's state is a fresh one that waits for the subject,
    without pending subject and with the new prompt recorded; a previous
    prompt is scheduled for deletion; the states of the other users, the
    store and the mute set are as before. *)
Theorem start_flow_discards_previous `{PyUnicode} (s : bot) (c : CallbackQuery) :
  cq_data c = py "set_info" →
  let user_id := id (cq_from_user c) in
  let chat := chat_id (cq_message c) in
  let s' := fst (run (handle_callback c) s) in
  let out := snd (run (handle_callback c) s) in
  user_states s'
  = <[user_id := {| state := waiting_for_subject; subject := None;
                    bot_prompt_message_id := Some (next_message_id s) |}]>
      (user_states s)
  ∧ board_data s' = board_data s
  ∧ muted_users s' = muted_users s
  ∧ send_message chat PromptSubject (next_message_id s) ∈ out
  ∧ (∀ st old, user_states s !! user_id = Some st →
               bot_prompt_message_id st = Some old → old ≠ 0 →
               delete_message_with_delay chat old 1 ∈ out).
Proof.
  intros Hdata user_id chat s' out. subst user_id chat s' out.
  unfold handle_callback. rewrite Hdata, pystr_eqb_refl. m_step.
  destruct (user_states s !! id (cq_from_user c)) as [st|] eqn:Hst; m_step.
  - destruct (truthy_id (bot_prompt_message_id st)) eqn:Hprompt; m_step;
      (split_and!;
       [ by rewrite insert_insert_eq, insert_delete_eq
       | done | done | in_calls | ]);
      intros st' old [= <-] Hold Hne; rewrite Hold in *.
    + in_calls.
    + unfold truthy_id in Hprompt. apply negb_false_iff, Z.eqb_eq in Hprompt. done.
  - split_and!; [by rewrite insert_insert_eq|done|done|in_calls|done].
Qed.

Lemma start_flow_discards_previous_witness :
  let st := {| state := waiting_for_homework_details; subject := Some (py "Math");
               bot_prompt_message_id := Some 3 |} in
  let s := {| board_data := []; muted_users := ∅; user_states := {[ 7 := st ]};
              next_message_id := 4 |} in
  let c := {| cq_from_user := {| id := 7; username := None |};
              cq_data := py "set_info";
              cq_message := {| message_id := 9; chat_id := DEBUG_CHAT_ID;
                               chat_private := false;
                               from_user := {| id := 1; username := None |};
                               date := 0; body := Other |} |} in
  cq_data c = py "set_info"
  ∧ user_states (fst (run (handle_callback c) s)) !! 7
    = Some {| state := waiting_for_subject; subject := None;
              bot_prompt_message_id := Some 4 |}.
Proof.
  intros st s c. split; [reflexivity|].
  rewrite (proj1 (start_flow_discards_previous s c eq_refl)).
  apply lookup_insert_eq.
Defined.

Section AnswerFacts.
Context {U : PyUnicode}.

Lemma add_aliases_from_key (S : pystr → Prop) (alias_map : gmap pystr pystr)
    (subj_key : pystr) :
  (subj_key ≠ [] → S (lower subj_key)) →
  (∀ a k, alias_map !! a = Some k → S k) →
  ∀ a k, add_aliases alias_map subj_key !! a = Some k → S k.
Proof.
  intros Hkey Hm a k. unfold add_aliases.
  destruct (truthy subj_key) eqn:Ht; cbn [negb]; [|by eauto].
  apply truthy_true in Ht. specialize (Hkey Ht). cbv zeta.
  repeat case_match;
    repeat (rewrite lookup_insert_Some; intros [[_ <-]|[_ Hl]]; [done|revert Hl]);
    eauto.
Qed.

Lemma alias_map_from_keys (S : pystr → Prop) (ks : list pystr)
    (alias_map : gmap pystr pystr) :
  (∀ key, key ∈ ks → key ≠ [] → S (lower key)) →
  (∀ a k, alias_map !! a = Some k → S k) →
  ∀ a k, fold_left add_aliases ks alias_map !! a = Some k → S k.
Proof.
  revert alias_map. induction ks as [|key ks IH]; intros alias_map Hks Hm; cbn.
  - done.
  - apply IH.
    + intros ? ?. apply Hks. by right.
    + apply add_aliases_from_key; [|done]. apply Hks. by left.
Qed.

End AnswerFacts.

(** X18.  Whatever the store and the text: a key the resolver answers is
    the lower-case form of a key of the store that is not empty.  With an
    empty store it answers no key. *)
Theorem resolver_answers_lowered_key `{PyUnicode} (board : Dict.t entry)
    (text k : pystr) :
  find_subject_in_message board text = Ok (Some k) →
  ∃ key, key ∈ Dict.keys board ∧ key ≠ [] ∧ k = lower key.
Proof.
  intros Hfind. apply find_subject_value in Hfind as [a Ha].
  revert a k Ha. unfold build_subject_alias_map.
  apply (alias_map_from_keys (λ k, ∃ key, key ∈ Dict.keys board ∧ key ≠ [] ∧ k = lower key));
    [by eauto|done].
Qed.

Lemma resolver_answers_lowered_key_witness :
  let board := [(py "Math", {| text := py "p.10"; photo_id := None |})] in
  find_subject_in_message board (py "что по math") = Ok (Some (py "math"))
  ∧ ∃ key, key ∈ Dict.keys board ∧ key ≠ [] ∧ py "math" = lower key.
Proof.
  intros board.
  assert (Hfind : find_subject_in_message board (py "что по math")
                  = Ok (Some (py "math"))) by (vm_compute; reflexivity).
  split; [exact Hfind|].
  exact (resolver_answers_lowered_key board (py "что по math") (py "math") Hfind).
Defined.

(** ** The console *)

Section ConsoleFacts.

Lemma strip_last (s : pystr) (c : N) : last (strip s) = Some c → isspace c = false.
Proof.
  unfold strip, rstrip.
  destruct (lstrip_head (rev (lstrip s))) as [->|(x & r & -> & Hx)]; [done|].
  cbn [rev]. rewrite last_snoc. by intros [= <-].
Qed.

Lemma startswith_app (p r : pystr) : startswith p (p ++ r) = true.
Proof.
  induction p as [|x p IH]; [done|].
  change (((x =? x)%N && startswith p (p ++ r)) = true).
  by rewrite N.eqb_refl, IH.
Qed.

Lemma startswith_prefix (p s : pystr) :
  startswith p s = true → s = p ++ drop (length p) s.
Proof.
  revert s. induction p as [|x p IH]; intros [|y s]; try done.
  change (((x =? y)%N && startswith p s) = true → y :: s = x :: p ++ drop (length p) s).
  intros [->%N.eqb_eq Hp]%andb_true_iff. f_equal. by apply IH.
Qed.

End ConsoleFacts.

(** X19.  One line at the console.  The word log, a space and a quoted
    text that has no quote in it and is not empty: the text between the
    quotes is logged and what follows the closing quote is ignored.  A
    text that is logged is never empty.  The line is reported as an empty
    text exactly when, once stripped, it starts with log, a space and two
    quotes in a row; so a log without quotes is never reported so. *)
Theorem console_log_forms (line : pystr) :
  (∀ text rest, strip line = py "log " ++ [DQUOTE] ++ text ++ [DQUOTE] ++ rest →
                DQUOTE ∉ text → text ≠ [] →
                console_command line = ConsoleLog text)
  ∧ (∀ text, console_command line = ConsoleLog text → text ≠ [])
  ∧ (console_command line = ConsoleEmptyText
     ↔ startswith (py "log " ++ [DQUOTE; DQUOTE]) (strip line) = true).
Proof.
  unfold console_command. split_and!.
  - intros text rest -> Hq Hne.
    rewrite (startswith_app (py "log ")).
    change (startswith (py "log " ++ [DQUOTE])
              (py "log " ++ [DQUOTE] ++ text ++ [DQUOTE] ++ rest))
      with (startswith (py "log " ++ [DQUOTE])
              ((py "log " ++ [DQUOTE]) ++ text ++ [DQUOTE] ++ rest)).
    rewrite (startswith_app (py "log " ++ [DQUOTE]) (text ++ [DQUOTE] ++ rest)).
    change (find_from DQUOTE 5 (py "log " ++ [DQUOTE] ++ text ++ [DQUOTE] ++ rest))
      with (S <$> (S <$> (S <$> (S <$> (S <$> find_from DQUOTE 0 (text ++ DQUOTE :: rest)))))).
    rewrite find_from_here by done. cbn [fmap option_fmap option_map].
    unfold slice.
    change (drop 5 (py "log " ++ [DQUOTE] ++ text ++ [DQUOTE] ++ rest))
      with (text ++ [DQUOTE] ++ rest).
    replace (5 + length text - 5)%nat with (length text) by lia.
    replace (S (S (S (S (S (length text))))) - 5)%nat with (length text) by lia.
    rewrite take_app_length. apply truthy_true in Hne. rewrite Hne. reflexivity.
  - intros text. repeat case_match; try done;
      intros [= <-]; by apply truthy_true.
  - set (command := strip line).
    destruct (startswith (py "log ") command) eqn:Hlog.
    + apply startswith_prefix in Hlog as Hcmd.
      change (length (py "log ")) with 4%nat in Hcmd.
      destruct (drop 4 command) as [|x rest] eqn:Hrest.
      * exfalso. rewrite app_nil_r in Hcmd.
        assert (Hlast : last (strip line) = Some SPACE) by (fold command; by rewrite Hcmd).
        by apply strip_last in Hlast.
      * rewrite Hcmd.
        change (startswith (py "log " ++ [DQUOTE]) (py "log " ++ x :: rest))
          with ((DQUOTE =? x)%N && true).
        change (startswith (py "log " ++ [DQUOTE; DQUOTE]) (py "log " ++ x :: rest))
          with ((DQUOTE =? x)%N && startswith [DQUOTE] rest).
        change (find_from DQUOTE 5 (py "log " ++ x :: rest))
          with (S <$> (S <$> (S <$> (S <$> (S <$> find_from DQUOTE 0 rest))))).
        destruct (N.eqb_spec DQUOTE x) as [<-|Hx]; cbn [andb].
        -- destruct rest as [|y rest]; [done|]. cbn [find_from].
           unfold startswith. fold startswith.
           destruct (N.eqb_spec y DQUOTE) as [->|Hy].
           ++ rewrite N.eqb_refl. done.
           ++ rewrite (proj2 (N.eqb_neq DQUOTE y)) by done.
              destruct (find_from DQUOTE 0 rest) as [e|]; [|done].
              cbn [fmap option_fmap option_map]. unfold slice.
              by destruct e.
        -- change (drop 4 (py "log " ++ x :: rest)) with (x :: rest).
           change (truthy (x :: rest)) with true. done.
    + assert (startswith (py "log " ++ [DQUOTE; DQUOTE]) command = false) as ->.
      { destruct (startswith (py "log " ++ [DQUOTE; DQUOTE]) command) eqn:Hq; [|done].
        apply startswith_prefix in Hq. rewrite Hq in Hlog.
        rewrite <- (app_assoc (py "log ")), startswith_app in Hlog. done. }
      repeat case_match; done.
Qed.

Lemma console_log_forms_witness :
  strip (py "  log " ++ [DQUOTE] ++ py "бот жив" ++ [DQUOTE] ++ py " и прочее ")
  = py "log " ++ [DQUOTE] ++ py "бот жив" ++ [DQUOTE] ++ py " и прочее"
  ∧ console_command
      (py "  log " ++ [DQUOTE] ++ py "бот жив" ++ [DQUOTE] ++ py " и прочее ")
    = ConsoleLog (py "бот жив").
Proof.
  assert (Hstrip :
    strip (py "  log " ++ [DQUOTE] ++ py "бот жив" ++ [DQUOTE] ++ py " и прочее ")
    = py "log " ++ [DQUOTE] ++ py "бот жив" ++ [DQUOTE] ++ py " и прочее")
    by (vm_compute; reflexivity).
  split; [exact Hstrip|].
  apply (proj1 (console_log_forms _) (py "бот жив") (py " и прочее") Hstrip).
  - intros Hin. apply list_elem_of_In in Hin. vm_compute in Hin.
    intuition discriminate.
  - discriminate.
Defined.


(** ** Naming a key for [/del] *)

Section DelKeyFacts.

Lemma strip_between (c d : N) (s : pystr) :
  isspace c = false → isspace d = false → strip (c :: s ++ [d]) = c :: s ++ [d].
Proof.
  intros Hc Hd. unfold strip. cbn [lstrip]. rewrite Hc.
  unfold rstrip. change (c :: s ++ [d]) with ((c :: s) ++ [d]).
  rewrite rev_app_distr. cbn [rev app lstrip]. rewrite Hd.
  change (d :: rev s ++ [c]) with ([d] ++ rev (c :: s)).
  by rewrite rev_app_distr, rev_involutive.
Qed.

Lemma slice_1_m1_between (c d : N) (s : pystr) : slice_1_m1 (c :: s ++ [d]) = s.
Proof. unfold slice_1_m1. cbn [tail]. apply removelast_last. Qed.

Lemma endswith_snoc (d : N) (s : pystr) : endswith [d] (s ++ [d]) = true.
Proof.
  unfold endswith. rewrite rev_app_distr. cbn [rev app].
  change (((d =? d)%N && true) = true). by rewrite N.eqb_refl.
Qed.

End DelKeyFacts.

(** X20.  Every key that is lower-case, trimmed and not empty, as the keys
    of the store are, can be removed by [/del] with the key between double
    quotes, whatever the key holds (spaces, quotes): the quoted form names
    the key itself; for a key of the store the entry is removed, the store
    is saved and the deletion is reported.  Without quotes the key names
    itself as long as it does not both start and end with a quote. *)
Theorem every_key_can_be_deleted `{PyUnicode} (s : bot) (m : Message) (k : pystr) :
  key_ok k →
  id (from_user m) ∉ muted_users s →
  chat_allowed (chat_id m) = true →
  body m = Text (py "/del " ++ [DQUOTE] ++ k ++ [DQUOTE]) →
  k ∈ Dict.keys (board_data s) →
  let s' := fst (run (delete_board m) s) in
  let out := snd (run (delete_board m) s) in
  parse_del_key ([DQUOTE] ++ k ++ [DQUOTE]) = k
  ∧ (startswith [DQUOTE] k && endswith [DQUOTE] k = false → parse_del_key k = k)
  ∧ board_data s' = Dict.del k (board_data s)
  ∧ (k ∉ Dict.keys (board_data s'))
  ∧ (∀ k', k' ≠ k → Dict.get k' (board_data s') = Dict.get k' (board_data s))
  ∧ out = [ save_data (board_data s');
            reply_to (chat_id m) (message_id m) (Deleted k) (next_message_id s);
            delete_message_with_delay (chat_id m) (message_id m) 300;
            delete_message_with_delay (chat_id m) (next_message_id s) 15 ].
Proof.
  intros (Hlower & Hstrip & Hne) Hmute Hchat Hbody Hin s' out.
  assert (Hparse : parse_del_key ([DQUOTE] ++ k ++ [DQUOTE]) = k).
  { unfold parse_del_key.
    change ([DQUOTE] ++ k ++ [DQUOTE]) with (DQUOTE :: k ++ [DQUOTE]).
    change (startswith [DQUOTE] (DQUOTE :: k ++ [DQUOTE])) with true.
    assert (endswith [DQUOTE] (DQUOTE :: k ++ [DQUOTE]) = true) as ->
      by apply (endswith_snoc DQUOTE (DQUOTE :: k)).
    cbn [andb]. by rewrite slice_1_m1_between, Hstrip. }
  split; [exact Hparse|]. split.
  { intros Hq. unfold parse_del_key. by rewrite Hq. }
  subst s' out. unfold delete_board. m_step.
  rewrite bool_decide_eq_false_2 by done. rewrite Hchat. m_step.
  unfold msg_text. rewrite Hbody.
  change (split_max SPACE 1 (py "/del " ++ [DQUOTE] ++ k ++ [DQUOTE]))
    with [py "/del"; DQUOTE :: k ++ [DQUOTE]].
  cbv beta iota.
  rewrite (strip_between DQUOTE DQUOTE k) by done.
  change (truthy (DQUOTE :: k ++ [DQUOTE])) with true. m_step.
  change (DQUOTE :: k ++ [DQUOTE]) with ([DQUOTE] ++ k ++ [DQUOTE]).
  rewrite Hparse. apply truthy_true in Hne as Ht. rewrite Ht. m_step.
  apply dict_mem_keys in Hin as Hmem. rewrite Hmem. m_step.
  split_and!; [done| |by intros; apply dict_get_del|done].
  rewrite dict_keys_del. naive_solver.
Qed.

Lemma every_key_can_be_deleted_witness :
  let k := [DQUOTE] ++ py "изо и труд" ++ [DQUOTE] in
  let s := {| board_data := [(py "math", {| text := py "p.10"; photo_id := None |});
                             (k, {| text := py "p.3"; photo_id := None |})];
              muted_users := ∅; user_states := ∅; next_message_id := 1 |} in
  let m := {| message_id := 5; chat_id := DEBUG_CHAT_ID; chat_private := false;
              from_user := {| id := 7; username := None |}; date := 0;
              body := Text (py "/del " ++ [DQUOTE] ++ k ++ [DQUOTE]) |} in
  key_ok k
  ∧ board_data (fst (run (delete_board m) s))
    = [(py "math", {| text := py "p.10"; photo_id := None |})].
Proof.
  intros k s m.
  assert (Hk : key_ok k) by (repeat split; vm_compute; congruence).
  split; [exact Hk|].
  assert (Hin : k ∈ Dict.keys (board_data s)) by (apply list_elem_of_In; cbn; right; left; reflexivity).
  assert (Hmute : id (from_user m) ∉ muted_users s) by set_solver.
  rewrite (proj1 (proj2 (proj2
    (every_key_can_be_deleted s m k Hk Hmute eq_refl eq_refl Hin)))).
  vm_compute. reflexivity.
Defined.


(** X21.  [/msgu <group> <text>] from an administrator, where the group
    has no space in it and the text is not empty.  When the group is
    written in digits, with or without a leading minus, and reads as the
    number [g], the text goes to the chat [g] as it is, inner and leading
    spaces included, and the sending is reported; when it is not written
    so, nothing is sent to any chat but the report of the bad group.  The
    store, the mute set and the conversations are as before. *)
Theorem msgu_forwards_verbatim `{PyUnicode} (s : bot) (m : Message)
    (group text : pystr) :
  is_admin (id (from_user m)) = true →
  body m = Text (py "/msgu " ++ group ++ [SPACE] ++ text) →
  SPACE ∉ group →
  text ≠ [] →
  let numeric :=
    (startswith (py "-") group && py_isdigit (drop 1 group)) || py_isdigit group in
  let n := next_message_id s in
  let s' := fst (run (cmd_msgu m) s) in
  let out := snd (run (cmd_msgu m) s) in
  board_data s' = board_data s
  ∧ muted_users s' = muted_users s
  ∧ user_states s' = user_states s
  ∧ (∀ g, numeric = true → py_int group = Some g →
          out = [ send_message g (Raw text) n;
                  reply_to (chat_id m) (message_id m) (MsguSent g) (n + 1);
                  delete_message_with_delay (chat_id m) (message_id m) 300;
                  delete_message_with_delay (chat_id m) (n + 1) 300 ])
  ∧ (numeric = false →
          out = [ reply_to (chat_id m) (message_id m) MsguBadGroup n;
                  delete_message_with_delay (chat_id m) (message_id m) 300;
                  delete_message_with_delay (chat_id m) n 300 ]).
Proof.
  intros Hadmin Hbody Hgroup Htext numeric n s' out. subst s' out n.
  unfold cmd_msgu. rewrite Hadmin. cbn [negb].
  unfold msg_text. rewrite Hbody.
  assert (split_max SPACE 2 (py "/msgu " ++ group ++ [SPACE] ++ text)
          = [py "/msgu"; group; text]) as ->.
  { change (split_max SPACE 2 (py "/msgu " ++ group ++ [SPACE] ++ text))
      with (py "/msgu" ::
            match split1 SPACE (group ++ SPACE :: text) with
            | (a, None) => [a]
            | (a, Some b) => [a; b]
            end).
    by rewrite split1_here. }
  fold numeric. destruct numeric.
  - destruct (py_int group) as [g|]; m_step.
    + split_and!; try done. by intros ? _ [= <-].
    + split_and!; done.
  - m_step. split_and!; done.
Qed.

Lemma msgu_forwards_verbatim_witness :
  let s := {| board_data := []; muted_users := ∅; user_states := ∅;
              next_message_id := 1 |} in
  let m := {| message_id := 5; chat_id := 6066445210; chat_private := true;
              from_user := {| id := 6066445210; username := None |}; date := 0;
              body := Text (py "/msgu " ++ py "-1002415770314" ++ [SPACE]
                            ++ py " завтра  к 9:00") |} in
  is_admin (id (from_user m)) = true
  ∧ snd (run (cmd_msgu m) s)
    = [ send_message (-1002415770314) (Raw (py " завтра  к 9:00")) 1;
        reply_to 6066445210 5 (MsguSent (-1002415770314)) 2;
        delete_message_with_delay 6066445210 5 300;
        delete_message_with_delay 6066445210 2 300 ].
Proof.
  intros s m.
  assert (Hadmin : is_admin (id (from_user m)) = true) by (vm_compute; reflexivity).
  split; [exact Hadmin|].
  assert (Hgroup : SPACE ∉ py "-1002415770314").
  { intros Hin. apply list_elem_of_In in Hin. vm_compute in Hin.
    intuition discriminate. }
  assert (Htext : py " завтра  к 9:00" ≠ []) by discriminate.
  apply (proj1 (proj2 (proj2 (proj2
    (msgu_forwards_verbatim s m (py "-1002415770314") (py " завтра  к 9:00")
       Hadmin eq_refl Hgroup Htext))))).
  - vm_compute. reflexivity.
  - vm_compute. reflexivity.
Defined.


(** ** The files and the memory *)

Section FileFacts.
Context {U : PyUnicode}.

Lemma last_written_app {A} (written : action → option A) (file : A)
    (o1 o2 : list action) :
  last_written written file (o1 ++ o2)
  = last_written written (last_written written file o1) o2.
Proof. unfold last_written. apply foldl_app. Qed.

(** When every snapshot written is the final value, and the final value is
    the old one or has been written, the file holds the final value. *)
Lemma last_written_final {A} (written : action → option A) (file final : A)
    (out : list action) :
  (∀ a d, a ∈ out → written a = Some d → d = final) →
  file = final ∨ (∃ a, a ∈ out ∧ written a = Some final) →
  last_written written file out = final.
Proof.
  unfold last_written.
  induction out as [|a out IH] using rev_ind; intros Hall Hsome.
  - destruct Hsome as [->|(a & Ha & _)]; [done|]. by apply elem_of_nil in Ha.
  - rewrite foldl_snoc. destruct (written a) as [d|] eqn:Hw; cbn.
    + apply (Hall a); [|done]. apply elem_of_app. right. by left.
    + apply IH.
      * intros a' d Ha'. apply Hall. apply elem_of_app. by left.
      * destruct Hsome as [->|(a' & Ha' & Hw')]; [by left|]. right.
        apply elem_of_app in Ha' as [Ha'|Ha'%list_elem_of_singleton]; [by eauto|].
        congruence.
Qed.

Lemma handler_muted_effect (s : bot) (h : handler) (m : Message) :
  let s' := fst (run (handler_body h m) s) in
  let out := snd (run (handler_body h m) s) in
  (∀ ms, save_muted_users ms ∈ out → ms = muted_users s')
  ∧ (muted_users s' = muted_users s ∧ (∀ ms, save_muted_users ms ∉ out)
     ∨ save_muted_users (muted_users s') ∈ out ∧ h ∈ [h_mute; h_unmute]).
Proof.
  destruct h; h_cases m;
    (split; [intros ms Hms; calls_of Hms|]);
    first [ left; split; [reflexivity|intros ms Hms; calls_of Hms]
          | right; split; [in_calls|apply list_elem_of_In; cbn; tauto] ].
Qed.

Lemma step_muted_effect (s : bot) (u : update) :
  let s' := fst (step s u) in
  let out := snd (step s u) in
  (∀ ms, save_muted_users ms ∈ out → ms = muted_users s')
  ∧ (muted_users s' = muted_users s ∧ (∀ ms, save_muted_users ms ∉ out)
     ∨ save_muted_users (muted_users s') ∈ out
       ∧ classify s u ∈ [Some h_mute; Some h_unmute]).
Proof.
  unfold step. destruct u as [m|c].
  - destruct (classify s (Msg m)) as [h|] eqn:Hh.
    + destruct (handler_muted_effect s h m) as [Hsave [Hsame|(Hin & Hh')]].
      * split; [done|by left].
      * split; [done|]. right. split; [done|].
        apply list_elem_of_In in Hh'. cbn in Hh'.
        apply list_elem_of_In. cbn. intuition congruence.
    + cbn. split; [intros d Hd; calls_of Hd|].
      left. split; [done|intros d Hd; calls_of Hd].
  - destruct (callback_admin_effect s c) as (Hsame & _ & Hnone & _).
    split; [intros d Hd; by apply Hnone in Hd|by left].
Qed.

Lemma step_files (s : bot) (u : update) :
  DATA_FILE (board_data s) (snd (step s u)) = board_data (fst (step s u))
  ∧ MUTED_USERS_FILE (muted_users s) (snd (step s u)) = muted_users (fst (step s u)).
Proof.
  split; apply last_written_final.
  - intros [] d Ha [= <-]. by apply step_board_effect.
  - destruct (step_board_effect s u) as [_ [[Hsame _]|(Hin & _)]]; [by left|].
    right. by eexists.
  - intros [] d Ha [= <-]. by apply step_muted_effect.
  - destruct (step_muted_effect s u) as [_ [[Hsame _]|(Hin & _)]]; [by left|].
    right. by eexists.
Qed.

Lemma steps_snoc_calls (s : bot) (us : list update) (u : update) :
  snd (steps s (us ++ [u]))
  = snd (steps s us) ++ snd (step (fst (steps s us)) u).
Proof.
  unfold steps. rewrite foldl_snoc.
  destruct (foldl _ _ us) as [s' out]. cbn. by destruct (step s' u).
Qed.

End FileFacts.

(** X22.  The files follow the memory.  From a state whose store and mute
    set are what the two files hold, as it is after loading, and after any
    sequence of updates: the data file holds the store and the file of the
    muted users holds the mute set.  So the program that starts on the
    files, after [/restart] or a crash between two updates, has the store
    and the mute set there were; only the conversations are lost.  And a
    mute set that an update changes is saved, by [/mute] or [/unmute]. *)
Theorem files_follow_memory `{PyUnicode} (s : bot) (us : list update) :
  let s' := fst (steps s us) in
  let out := snd (steps s us) in
  DATA_FILE (board_data s) out = board_data s'
  ∧ MUTED_USERS_FILE (muted_users s) out = muted_users s'
  ∧ ∀ u, muted_users (fst (step s u)) ≠ muted_users s →
         save_muted_users (muted_users (fst (step s u))) ∈ snd (step s u)
         ∧ classify s u ∈ [Some h_mute; Some h_unmute].
Proof.
  cbv zeta. split_and!.
  - induction us as [|u us IH] using rev_ind; [done|].
    rewrite steps_snoc, steps_snoc_calls.
    unfold DATA_FILE in *. rewrite last_written_app, IH. apply step_files.
  - induction us as [|u us IH] using rev_ind; [done|].
    rewrite steps_snoc, steps_snoc_calls.
    unfold MUTED_USERS_FILE in *. rewrite last_written_app, IH. apply step_files.
  - intros u Hne.
    by destruct (step_muted_effect s u) as [_ [[Hsame _]|(Hin & Hh)]].
Qed.
Lemma files_follow_memory_witness :
  let s := {| board_data := []; muted_users := ∅; user_states := ∅;
              next_message_id := 1 |} in
  let set := {| message_id := 5; chat_id := DEBUG_CHAT_ID; chat_private := false;
                from_user := {| id := 7; username := None |}; date := 0;
                body := Text (py "/set math p.10") |} in
  let mute := {| message_id := 6; chat_id := DEBUG_CHAT_ID; chat_private := false;
                 from_user := {| id := 6066445210; username := None |}; date := 0;
                 body := Text (py "/mute 7") |} in
  muted_users (fst (step s (Msg mute))) ≠ muted_users s
  ∧ classify s (Msg mute) ∈ [Some h_mute; Some h_unmute]
  ∧ Dict.keys (DATA_FILE [] (snd (steps s [Msg set; Msg mute]))) = [py "math"].
Proof.
  intros s set mute.
  assert (Hne : muted_users (fst (step s (Msg mute))) ≠ muted_users s).
  { intros Heq. assert (Hin : 7 ∈ muted_users (fst (step s (Msg mute))))
      by (vm_compute; reflexivity).
    rewrite Heq in Hin. by apply not_elem_of_empty in Hin. }
  split_and!; [exact Hne| |].
  - exact (proj2 (proj2 (proj2 (files_follow_memory s [])) (Msg mute) Hne)).
  - change [] with (board_data s) at 1.
    rewrite (proj1 (files_follow_memory s [Msg set; Msg mute])).
    vm_compute. reflexivity.
Defined.


(** ** The list of subjects and its buttons *)

Section ButtonFacts.
Context {U : PyUnicode}.

Lemma sorted_by_perm (key : pystr → pystr) (l : list pystr) : sorted_by key l ≡ₚ l.
Proof.
  unfold sorted_by. induction l as [|x l IH]; cbn; [done|].
  by rewrite sorted_insert_perm, IH.
Qed.

Lemma subject_buttons_keys (board : Dict.t entry) (k : pystr) :
  k ∈ generate_subject_buttons board ↔ k ∈ Dict.keys board.
Proof.
  unfold generate_subject_buttons. case_bool_decide as Hb; [by subst|].
  by rewrite sorted_by_perm.
Qed.

End ButtonFacts.

(** X23.  The button "show the list": the store is not touched; an empty
    store is answered with "the list is empty", any other store with the
    subject buttons.  Each of these buttons, pressed while the store is
    the same, leads to the homework stored under its key, sent to the user
    who pressed it, with the photo when there is one, and never to "not
    found". *)
Theorem listed_buttons_lead_to_homework `{PyUnicode} (s : bot) (c : CallbackQuery) :
  cq_data c = py "list" →
  let chat := chat_id (cq_message c) in
  let s' := fst (run (handle_callback c) s) in
  let out := snd (run (handle_callback c) s) in
  board_data s' = board_data s
  ∧ muted_users s' = muted_users s
  ∧ user_states s' = user_states s
  ∧ (board_data s = [] → send_message chat ListEmpty (next_message_id s) ∈ out)
  ∧ (board_data s ≠ [] →
     send_message chat (ListChoose (generate_subject_buttons (board_data s)))
       (next_message_id s) ∈ out)
  ∧ ∀ k c',
      k ∈ generate_subject_buttons (board_data s) →
      cq_data c' = py "get:" ++ k →
      let user_id := id (cq_from_user c') in
      let out' := snd (run (handle_callback c') s') in
      ∃ e, Dict.get k (board_data s) = Some e
           ∧ (photo_id e = None →
              send_message user_id (Homework k (text e)) (next_message_id s') ∈ out')
           ∧ (∀ f, photo_id e = Some f → f ≠ [] →
              send_photo user_id f (Homework k (text e)) (next_message_id s') ∈ out')
           ∧ ∀ chat' i, send_message chat' (SubjectNotFound k) i ∉ out'.
Proof.
  intros Hdata chat s' out.
  assert (Hs' : board_data s' = board_data s ∧ muted_users s' = muted_users s
                ∧ user_states s' = user_states s).
  { subst s'. unfold handle_callback. rewrite Hdata.
    change (pystr_eqb (py "list") (py "set_info")) with false.
    change (pystr_eqb (py "list") (py "delete_info")) with false.
    change (pystr_eqb (py "list") (py "list")) with true.
    m_cases; done. }
  destruct Hs' as (Hboard & Hmuted & Hstates).
  split_and!; try done.
  - intros Hempty. subst out chat. unfold handle_callback. rewrite Hdata.
    change (pystr_eqb (py "list") (py "set_info")) with false.
    change (pystr_eqb (py "list") (py "delete_info")) with false.
    change (pystr_eqb (py "list") (py "list")) with true.
    m_step. rewrite Hempty.
    change (generate_subject_buttons []) with (@nil pystr). m_step. in_calls.
  - intros Hne. subst out chat. unfold handle_callback. rewrite Hdata.
    change (pystr_eqb (py "list") (py "set_info")) with false.
    change (pystr_eqb (py "list") (py "delete_info")) with false.
    change (pystr_eqb (py "list") (py "list")) with true.
    m_step.
    destruct (generate_subject_buttons (board_data s)) as [|b bs] eqn:Hb.
    + destruct (board_data s) as [|[k0 e0] board] eqn:Hd; [done|].
      assert (Hk : k0 ∈ generate_subject_buttons ((k0, e0) :: board))
        by (apply subject_buttons_keys; by left).
      rewrite Hb in Hk. by apply elem_of_nil in Hk.
    + m_step. in_calls.
  - intros k c' Hk Hdata' user_id out'. subst user_id out'.
    apply subject_buttons_keys, dict_get_keys in Hk as [e He].
    exists e. split; [done|].
    assert (Hne : ∀ w, head w ≠ Some 103%N → pystr_eqb (py "get:" ++ k) w = false).
    { intros w Hw. apply bool_decide_eq_false_2. intros <-. by apply Hw. }
    unfold handle_callback. rewrite Hdata'.
    rewrite !Hne by (vm_compute; discriminate).
    change (startswith (py "get:") (py "get:" ++ k)) with true.
    change (drop 4 (py "get:" ++ k)) with k.
    m_step. rewrite Hboard, He. unfold truthy_opt.
    destruct (photo_id e) as [f|] eqn:Hf.
    + destruct (truthy f) eqn:Ht; m_cases;
        (split_and!;
         [ intros [=]
         | intros f' [= <-] Hf';
           first [ solve [in_calls] | apply truthy_true in Hf'; congruence ]
         | intros chat' i Hin; calls_of Hin ]).
    + m_cases;
        (split_and!;
         [ intros _; in_calls
         | intros f' [=]
         | intros chat' i Hin; calls_of Hin ]).
Qed.

Lemma listed_buttons_lead_to_homework_witness :
  let s := {| board_data := [(py "math", {| text := py "p.10"; photo_id := None |});
                             (py "art", {| text := py "draw";
                                           photo_id := Some (py "file1") |})];
              muted_users := ∅; user_states := ∅; next_message_id := 10 |} in
  let message := {| message_id := 3; chat_id := DEBUG_CHAT_ID; chat_private := false;
                    from_user := {| id := 1; username := None |};
                    date := 0; body := Other |} in
  let c := {| cq_from_user := {| id := 7; username := None |};
              cq_data := py "list"; cq_message := message |} in
  cq_data c = py "list"
  ∧ board_data s ≠ []
  ∧ send_message DEBUG_CHAT_ID (ListChoose [py "art"; py "math"]) 10
    ∈ snd (run (handle_callback c) s).
Proof.
  intros s message c.
  assert (Hne : board_data s ≠ []) by discriminate.
  split_and!; [reflexivity|exact Hne|].
  exact (proj1 (proj2 (proj2 (proj2 (proj2
    (listed_buttons_lead_to_homework s c eq_refl))))) Hne).
Defined.
